(** * smart_pdf_analyzer: a shallow embedding of [function_app.py]

    The Azure Functions application analyses an uploaded PDF with four
    independent activities, assembles their results into a report, stores
    the report in Table Storage and serves it back over HTTP.

    The Python code is untyped (payloads are [Dict[str, Any]]), so the
    embedding works on a small universe of Python values and keeps the
    source's names.  What the application gets from its libraries is
    embedded as far as the application's behaviour depends on it:
    - [re]: the five patterns of the source, run by a backtracking matcher;
    - [json.dumps] and [float.__repr__], [int(str)], [str.replace],
      [str.join], [sorted(set(...))], [list.sort] (as a stable insertion
      sort, which is what it computes when [<] orders the keys);
    - the reading of a JSON text and of a decimal as the nearest float,
      by which a served text is compared with the report it was written
      from;
    - the filter text of a table query, for the comparisons of a
      property with a string literal and their combinations;
    - floats are binary64 ([PrimFloat]); strings are sequences of the code
      points below U+0100;
    - a blob is represented by what [pypdf.PdfReader] reads from its bytes
      (or by the fact that it cannot be read, as a whole or in part);
    - Blob Storage, Table Storage, the clock and the orchestration's
      history are the fields of a [world] that activities read and write;
      an orchestration is run as the sequence of activity calls it makes.
    Connection strings and other process configuration are not part of
    the model. *)

From Stdlib Require Import ZArith List String Ascii Bool Lia Floats.
From Stdlib Require Import Permutation Sorted DecimalString DecimalZ DecimalPos.
From Stdlib Require Import Uint63 OrdersEx.
From Stdlib Require Import RelationClasses.
Import ListNotations.

#[local] Set Warnings "-register-all,-inexact-float".

Local Open Scope string_scope.
Local Open Scope list_scope.

(** ** Python values *)

Module Py.

(** The values that travel through payloads.  A [dict] keeps insertion
    order, as Python's does, and its keys are strings (the payloads are
    JSON objects). *)
Inductive value : Type :=
| None_ : value
| Bool (b : bool)
| Int (z : Z)
| Float (f : float)
| Str (s : string)
| List (l : list value)
| Dict (d : list (string * value)).

(** Python's truth value: [None], [False], zero, the empty string and the
    empty containers are false. *)
Definition truthy (v : value) : bool :=
  match v with
  | None_ => false
  | Bool b => b
  | Int z => negb (Z.eqb z 0)
  | Float f => negb (PrimFloat.eqb f 0%float)
  | Str s => negb (String.eqb s "")
  | List l => match l with [] => false | _ => true end
  | Dict d => match d with [] => false | _ => true end
  end.

(** [a or b] *)
Definition or_ (a b : value) : value := if truthy a then a else b.

(** Lookup in a dict body: the first binding of the key. *)
Fixpoint lookup (k : string) (d : list (string * value)) : option value :=
  match d with
  | [] => None
  | (k', v) :: d' => if String.eqb k k' then Some v else lookup k d'
  end.

(** [d[k] = v]: overwrite in place, or append a new binding. *)
Fixpoint set (k : string) (v : value) (d : list (string * value))
  : list (string * value) :=
  match d with
  | [] => [(k, v)]
  | (k', v') :: d' =>
      if String.eqb k k' then (k', v) :: d' else (k', v') :: set k v d'
  end.

(** [payload.get(k, default)] on a dict body. *)
Definition get_or (d : list (string * value)) (k : string) (default : value)
  : value :=
  match lookup k d with Some v => v | None => default end.

(** [payload.get(k)] *)
Definition get (d : list (string * value)) (k : string) : value :=
  get_or d k None_.

(** *** Comparisons

    Numbers (bools, ints and floats) compare by value, exactly, also an
    int with a float; a comparison with NaN is false.  Strings compare by
    code point, lists element by element.  Anything else is equal to
    nothing but itself and is not ordered. *)

Inductive number : Type :=
| NInt (z : Z)
| NFloat (f : float).

Definition number_of (v : value) : option number :=
  match v with
  | Bool b => Some (NInt (if b then 1 else 0))
  | Int z => Some (NInt z)
  | Float f => Some (NFloat f)
  | _ => None
  end.

(** An int against a float; [None] when the float is NaN. *)
Definition compare_int_float (z : Z) (f : float) : option comparison :=
  match Prim2SF f with
  | S754_nan => None
  | S754_infinity false => Some Lt
  | S754_infinity true => Some Gt
  | S754_zero _ => Some (z ?= 0)%Z
  | S754_finite s m e =>
      let v := if s then Z.neg m else Z.pos m in
      Some (if (0 <=? e)%Z then (z ?= v * 2 ^ e)%Z else (z * 2 ^ (- e) ?= v)%Z)
  end.

Definition compare_floats (x y : float) : option comparison :=
  match PrimFloat.compare x y with
  | FEq => Some Eq
  | FLt => Some Lt
  | FGt => Some Gt
  | FNotComparable => None
  end.

Definition compare_numbers (a b : number) : option comparison :=
  match a, b with
  | NInt x, NInt y => Some (x ?= y)%Z
  | NFloat x, NFloat y => compare_floats x y
  | NInt x, NFloat y => compare_int_float x y
  | NFloat x, NInt y => option_map CompOpp (compare_int_float y x)
  end.

(** [a == b] *)
Fixpoint eqb (a b : value) {struct a} : bool :=
  match number_of a, number_of b with
  | Some x, Some y =>
      match compare_numbers x y with Some Eq => true | _ => false end
  | _, _ =>
      match a, b with
      | None_, None_ => true
      | Str x, Str y => String.eqb x y
      | List x, List y =>
          (fix all (x y : list value) {struct x} : bool :=
             match x, y with
             | [], [] => true
             | u :: x', v :: y' => eqb u v && all x' y'
             | _, _ => false
             end) x y
      | Dict x, Dict y =>
          Nat.eqb (List.length x) (List.length y)
          && (fix all (x : list (string * value)) {struct x} : bool :=
                match x with
                | [] => true
                | (k, u) :: x' =>
                    match lookup k y with
                    | Some v => eqb u v && all x'
                    | None => false
                    end
                end) x
      | _, _ => false
      end
  end.

(** [a < b]; [None] stands for [TypeError]. *)
Fixpoint ltb (a b : value) {struct a} : option bool :=
  match number_of a, number_of b with
  | Some x, Some y =>
      Some (match compare_numbers x y with Some Lt => true | _ => false end)
  | _, _ =>
      match a, b with
      | Str x, Str y => Some (String.ltb x y)
      | List x, List y =>
          (fix first (x y : list value) {struct x} : option bool :=
             match x, y with
             | [], [] => Some false
             | [], _ :: _ => Some true
             | _ :: _, [] => Some false
             | u :: x', v :: y' => if eqb u v then first x' y' else ltb u v
             end) x y
      | _, _ => None
      end
  end.

(** [type(v).__name__] *)
Definition type_name (v : value) : string :=
  match v with
  | None_ => "NoneType"
  | Bool _ => "bool"
  | Int _ => "int"
  | Float _ => "float"
  | Str _ => "str"
  | List _ => "list"
  | Dict _ => "dict"
  end.

End Py.

(** ** Text

    A Python [str] is modelled by a Rocq [string] whose characters are the
    code points U+0000..U+00FF. *)

Module Text.

(** ["\n"] *)
Definition nl : string := String (ascii_of_nat 10) "".

Definition code (c : ascii) : nat := nat_of_ascii c.

Definition in_range (lo hi : nat) (c : ascii) : bool :=
  (lo <=? code c)%nat && (code c <=? hi)%nat.

Definition is_digit (c : ascii) : bool := in_range 48 57 c.

Definition is_ascii_alpha (c : ascii) : bool :=
  in_range 65 90 c || in_range 97 122 c.

(** [\s] of a str pattern: Unicode white space, which below U+0100 is
    TAB..CR, FS..US, SPACE, NEL and NBSP. *)
Definition is_space (c : ascii) : bool :=
  in_range 9 13 c || in_range 28 32 c || (code c =? 133)%nat
  || (code c =? 160)%nat.

(** [\w] of a str pattern: an alphanumeric character or the underscore.
    Below U+0100 the alphanumerics are the ASCII letters and digits, the
    ordinal indicators, the superscript digits, micro, the vulgar
    fractions and the accented Latin letters. *)
Definition is_word (c : ascii) : bool :=
  is_digit c || is_ascii_alpha c || (code c =? 95)%nat
  || (code c =? 170)%nat || (code c =? 178)%nat || (code c =? 179)%nat
  || (code c =? 181)%nat || (code c =? 185)%nat || (code c =? 186)%nat
  || in_range 188 190 c || in_range 192 214 c || in_range 216 246 c
  || in_range 248 255 c.

(** [sep.join(parts)] *)
Definition join (sep : string) (parts : list string) : string :=
  String.concat sep parts.

(** [s.replace(old, new)] for a non-empty [old]: every occurrence, left to
    right, without overlap.  [skip] counts the characters of an occurrence
    that are still to be dropped. *)
Fixpoint replace_from (old new : string) (skip : nat) (s : string) : string :=
  match s with
  | EmptyString => EmptyString
  | String c s' =>
      match skip with
      | S n => replace_from old new n s'
      | O =>
          if String.prefix old s
          then new ++ replace_from old new (String.length old - 1) s'
          else String c (replace_from old new 0 s')
      end
  end.

Definition replace (old new s : string) : string := replace_from old new 0 s.

(** [sorted(set(xs))] on strings: ascending by code point, no repeats. *)
Fixpoint insert_unique (x : string) (l : list string) : list string :=
  match l with
  | [] => [x]
  | y :: l' =>
      match String.compare x y with
      | Lt => x :: y :: l'
      | Eq => y :: l'
      | Gt => y :: insert_unique x l'
      end
  end.

Definition sorted_set (xs : list string) : list string :=
  fold_left (fun acc x => insert_unique x acc) xs [].

End Text.

(** ** Regular expressions

    The fragment of Python's [re] that the application's five patterns
    use, with [re]'s backtracking semantics: alternatives are tried left
    to right and repetitions are greedy.  A match is run in
    continuation-passing style; it yields the text left after the match. *)

Module Re.

Inductive regex : Type :=
| Eps
| Chr (p : ascii -> bool)
| Bnd
| Seq (r1 r2 : regex)
| Alt (r1 r2 : regex)
| Rep (r : regex) (lo : nat) (hi : option nat).

Definition cont : Type := option ascii -> string -> option string.

Definition matcher : Type := option ascii -> string -> cont -> option string.

Definition word_before (prev : option ascii) : bool :=
  match prev with Some c => Text.is_word c | None => false end.

Definition word_after (s : string) : bool :=
  match s with String c _ => Text.is_word c | EmptyString => false end.

(** [\b]: exactly one side of the position is a word character. *)
Definition at_boundary (prev : option ascii) (s : string) : bool :=
  xorb (word_before prev) (word_after s).

Definition below (hi : option nat) (n : nat) : bool :=
  match hi with Some h => (n <? h)%nat | None => true end.

Section Repeat.
Variable body : matcher.
Variables (lo : nat) (hi : option nat) (k : cont).

(** Greedy [body{lo,hi}] after [n] iterations: try one more iteration
    first, fall back to the continuation.  Each iteration consumes at
    least one character, so the length of the text bounds their number. *)
Fixpoint rep (fuel n : nat) (prev : option ascii) (s : string)
  : option string :=
  let stop := if (lo <=? n)%nat then k prev s else None in
  match fuel with
  | O => stop
  | S fuel' =>
      if below hi n then
        match
          body prev s
            (fun prev' s' =>
               if (String.length s' <? String.length s)%nat
               then rep fuel' (S n) prev' s' else None)
        with
        | Some rest => Some rest
        | None => stop
        end
      else stop
  end.
End Repeat.

Fixpoint matches (r : regex) (prev : option ascii) (s : string) (k : cont)
  {struct r} : option string :=
  match r with
  | Eps => k prev s
  | Chr p =>
      match s with
      | String c s' => if p c then k (Some c) s' else None
      | EmptyString => None
      end
  | Bnd => if at_boundary prev s then k prev s else None
  | Seq r1 r2 => matches r1 prev s (fun prev' s' => matches r2 prev' s' k)
  | Alt r1 r2 =>
      match matches r1 prev s k with
      | Some rest => Some rest
      | None => matches r2 prev s k
      end
  | Rep r' lo hi => rep (matches r') lo hi k (String.length s) 0 prev s
  end.

Definition accept : cont := fun _ rest => Some rest.

(** The match of [r] that starts at the head of [s], if any. *)
Definition match_here (r : regex) (prev : option ascii) (s : string)
  : option string :=
  match matches r prev s accept with
  | Some rest =>
      Some (String.substring 0 (String.length s - String.length rest) s)
  | None => None
  end.

(** [re.findall]: the non-overlapping matches, scanning left to right.
    [skip] counts the characters of the last match still to be passed. *)
Fixpoint findall_from (r : regex) (skip : nat) (prev : option ascii)
  (s : string) : list string :=
  match s with
  | EmptyString =>
      match skip, match_here r prev EmptyString with
      | O, Some m => [m]
      | _, _ => []
      end
  | String c s' =>
      match skip with
      | S n => findall_from r n (Some c) s'
      | O =>
          match match_here r prev s with
          | Some m => m :: findall_from r (String.length m - 1) (Some c) s'
          | None => findall_from r 0 (Some c) s'
          end
      end
  end.

Definition findall (r : regex) (s : string) : list string :=
  findall_from r 0 None s.

(** Pattern builders. *)
Definition seq (rs : list regex) : regex := fold_right Seq Eps rs.

Definition lit (s : string) : regex :=
  seq (map (fun c => Chr (Ascii.eqb c)) (list_ascii_of_string s)).

Definition one_of (s : string) (c : ascii) : bool :=
  existsb (Ascii.eqb c) (list_ascii_of_string s).

Definition plus (r : regex) : regex := Rep r 1 None.
Definition opt (r : regex) : regex := Rep r 0 (Some 1).
Definition times (n : nat) (r : regex) : regex := Rep r n (Some n).

Definition alnum (c : ascii) : bool := Text.is_digit c || Text.is_ascii_alpha c.
Definition digit : regex := Chr Text.is_digit.
Definition sep_char : regex :=
  Chr (fun c => one_of "-." c || Text.is_space c).
Definition url_char : regex :=
  Chr (fun c => negb (Text.is_space c || one_of ")" c)).

(** [\b\w+\b] *)
Definition word_re : regex := seq [Bnd; plus (Chr Text.is_word); Bnd].

(** What follows [\w+] in [word_re]: a boundary, then the end. *)
Definition closing : cont := fun prev s => matches (seq [Bnd]) prev s accept.

(** [\b[A-Za-z0-9._%+-]+@[A-Za-z0-9.-]+\.[A-Za-z]{2,}\b] *)
Definition email_re : regex :=
  seq [Bnd; plus (Chr (fun c => alnum c || one_of "._%+-" c)); lit "@";
       plus (Chr (fun c => alnum c || one_of ".-" c)); lit ".";
       Rep (Chr Text.is_ascii_alpha) 2 None; Bnd].

(** [\bhttps?://[^\s)]+|\bwww\.[^\s)]+] *)
Definition url_re : regex :=
  Alt (seq [Bnd; lit "http"; opt (lit "s"); lit "://"; plus url_char])
      (seq [Bnd; lit "www."; plus url_char]).

(** [\b(?:\+?1[-.\s]?)?(?:\(?\d{3}\)?[-.\s]?)\d{3}[-.\s]?\d{4}\b] *)
Definition phone_re : regex :=
  seq [Bnd; opt (seq [opt (lit "+"); lit "1"; opt sep_char]);
       seq [opt (lit "("); times 3 digit; opt (lit ")"); opt sep_char];
       times 3 digit; opt sep_char; times 4 digit; Bnd].

(** [\b(?:\d{4}-\d{2}-\d{2}|\d{1,2}/\d{1,2}/\d{2,4})\b] *)
Definition date_re : regex :=
  seq [Bnd;
       Alt (seq [times 4 digit; lit "-"; times 2 digit; lit "-"; times 2 digit])
           (seq [Rep digit 1 (Some 2); lit "/"; Rep digit 1 (Some 2); lit "/";
                 Rep digit 2 (Some 4)]);
       Bnd].

End Re.

(** ** Numbers as Python prints and divides them *)

Module Num.

Local Open Scope Z_scope.

(** [str(n)] for an int. *)
Definition str_of_int (z : Z) : string :=
  DecimalString.NilZero.string_of_int (Z.to_int z).

(** [int(s)] for a str: optional white space around an optional sign and
    decimal digits, single underscores allowed between digits.  [None]
    stands for [ValueError].  The white space [int] skips is TAB..CR,
    SPACE, NEL and NBSP.  CPython (3.11, and the earlier versions with the
    fix for CVE-2020-10735) refuses a literal of more than 4300 digits,
    leading zeros counted, unless the limit has been reconfigured. *)
Definition is_int_space (c : ascii) : bool :=
  Text.in_range 9 13 c || (Text.code c =? 32)%nat || (Text.code c =? 133)%nat
  || (Text.code c =? 160)%nat.

Fixpoint strip_left (s : string) : string :=
  match s with
  | String c s' => if is_int_space c then strip_left s' else s
  | EmptyString => EmptyString
  end.

Definition digit_value (c : ascii) : Z := Z.of_nat (Text.code c) - 48.

(** Digits after [acc]; [after_digit] says whether the last character read
    was a digit (an underscore must sit between two digits). *)
Fixpoint digits_from (acc : Z) (after_digit : bool) (s : string) : option Z :=
  match s with
  | EmptyString => if after_digit then Some acc else None
  | String c s' =>
      if Text.is_digit c then digits_from (10 * acc + digit_value c) true s'
      else if (Text.code c =? 95)%nat then
        if after_digit then
          match s' with
          | String d _ => if Text.is_digit d then digits_from acc false s' else None
          | EmptyString => None
          end
        else None
      else if is_int_space c then
        if after_digit then
          match strip_left s' with EmptyString => Some acc | _ => None end
        else None
      else None
  end.

Definition max_str_digits : nat := 4300.

Fixpoint count_digits (s : string) : nat :=
  match s with
  | EmptyString => O
  | String c s' => ((if Text.is_digit c then 1 else 0) + count_digits s')%nat
  end.

Definition int_of_str (s : string) : option Z :=
  if (max_str_digits <? count_digits s)%nat then None
  else
    match strip_left s with
    | String c s' =>
        if Ascii.eqb c "-" then option_map Z.opp (digits_from 0 false s')
        else if Ascii.eqb c "+" then digits_from 0 false s'
        else digits_from 0 false (String c s')
    | EmptyString => None
    end.

(** [float(n)] for an int of magnitude below 2^63; exact below 2^53. *)
Definition float_of_int (z : Z) : float :=
  if z <? 0 then PrimFloat.opp (PrimFloat.of_uint63 (Uint63.of_Z (- z)))
  else PrimFloat.of_uint63 (Uint63.of_Z z).

(** [a / b] on ints with [b <> 0]: the quotient as a binary64 float.  This
    is Python's result whenever both operands convert exactly (magnitudes
    up to 2^53), which counts of pages and words do. *)
Definition truediv (a b : Z) : float :=
  PrimFloat.div (float_of_int a) (float_of_int b).

(** *** [repr] of a float: the shortest decimal that reads back as the
    same float, in Python's layout. *)

(** A positive float is [m * 2^e]; in units of [2^(e-2)] the value is
    [4m], the upper end of its rounding interval [4m+2], the lower end
    [4m-2] (or [4m-1] just above a power of two).  A quantity [x] in
    those units and a decimal [c * 10^k] are compared after clearing
    denominators. *)
Definition pow2 (n : Z) : Z := 2 ^ Z.max n 0.
Definition pow10 (n : Z) : Z := 10 ^ Z.max n 0.

Definition dec_compare (e c k x : Z) : comparison :=
  (c * pow10 k * pow2 (2 - e)) ?= (x * pow2 (e - 2) * pow10 (- k)).

Definition dec_floor (e k x : Z) : Z :=
  (x * pow2 (e - 2) * pow10 (- k)) / (pow10 k * pow2 (2 - e)).

Definition lower_end (m e : Z) : Z :=
  if (m =? 2 ^ 52) && (-1074 <? e) then 4 * m - 1 else 4 * m - 2.

Definition in_interval (m e c k : Z) : bool :=
  let even := Z.even m in
  match dec_compare e c k (lower_end m e), dec_compare e c k (4 * m + 2) with
  | Gt, Lt => true
  | Eq, Lt => even
  | Gt, Eq => even
  | _, _ => false
  end.

(** [floor (log10 (m * 2^e))] *)
Definition decimal_exponent (m e : Z) : Z :=
  let guess := ((Z.log2 m + e) * 30103) / 100000 in
  let fits E := match dec_compare e 1 E (4 * m) with Gt => false | _ => true end in
  if fits (guess + 1) then guess + 1
  else if fits guess then guess else guess - 1.

(** The distance from [c * 10^k] up to the value against the distance
    from the value up to [(c + 1) * 10^k], in a common unit. *)
Definition nearer (e c k m : Z) : comparison :=
  let v := 4 * m * pow2 (e - 2) * pow10 (- k) in
  let unit := pow10 k * pow2 (2 - e) in
  (v - c * unit) ?= ((c + 1) * unit - v).

(** Of two decimals of the same length that both read back as the float,
    the nearer one is printed; when they are equally near, the one with
    the even last digit. *)
Definition closer_floor (e c k m : Z) : bool :=
  match nearer e c k m with
  | Lt => true
  | Eq => Z.even c
  | Gt => false
  end.

(** The float [m * 2^e] written out in full: [c * 10^k] with an integer
    [c]. *)
Definition exact_decimal (m e : Z) : Z * Z :=
  if 0 <=? e then (m * 2 ^ e, 0) else (m * 5 ^ (- e), e).

(** The shortest decimal with [n] or more digits that reads back as the
    float.  Seventeen digits always do; the decimal written out in full
    stands where the search would go on after them. *)
Fixpoint shortest (fuel : nat) (n m e E : Z) : Z * Z :=
  let k := E - n + 1 in
  let c := dec_floor e k (4 * m) in
  let lo_ok := in_interval m e c k in
  let hi_ok := in_interval m e (c + 1) k in
  match fuel with
  | O => exact_decimal m e
  | S fuel' =>
      if lo_ok && hi_ok then (if closer_floor e c k m then (c, k) else (c + 1, k))
      else if lo_ok then (c, k)
      else if hi_ok then (c + 1, k)
      else shortest fuel' (n + 1) m e E
  end.

Fixpoint strip_zeros (fuel : nat) (c k : Z) : Z * Z :=
  match fuel with
  | O => (c, k)
  | S fuel' => if (c mod 10 =? 0) && (0 <? c) then strip_zeros fuel' (c / 10) (k + 1) else (c, k)
  end.

Fixpoint zeros (n : nat) : string :=
  match n with O => EmptyString | S n' => String "0" (zeros n') end.

Definition layout (digits : string) (decpt : Z) : string :=
  let len := Z.of_nat (String.length digits) in
  if (decpt <=? -4) || (16 <? decpt) then
    let e10 := decpt - 1 in
    let mant :=
      match digits with
      | String d EmptyString => digits
      | String d rest => String d ("." ++ rest)
      | EmptyString => digits
      end in
    let ex := str_of_int (Z.abs e10) in
    mant ++ "e" ++ (if e10 <? 0 then "-" else "+")
         ++ (if Z.abs e10 <? 10 then "0" else "") ++ ex
  else if decpt <=? 0 then "0." ++ zeros (Z.to_nat (- decpt)) ++ digits
  else if len <=? decpt then digits ++ zeros (Z.to_nat (decpt - len)) ++ ".0"
  else String.substring 0 (Z.to_nat decpt) digits ++ "."
       ++ String.substring (Z.to_nat decpt) (Z.to_nat (len - decpt)) digits.

Definition repr_finite (m e : Z) : string :=
  let E := decimal_exponent m e in
  let '(c, k) := shortest 17 1 m e E in
  let '(c, k) := strip_zeros 17 c k in
  let digits := str_of_int c in
  layout digits (Z.of_nat (String.length digits) + k).

(** *** Reading a decimal as a float

    [float(text)] and every reader of JSON numbers give the binary64
    nearest to the decimal, the one with the even mantissa when two are
    equally near.  The decimal [c * 10^k] is taken in units of [2^-1200]
    (the quantum of the smallest float is [2^-1074]), with a flag for the
    part of it below the unit. *)
Definition read_scale : Z := 1200.

Definition nearest (neg : bool) (c k : Z) : float :=
  let n := c * pow10 k * 2 ^ read_scale in
  let d := pow10 (- k) in
  let i := n / d in
  let sticky := negb (n mod d =? 0) in
  let zero := if neg then neg_zero else PrimFloat.zero in
  if i =? 0 then zero
  else
    let e0 := Z.max (Z.log2 i - read_scale - 52) (-1074) in
    let unit := 2 ^ (e0 + read_scale) in
    let q0 := i / unit in
    let rem := i mod unit in
    let up :=
      match 2 * rem ?= unit with
      | Gt => true
      | Eq => sticky || Z.odd q0
      | Lt => false
      end in
    let q := if up then q0 + 1 else q0 in
    let '(q, e) := if q =? 2 ^ 53 then (2 ^ 52, e0 + 1) else (q, e0) in
    if q =? 0 then zero
    else if 971 <? e then (if neg then neg_infinity else infinity)
    else SF2Prim (S754_finite neg (Z.to_pos q) e).

(** [repr(x)]; [json.dumps] prints finite floats with it. *)
Definition repr (f : float) : string :=
  match Prim2SF f with
  | S754_zero false => "0.0"
  | S754_zero true => "-0.0"
  | S754_infinity false => "inf"
  | S754_infinity true => "-inf"
  | S754_nan => "nan"
  | S754_finite s m e => (if s then "-" else "") ++ repr_finite (Zpos m) e
  end.

End Num.

(** ** JSON text *)

Module Json.

Local Open Scope string_scope.

Definition hex_digit (n : nat) : ascii :=
  if (n <? 10)%nat then ascii_of_nat (48 + n) else ascii_of_nat (87 + n).

(** One character inside a JSON string, [ensure_ascii=False]: the quote,
    the backslash and the control characters are escaped, everything else
    is kept. *)
Definition escape_char (c : ascii) : string :=
  let n := Text.code c in
  if (n =? 34)%nat then "\" ++ String c ""
  else if (n =? 92)%nat then "\\"
  else if (n =? 10)%nat then "\n"
  else if (n =? 13)%nat then "\r"
  else if (n =? 9)%nat then "\t"
  else if (n =? 8)%nat then "\b"
  else if (n =? 12)%nat then "\f"
  else if (n <? 32)%nat then
    "\u00" ++ String (hex_digit (n / 16)) (String (hex_digit (n mod 16)) "")
  else String c "".

Fixpoint escape (s : string) : string :=
  match s with
  | EmptyString => EmptyString
  | String c s' => escape_char c ++ escape s'
  end.

Definition quote (s : string) : string :=
  String (ascii_of_nat 34) (escape s ++ String (ascii_of_nat 34) "").

Definition float_text (f : float) : string :=
  match Prim2SF f with
  | S754_nan => "NaN"
  | S754_infinity false => "Infinity"
  | S754_infinity true => "-Infinity"
  | _ => Num.repr f
  end.

(** [json.dumps(v, ensure_ascii=False)] *)
Fixpoint dumps (v : Py.value) : string :=
  match v with
  | Py.None_ => "null"
  | Py.Bool true => "true"
  | Py.Bool false => "false"
  | Py.Int z => Num.str_of_int z
  | Py.Float f => float_text f
  | Py.Str s => quote s
  | Py.List l => "[" ++ Text.join ", " (map dumps l) ++ "]"
  | Py.Dict d =>
      "{" ++ Text.join ", " (map (fun kv => quote (fst kv) ++ ": " ++ dumps (snd kv)) d)
          ++ "}"
  end.

(** *** The value that a JSON text spells

    The reading of a JSON text, as [json.loads] does it: [null], [true]
    and [false]; a number without fraction and exponent is an int, any
    other number the nearest float; [NaN], [Infinity] and [-Infinity],
    which [json.dumps] writes, are read too; a string is read with its
    escapes (the characters are those below U+0100); an array is a list;
    an object is a dict, in which a name that comes again overwrites.
    The reading is more lenient than [json.loads] in two points: a number
    may have leading zeros, and an int may have more than 4300 digits. *)

Definition is_ws (c : ascii) : bool :=
  let n := Text.code c in
  (n =? 32)%nat || (n =? 9)%nat || (n =? 10)%nat || (n =? 13)%nat.

Fixpoint skip_ws (s : string) : string :=
  match s with
  | String c s' => if is_ws c then skip_ws s' else s
  | EmptyString => EmptyString
  end.

(** The character that stands after a backslash, [u] apart. *)
Definition unescape (e : ascii) : option ascii :=
  let n := Text.code e in
  if (n =? 34)%nat || (n =? 92)%nat || (n =? 47)%nat then Some e
  else if (n =? 98)%nat then Some (ascii_of_nat 8)
  else if (n =? 102)%nat then Some (ascii_of_nat 12)
  else if (n =? 110)%nat then Some (ascii_of_nat 10)
  else if (n =? 114)%nat then Some (ascii_of_nat 13)
  else if (n =? 116)%nat then Some (ascii_of_nat 9)
  else None.

Definition hex_value (c : ascii) : option nat :=
  let n := Text.code c in
  if Text.is_digit c then Some (n - 48)%nat
  else if Text.in_range 97 102 c then Some (n - 87)%nat
  else if Text.in_range 65 70 c then Some (n - 55)%nat
  else None.

(** The character of [\uXXXX], when it is below U+0100. *)
Definition unicode (h1 h2 h3 h4 : ascii) : option ascii :=
  match hex_value h1, hex_value h2, hex_value h3, hex_value h4 with
  | Some O, Some O, Some a, Some b => Some (ascii_of_nat (16 * a + b))
  | _, _, _, _ => None
  end.

Definition prepend (c : ascii) (r : option (string * string))
  : option (string * string) :=
  match r with
  | Some (t, rest) => Some (String c t, rest)
  | None => None
  end.

(** A string after its opening quote: its characters, and the text after
    the closing quote. *)
Fixpoint read_string (s : string) : option (string * string) :=
  match s with
  | EmptyString => None
  | String c s' =>
      if (Text.code c =? 34)%nat then Some (EmptyString, s')
      else if (Text.code c =? 92)%nat then
        match s' with
        | String e s'' =>
            if (Text.code e =? 117)%nat then
              match s'' with
              | String h1 (String h2 (String h3 (String h4 s3))) =>
                  match unicode h1 h2 h3 h4 with
                  | Some ch => prepend ch (read_string s3)
                  | None => None
                  end
              | _ => None
              end
            else
              match unescape e with
              | Some ch => prepend ch (read_string s'')
              | None => None
              end
        | EmptyString => None
        end
      else if (Text.code c <? 32)%nat then None
      else prepend c (read_string s')
  end.

Fixpoint take_digits (s : string) : string * string :=
  match s with
  | String c s' =>
      if Text.is_digit c
      then let '(ds, rest) := take_digits s' in (String c ds, rest)
      else (EmptyString, s)
  | EmptyString => (EmptyString, EmptyString)
  end.

Fixpoint digits_value (acc : Z) (s : string) : Z :=
  match s with
  | String c s' => digits_value (10 * acc + Num.digit_value c) s'
  | EmptyString => acc
  end.

Definition is_empty (s : string) : bool :=
  match s with EmptyString => true | _ => false end.

(** A minus sign, if the text has one at its head. *)
Definition take_minus (s : string) : bool * string :=
  match s with
  | String c s' => if Ascii.eqb c "-" then (true, s') else (false, s)
  | EmptyString => (false, s)
  end.

(** The fraction of a number: the digits after a point. *)
Definition take_fraction (s : string) : option (option string * string) :=
  match s with
  | String c s' =>
      if Ascii.eqb c "." then
        let '(ds, rest) := take_digits s' in
        if is_empty ds then None else Some (Some ds, rest)
      else Some (None, s)
  | EmptyString => Some (None, s)
  end.

(** The exponent of a number: [e] or [E], a sign, digits. *)
Definition take_exponent (s : string) : option (option Z * string) :=
  match s with
  | String c s' =>
      if Ascii.eqb c "e" || Ascii.eqb c "E" then
        let '(negative, s'') :=
          match s' with
          | String x r =>
              if Ascii.eqb x "-" then (true, r)
              else if Ascii.eqb x "+" then (false, r)
              else (false, s')
          | EmptyString => (false, s')
          end in
        let '(ds, rest) := take_digits s'' in
        if is_empty ds then None
        else Some (Some (if negative then (- digits_value 0 ds)%Z
                         else digits_value 0 ds), rest)
      else Some (None, s)
  | EmptyString => Some (None, s)
  end.

(** A number after its sign: digits, a fraction, an exponent. *)
Definition read_unsigned (negative : bool) (s1 : string)
  : option (Py.value * string) :=
  let '(whole, s2) := take_digits s1 in
  if is_empty whole then None
  else
    match take_fraction s2 with
    | None => None
    | Some (fraction, s3) =>
        match take_exponent s3 with
        | None => None
        | Some (exponent, s4) =>
            match fraction, exponent with
            | None, None =>
                let v := digits_value 0 whole in
                Some (Py.Int (if negative then (- v)%Z else v), s4)
            | _, _ =>
                let digits :=
                  match fraction with Some f => f | None => EmptyString end in
                let e10 := match exponent with Some e => e | None => 0%Z end in
                Some (Py.Float
                        (Num.nearest negative (digits_value 0 (whole ++ digits))
                           (e10 - Z.of_nat (String.length digits))),
                      s4)
            end
        end
    end.

Definition read_number (s : string) : option (Py.value * string) :=
  let '(negative, s1) := take_minus s in read_unsigned negative s1.

(** [word] at the head of [s], and what follows it. *)
Fixpoint after (word s : string) : option string :=
  match word, s with
  | EmptyString, _ => Some s
  | String a word', String c s' => if Ascii.eqb a c then after word' s' else None
  | _, EmptyString => None
  end.

Definition read_constant (s : string) : option (Py.value * string) :=
  match after "null" s with
  | Some rest => Some (Py.None_, rest)
  | None =>
  match after "true" s with
  | Some rest => Some (Py.Bool true, rest)
  | None =>
  match after "false" s with
  | Some rest => Some (Py.Bool false, rest)
  | None =>
  match after "NaN" s with
  | Some rest => Some (Py.Float nan, rest)
  | None =>
  match after "Infinity" s with
  | Some rest => Some (Py.Float infinity, rest)
  | None =>
  match after "-Infinity" s with
  | Some rest => Some (Py.Float neg_infinity, rest)
  | None => read_number s
  end end end end end end.

(** A value at the head of the text, and the text after it; the members
    of an array up to its closing bracket; the members of an object up to
    its closing brace, put into the dict [acc].  The fuel bounds the
    length of the text. *)
Fixpoint read_value (fuel : nat) (s : string) {struct fuel}
  : option (Py.value * string) :=
  match fuel with
  | O => None
  | S fuel' =>
      match skip_ws s with
      | EmptyString => None
      | String c s' =>
          if (Text.code c =? 34)%nat then
            match read_string s' with
            | Some (t, rest) => Some (Py.Str t, rest)
            | None => None
            end
          else if (Text.code c =? 91)%nat then
            match skip_ws s' with
            | String c' rest =>
                if (Text.code c' =? 93)%nat then Some (Py.List [], rest)
                else
                  match read_items fuel' s' with
                  | Some (l, rest') => Some (Py.List l, rest')
                  | None => None
                  end
            | EmptyString => None
            end
          else if (Text.code c =? 123)%nat then
            match skip_ws s' with
            | String c' rest =>
                if (Text.code c' =? 125)%nat then Some (Py.Dict [], rest)
                else
                  match read_members fuel' [] s' with
                  | Some (d, rest') => Some (Py.Dict d, rest')
                  | None => None
                  end
            | EmptyString => None
            end
          else read_constant (String c s')
      end
  end
with read_items (fuel : nat) (s : string) {struct fuel}
  : option (list Py.value * string) :=
  match fuel with
  | O => None
  | S fuel' =>
      match read_value fuel' s with
      | Some (v, rest) =>
          match skip_ws rest with
          | String c rest' =>
              if (Text.code c =? 44)%nat then
                match read_items fuel' rest' with
                | Some (l, rest'') => Some (v :: l, rest'')
                | None => None
                end
              else if (Text.code c =? 93)%nat then Some ([v], rest')
              else None
          | EmptyString => None
          end
      | None => None
      end
  end
with read_members (fuel : nat) (acc : list (string * Py.value)) (s : string)
  {struct fuel} : option (list (string * Py.value) * string) :=
  match fuel with
  | O => None
  | S fuel' =>
      match skip_ws s with
      | String q s' =>
          if (Text.code q =? 34)%nat then
            match read_string s' with
            | Some (name, rest) =>
                match skip_ws rest with
                | String colon rest' =>
                    if (Text.code colon =? 58)%nat then
                      match read_value fuel' rest' with
                      | Some (v, rest'') =>
                          let acc' := Py.set name v acc in
                          match skip_ws rest'' with
                          | String c rest3 =>
                              if (Text.code c =? 44)%nat
                              then read_members fuel' acc' rest3
                              else if (Text.code c =? 125)%nat
                              then Some (acc', rest3)
                              else None
                          | EmptyString => None
                          end
                      | None => None
                      end
                    else None
                | EmptyString => None
                end
            | None => None
            end
          else None
      | EmptyString => None
      end
  end.

(** The value that the whole text spells. *)
Definition read (text : string) : option Py.value :=
  match read_value (S (String.length text)) text with
  | Some (v, rest) => if is_empty (skip_ws rest) then Some v else None
  | None => None
  end.

(** No dict of the value has a key twice, as is so for the dicts of
    Python. *)
Fixpoint unique (keys : list string) : bool :=
  match keys with
  | [] => true
  | k :: keys' => negb (existsb (String.eqb k) keys') && unique keys'
  end.

Fixpoint proper (v : Py.value) : bool :=
  match v with
  | Py.List l => forallb proper l
  | Py.Dict d =>
      unique (map fst d)
      && (fix members (d : list (string * Py.value)) : bool :=
            match d with
            | [] => true
            | (_, x) :: d' => proper x && members d'
            end) d
  | _ => true
  end.

(** Every int of the value has at most 4300 digits: [json.dumps] prints
    no other int, and no reader in Python reads one (the limit of [int]
    and [str]). *)
Fixpoint printable (v : Py.value) : bool :=
  match v with
  | Py.Int z =>
      (String.length (Num.str_of_int (Z.abs z)) <=? Num.max_str_digits)%nat
  | Py.List l => forallb printable l
  | Py.Dict d =>
      (fix members (d : list (string * Py.value)) : bool :=
         match d with
         | [] => true
         | (_, x) :: d' => printable x && members d'
         end) d
  | _ => true
  end.

End Json.

(** ** Failures, storage and effects *)

Inductive exn : Type :=
| ResourceNotFoundError (msg : string)
| PdfReadError (msg : string)
| ValueError (msg : string)
| TypeError (msg : string)
| AttributeError (msg : string)
| HttpResponseError (msg : string).

(** [str(e)] *)
Definition str_of_exn (e : exn) : string :=
  match e with
  | ResourceNotFoundError msg | PdfReadError msg | ValueError msg
  | TypeError msg | AttributeError msg | HttpResponseError msg => msg
  end.

Inductive outcome (A : Type) : Type :=
| Returned (a : A)
| Raised (e : exn).

Arguments Returned {A} a.
Arguments Raised {A} e.

(** What [pypdf.PdfReader] exposes of a document: the text
    [page.extract_text()] gives for each page, in page order ([None] when
    it gives none), and the document information dictionary. *)
Record PdfReader : Type := {
  pages : list (option string);
  metadata : option (list (string * string))
}.

(** The bytes of a blob, seen through what [PdfReader] makes of them:
    bytes that are no PDF; a document that reads well; or a document that
    [PdfReader] opens but that is damaged inside, so that
    [page.extract_text()] raises on the page [bad_page] (counted from 0)
    or [reader.metadata] raises.  pypdf parses the content of a page and
    the information dictionary only when they are asked for. *)
Inductive pdf_bytes : Type :=
| NotPdf
| Pdf (reader : PdfReader)
| Damaged (reader : PdfReader) (bad_page : option nat) (bad_info : bool).

Definition entity : Type := list (string * Py.value).

(** The storage account and the host: the blobs by container and name,
    the report table by partition and row key (kept in key order, the
    order in which a query returns entities), the table's name, the text
    of [datetime.now(timezone.utc).isoformat()], the activities the
    orchestration has scheduled so far, oldest first, and whether the
    installed azure-data-tables takes a query's filter under the keyword
    [query_filter] (its early releases call the parameter [filter]). *)
Record world : Type := {
  blobs : list (string * string * pdf_bytes);
  table : list (string * string * entity);
  table_name : string;
  utcnow : string;
  scheduled : list (string * Py.value);
  query_filter_keyword : bool
}.

Definition with_table (t : list (string * string * entity)) (w : world) : world :=
  {| blobs := blobs w; table := t; table_name := table_name w;
     utcnow := utcnow w; scheduled := scheduled w;
     query_filter_keyword := query_filter_keyword w |}.

Definition with_scheduled (h : list (string * Py.value)) (w : world) : world :=
  {| blobs := blobs w; table := table w; table_name := table_name w;
     utcnow := utcnow w; scheduled := h;
     query_filter_keyword := query_filter_keyword w |}.

(** Computations that read and write the world and may raise. *)
Definition M (A : Type) : Type := world -> outcome A * world.

Definition ret {A} (a : A) : M A := fun w => (Returned a, w).
Definition raise {A} (e : exn) : M A := fun w => (Raised e, w).
Definition bind {A B} (c : M A) (k : A -> M B) : M B :=
  fun w =>
    match c w with
    | (Returned a, w') => k a w'
    | (Raised e, w') => (Raised e, w')
    end.
Definition gets {A} (f : world -> A) : M A := fun w => (Returned (f w), w).
Definition modify (f : world -> world) : M unit := fun w => (Returned tt, f w).

(** [try: c except Exception as e: handler(e)] *)
Definition try_except {A} (c : M A) (handler : exn -> M A) : M A :=
  fun w =>
    match c w with
    | (Returned a, w') => (Returned a, w')
    | (Raised e, w') => handler e w'
    end.

(** [try: c except TypeError: handler] *)
Definition try_except_TypeError {A} (c : M A) (handler : M A) : M A :=
  fun w =>
    match c w with
    | (Raised (TypeError _), w') => handler w'
    | r => r
    end.

Notation "x <- c ;; k" := (bind c (fun x => k))
  (at level 61, c at next level, right associativity).
Notation "c ;;; k" := (bind c (fun _ => k))
  (at level 61, right associativity).

Definition key_eqb (c n : string) (k : string * string) : bool :=
  String.eqb c (fst k) && String.eqb n (snd k).

(** Keys in the table's order: by partition key, then by row key. *)
Definition key_ltb (a b : string * string) : bool :=
  match String.compare (fst a) (fst b) with
  | Lt => true
  | Eq => String.ltb (snd a) (snd b)
  | Gt => false
  end.

(** ** Helpers of the application *)

Fixpoint find_blob (c n : string) (l : list (string * string * pdf_bytes))
  : option pdf_bytes :=
  match l with
  | [] => None
  | (k, b) :: l' => if key_eqb c n k then Some b else find_blob c n l'
  end.

(** [blob.download_blob().readall()] on the blob [container/blob_name]. *)
Definition _download_pdf_bytes (container blob_name : Py.value) : M pdf_bytes :=
  match container, blob_name with
  | Py.Str c, Py.Str n =>
      bs <- gets blobs ;;
      match find_blob c n bs with
      | Some b => ret b
      | None => raise (ResourceNotFoundError "The specified blob does not exist.")
      end
  | _, _ => raise (TypeError "container and blob names must be str")
  end.

(** [PdfReader(_BytesIO(pdf_bytes))] *)
Definition open_reader (b : pdf_bytes) : M PdfReader :=
  match b with
  | Pdf reader | Damaged reader _ _ => ret reader
  | NotPdf => raise (PdfReadError "invalid pdf header")
  end.

(** What a loop over [reader.pages] that calls [page.extract_text()] on
    every page meets in a damaged document: the failure on the damaged
    page.  The loops build local lists only, so nothing of the pages read
    before is left behind. *)
Definition pages_fault (b : pdf_bytes) : option exn :=
  match b with
  | Damaged reader (Some i) _ =>
      if (i <? List.length (pages reader))%nat
      then Some (PdfReadError "cannot read the content of the page")
      else None
  | _ => None
  end.

(** What [reader.metadata] meets in a damaged document. *)
Definition info_fault (b : pdf_bytes) : option exn :=
  match b with
  | Damaged _ _ true => Some (PdfReadError "cannot read the document information")
  | _ => None
  end.

Definition extract_pages (b : pdf_bytes) : M unit :=
  match pages_fault b with
  | Some e => raise e
  | None => ret tt
  end.

Definition read_metadata (b : pdf_bytes) : M unit :=
  match info_fault b with
  | Some e => raise e
  | None => ret tt
  end.

Definition _safe_str (v : option string) : string :=
  match v with
  | None => ""
  | Some s => s
  end.

(** [payload.get] needs [payload] to be a dict. *)
Definition as_dict (payload : Py.value) : M (list (string * Py.value)) :=
  match payload with
  | Py.Dict d => ret d
  | _ => raise (AttributeError "object has no attribute 'get'")
  end.

(** [page.extract_text() or ""] *)
Definition page_text (page : option string) : string :=
  match page with
  | Some t => t
  | None => ""
  end.

(** [enumerate(xs, start)] *)
Fixpoint enumerate {A} (start : Z) (xs : list A) : list (Z * A) :=
  match xs with
  | [] => []
  | x :: xs' => (start, x) :: enumerate (start + 1) xs'
  end.

Definition nonempty (s : string) : bool := negb (String.eqb s "").

(** [datetime.now(timezone.utc).isoformat().replace("+00:00", "Z")] *)
Definition utc_stamp : M string :=
  now <- gets utcnow ;; ret (Text.replace "+00:00" "Z" now).

(** ** The four analyzers *)

Definition empty_text : Py.value :=
  Py.Dict [("pages", Py.List []); ("full_text", Py.Str "")].

Definition empty_statistics : Py.value :=
  Py.Dict [("page_count", Py.Int 0); ("word_count", Py.Int 0);
           ("avg_words_per_page", Py.Float 0%float);
           ("estimated_reading_time_minutes", Py.Float 0%float)].

Definition empty_sensitive : Py.value :=
  Py.Dict [("emails", Py.List []); ("phones", Py.List []);
           ("urls", Py.List []); ("dates", Py.List [])].

(** The loop of [extract_text]: one step per page, appending to [pages]
    and, for a non-empty text, to [full_text_parts]. *)
Definition text_step (acc : list Py.value * list string) (ip : Z * option string)
  : list Py.value * list string :=
  let text := page_text (snd ip) in
  (fst acc ++ [Py.Dict [("page", Py.Int (fst ip)); ("text", Py.Str text)]],
   if nonempty text then snd acc ++ [text] else snd acc).

Definition text_of_reader (reader : PdfReader) : Py.value :=
  let acc := fold_left text_step (enumerate 1 (pages reader)) ([], []) in
  Py.Dict [("pages", Py.List (fst acc));
           ("full_text", Py.Str (Text.join Text.nl (snd acc)))].

Definition extract_text (payload : Py.value) : M Py.value :=
  d <- as_dict payload ;;
  let container := Py.or_ (Py.get d "container") (Py.Str "pdfs") in
  let blob_name := Py.get d "blob_name" in
  if negb (Py.truthy blob_name) then ret empty_text
  else
    pdf <- _download_pdf_bytes container blob_name ;;
    reader <- open_reader pdf ;;
    extract_pages pdf ;;;
    ret (text_of_reader reader).

Definition metadata_of_reader (reader : PdfReader) : Py.value :=
  let md := match metadata reader with Some m => m | None => [] end in
  let field k := Py.Str (_safe_str (option_map snd (find (fun kv => String.eqb k (fst kv)) md))) in
  Py.Dict [("title", field "/Title"); ("author", field "/Author");
           ("subject", field "/Subject"); ("creator", field "/Creator");
           ("producer", field "/Producer");
           ("creation_date", field "/CreationDate");
           ("mod_date", field "/ModDate")].

Definition extract_metadata (payload : Py.value) : M Py.value :=
  d <- as_dict payload ;;
  let container := Py.or_ (Py.get d "container") (Py.Str "pdfs") in
  let blob_name := Py.get d "blob_name" in
  if negb (Py.truthy blob_name) then ret (Py.Dict [])
  else
    pdf <- _download_pdf_bytes container blob_name ;;
    reader <- open_reader pdf ;;
    read_metadata pdf ;;;
    ret (metadata_of_reader reader).

(** The loop of [analyze_statistics] and of [detect_sensitive_data]: every
    page's text is appended, empty or not. *)
Definition all_text (reader : PdfReader) : string :=
  Text.join Text.nl
    (fold_left (fun parts page => parts ++ [page_text page]) (pages reader) []).

Definition statistics_of_reader (reader : PdfReader) : Py.value :=
  let page_count := Z.of_nat (List.length (pages reader)) in
  let full_text := all_text reader in
  let words := Re.findall Re.word_re full_text in
  let word_count := Z.of_nat (List.length words) in
  let avg_words_per_page :=
    if Py.truthy (Py.Int page_count) then Num.truediv word_count page_count
    else 0%float in
  let wpm := 200%Z in
  let estimated_minutes :=
    if Py.truthy (Py.Int wpm) then Num.truediv word_count wpm else 0%float in
  Py.Dict [("page_count", Py.Int page_count); ("word_count", Py.Int word_count);
           ("avg_words_per_page", Py.Float avg_words_per_page);
           ("estimated_reading_time_minutes", Py.Float estimated_minutes)].

Definition analyze_statistics (payload : Py.value) : M Py.value :=
  d <- as_dict payload ;;
  let container := Py.or_ (Py.get d "container") (Py.Str "pdfs") in
  let blob_name := Py.get d "blob_name" in
  if negb (Py.truthy blob_name) then ret empty_statistics
  else
    pdf <- _download_pdf_bytes container blob_name ;;
    reader <- open_reader pdf ;;
    extract_pages pdf ;;;
    ret (statistics_of_reader reader).

Definition found (re : Re.regex) (text : string) : Py.value :=
  Py.List (map Py.Str (Text.sorted_set (Re.findall re text))).

Definition sensitive_of_reader (reader : PdfReader) : Py.value :=
  let text := all_text reader in
  Py.Dict [("emails", found Re.email_re text); ("phones", found Re.phone_re text);
           ("urls", found Re.url_re text); ("dates", found Re.date_re text)].

Definition detect_sensitive_data (payload : Py.value) : M Py.value :=
  d <- as_dict payload ;;
  let container := Py.or_ (Py.get d "container") (Py.Str "pdfs") in
  let blob_name := Py.get d "blob_name" in
  if negb (Py.truthy blob_name) then ret empty_sensitive
  else
    pdf <- _download_pdf_bytes container blob_name ;;
    reader <- open_reader pdf ;;
    extract_pages pdf ;;;
    ret (sensitive_of_reader reader).

(** ** Report builder and report store *)

Definition generate_report (payload : Py.value) : M Py.value :=
  d <- as_dict payload ;;
  stamp <- utc_stamp ;;
  ret (Py.Dict
         [("container", Py.get_or d "container" (Py.Str "pdfs"));
          ("blob_name", Py.get_or d "blob_name" (Py.Str ""));
          ("generated_at_utc", Py.Str stamp);
          ("extract_text", Py.or_ (Py.get d "extract_text") empty_text);
          ("extract_metadata", Py.or_ (Py.get d "extract_metadata") (Py.Dict []));
          ("analyze_statistics", Py.or_ (Py.get d "analyze_statistics") (Py.Dict []));
          ("detect_sensitive_data",
           Py.or_ (Py.get d "detect_sensitive_data") empty_sensitive)]).

(** Merge the properties of [e] into [old]: properties of [old] that [e]
    does not name are kept, the others are overwritten. *)
Definition merge_entity (old e : entity) : entity :=
  fold_left (fun acc kv => Py.set (fst kv) (snd kv) acc) e old.

(** [table.upsert_entity(mode="merge", entity=e)] under the key [k]. *)
Fixpoint upsert (k : string * string) (e : entity)
  (t : list (string * string * entity)) : list (string * string * entity) :=
  match t with
  | [] => [(k, e)]
  | (k', old) :: t' =>
      if key_eqb (fst k) (snd k) k' then (k', merge_entity old e) :: t'
      else if key_ltb k k' then (k, e) :: (k', old) :: t'
      else (k', old) :: upsert k e t'
  end.

Definition upsert_entity (e : entity) : M unit :=
  match Py.get e "PartitionKey", Py.get e "RowKey" with
  | Py.Str pk, Py.Str rk => modify (fun w => with_table (upsert (pk, rk) e (table w)) w)
  | _, _ => raise (TypeError "PartitionKey and RowKey must be str")
  end.

Fixpoint find_entity (pk rk : string) (t : list (string * string * entity))
  : option entity :=
  match t with
  | [] => None
  | (k, e) :: t' => if key_eqb pk rk k then Some e else find_entity pk rk t'
  end.

(** [table.get_entity(partition_key=pk, row_key=rk)] *)
Definition get_entity (pk rk : string) : M entity :=
  t <- gets table ;;
  match find_entity pk rk t with
  | Some e => ret e
  | None => raise (ResourceNotFoundError "The specified resource does not exist.")
  end.

(** ** The filter of a table query

    A query names the entities it wants with a filter text.  Of the table
    service's filter grammar this is the part that compares a property
    with a string literal: the literal stands in single quotes, a doubled
    quote inside it stands for one quote; the comparisons are [eq], [ne],
    [gt], [ge], [lt] and [le]; they are joined with [not], [and], [or] and
    parentheses.  The service refuses a text that is no filter; the model
    refuses every text outside this part of the grammar. *)

Module Filter.

Inductive token : Type :=
| Word (s : string)
| Quoted (s : string)
| Open
| Close.

Inductive state : Type :=
| Idle
| InWord (w : string)
| InQuote (lit : string)
| AfterQuote (lit : string).

Definition is_quote (c : ascii) : bool := Ascii.eqb c "'".
Definition is_blank (c : ascii) : bool := Ascii.eqb c " ".

(** A character met outside a word and outside a literal. *)
Definition start (c : ascii) : list token * state :=
  if is_blank c then ([], Idle)
  else if Ascii.eqb c "(" then ([Open], Idle)
  else if Ascii.eqb c ")" then ([Close], Idle)
  else if is_quote c then ([], InQuote "")
  else ([], InWord (String c "")).

Definition step (st : state) (c : ascii) : list token * state :=
  match st with
  | Idle => start c
  | InWord w =>
      if is_blank c || Ascii.eqb c "(" || Ascii.eqb c ")" || is_quote c
      then let '(ts, st') := start c in (Word w :: ts, st')
      else ([], InWord (w ++ String c ""))
  | InQuote lit =>
      if is_quote c then ([], AfterQuote lit)
      else ([], InQuote (lit ++ String c ""))
  | AfterQuote lit =>
      if is_quote c then ([], InQuote (lit ++ "'"))
      else let '(ts, st') := start c in (Quoted lit :: ts, st')
  end.

(** The tokens of a text; none when a literal is left open. *)
Fixpoint scan (st : state) (s : string) : option (list token) :=
  match s with
  | EmptyString =>
      match st with
      | Idle => Some []
      | InWord w => Some [Word w]
      | InQuote _ => None
      | AfterQuote lit => Some [Quoted lit]
      end
  | String c s' =>
      let '(ts, st') := step st c in
      option_map (app ts) (scan st' s')
  end.

Inductive op : Type := OpEq | OpNe | OpGt | OpGe | OpLt | OpLe.

Inductive filter : Type :=
| Compare (property : string) (o : op) (literal : string)
| And (f g : filter)
| Or (f g : filter)
| Not (f : filter).

Definition op_of (w : string) : option op :=
  if String.eqb w "eq" then Some OpEq
  else if String.eqb w "ne" then Some OpNe
  else if String.eqb w "gt" then Some OpGt
  else if String.eqb w "ge" then Some OpGe
  else if String.eqb w "lt" then Some OpLt
  else if String.eqb w "le" then Some OpLe
  else None.

Definition is_word (w : string) (t : token) : bool :=
  match t with
  | Word w' => String.eqb w w'
  | _ => false
  end.

(** Level 0 reads a chain of [or], level 1 a chain of [and], level 2 a
    negation, a filter in parentheses or a comparison. *)
Fixpoint parse (fuel level : nat) (ts : list token)
  : option (filter * list token) :=
  match fuel with
  | O => None
  | S fuel' =>
      match level with
      | O =>
          match parse fuel' 1%nat ts with
          | Some (f, t :: rest) =>
              if is_word "or" t then
                match parse fuel' 0%nat rest with
                | Some (g, rest') => Some (Or f g, rest')
                | None => None
                end
              else Some (f, t :: rest)
          | r => r
          end
      | S O =>
          match parse fuel' 2%nat ts with
          | Some (f, t :: rest) =>
              if is_word "and" t then
                match parse fuel' 1%nat rest with
                | Some (g, rest') => Some (And f g, rest')
                | None => None
                end
              else Some (f, t :: rest)
          | r => r
          end
      | _ =>
          match ts with
          | Open :: rest =>
              match parse fuel' 0%nat rest with
              | Some (f, Close :: rest') => Some (f, rest')
              | _ => None
              end
          | Word w :: rest =>
              if String.eqb w "not" then
                match parse fuel' 2%nat rest with
                | Some (f, rest') => Some (Not f, rest')
                | None => None
                end
              else
                match rest with
                | Word o :: Quoted literal :: rest' =>
                    match op_of o with
                    | Some o' => Some (Compare w o' literal, rest')
                    | None => None
                    end
                | _ => None
                end
          | _ => None
          end
      end
  end.

(** The filter that a text spells, if it spells one. *)
Definition read (text : string) : option filter :=
  match scan Idle text with
  | Some ts =>
      match parse (3 * List.length ts + 3) 0 ts with
      | Some (f, []) => Some f
      | _ => None
      end
  | None => None
  end.

(** A property of a stored entity; the two keys are properties too. *)
Definition property_of (row : string * string * entity) (name : string)
  : Py.value :=
  if String.eqb name "PartitionKey" then Py.Str (fst (fst row))
  else if String.eqb name "RowKey" then Py.Str (snd (fst row))
  else Py.get (snd row) name.

Definition test (o : op) (c : comparison) : bool :=
  match o, c with
  | OpEq, Eq | OpNe, Lt | OpNe, Gt | OpGt, Gt | OpGe, Gt | OpGe, Eq
  | OpLt, Lt | OpLe, Lt | OpLe, Eq => true
  | _, _ => false
  end.

(** Whether an entity passes the filter.  A property that the entity
    does not have, or that is no string, passes no comparison. *)
Fixpoint holds (f : filter) (row : string * string * entity) : bool :=
  match f with
  | Compare name o literal =>
      match property_of row name with
      | Py.Str s => test o (String.compare s literal)
      | _ => false
      end
  | And f g => holds f row && holds g row
  | Or f g => holds f row || holds g row
  | Not f => negb (holds f row)
  end.

End Filter.

(** [table.query_entities(filter)]: the entities that pass the filter, in
    key order; the service's refusal of a malformed filter is raised. *)
Definition query_entities (filter_str : string) : M (list entity) :=
  match Filter.read filter_str with
  | Some f => t <- gets table ;; ret (map snd (filter (Filter.holds f) t))
  | None => raise (HttpResponseError "One of the request inputs is not valid.")
  end.

(** [table.query_entities(query_filter=filter)] *)
Definition query_entities_by_keyword (filter_str : string) : M (list entity) :=
  takes_keyword <- gets query_filter_keyword ;;
  if takes_keyword then query_entities filter_str
  else raise (TypeError "query_entities() got an unexpected keyword argument 'query_filter'").

Definition _query_entities_compat (filter_str : string) : M (list entity) :=
  try_except_TypeError
    (query_entities_by_keyword filter_str)
    (query_entities filter_str).

Definition store_report (payload : Py.value) : M Py.value :=
  d <- as_dict payload ;;
  let container := Py.get_or d "container" (Py.Str "pdfs") in
  let blob_name := Py.get d "blob_name" in
  if negb (Py.truthy blob_name)
  then raise (ValueError "store_report requires 'blob_name' in payload")
  else
    name <- gets table_name ;;
    stamp <- utc_stamp ;;
    let entity :=
      [("PartitionKey", container); ("RowKey", blob_name);
       ("generated_at_utc", Py.or_ (Py.get d "generated_at_utc") (Py.Str stamp));
       ("report", Py.Str (Json.dumps payload))] in
    upsert_entity entity ;;;
    ret (Py.Dict [("partition_key", container); ("row_key", blob_name);
                  ("table", Py.Str name)]).

(** ** The orchestrator *)

Definition activity (name : string) : option (Py.value -> M Py.value) :=
  if String.eqb name "extract_text" then Some extract_text
  else if String.eqb name "extract_metadata" then Some extract_metadata
  else if String.eqb name "analyze_statistics" then Some analyze_statistics
  else if String.eqb name "detect_sensitive_data" then Some detect_sensitive_data
  else if String.eqb name "generate_report" then Some generate_report
  else if String.eqb name "store_report" then Some store_report
  else None.

(** [context.call_activity(name, input)]: the call is scheduled, and the
    activity's result or failure is what the orchestrator gets back. *)
Definition call_activity (name : string) (input : Py.value) : M Py.value :=
  modify (fun w => with_scheduled (scheduled w ++ [(name, input)]) w) ;;;
  match activity name with
  | Some f => f input
  | None => raise (ValueError "no such activity")
  end.

(** The four tasks of a fan-out all run; each one's result or failure is
    kept. *)
Fixpoint run_all (tasks : list (M Py.value)) (w : world)
  : list (outcome Py.value) * world :=
  match tasks with
  | [] => ([], w)
  | c :: tasks' =>
      let '(o, w') := c w in
      let '(os, w'') := run_all tasks' w' in
      (o :: os, w'')
  end.

(** The join: the results in task order, or the first failure. *)
Fixpoint join_all (os : list (outcome Py.value)) : outcome (list Py.value) :=
  match os with
  | [] => Returned []
  | Raised e :: _ => Raised e
  | Returned v :: os' =>
      match join_all os' with
      | Returned vs => Returned (v :: vs)
      | Raised e => Raised e
      end
  end.

(** [context.task_all(tasks)] *)
Definition task_all (tasks : list (M Py.value)) : M (list Py.value) :=
  fun w => let '(os, w') := run_all tasks w in (join_all os, w').

Definition PdfOrchestrator (input : Py.value) : M Py.value :=
  payload <- as_dict (Py.or_ input (Py.Dict [])) ;;
  let container := Py.or_ (Py.get payload "container") (Py.Str "pdfs") in
  let blob_name := Py.get payload "blob_name" in
  if negb (Py.truthy blob_name)
  then ret (Py.Dict [("error", Py.Str "Missing blob_name in orchestrator input.")])
  else
    let base := Py.Dict [("container", container); ("blob_name", blob_name)] in
    let tasks :=
      [call_activity "extract_text" base;
       call_activity "extract_metadata" base;
       call_activity "analyze_statistics" base;
       call_activity "detect_sensitive_data" base] in
    results <- task_all tasks ;;
    match results with
    | [text_result; metadata_result; stats_result; sensitive_result] =>
        report <-
          call_activity "generate_report"
            (Py.Dict
               [("container", container); ("blob_name", blob_name);
                ("extract_text", text_result);
                ("extract_metadata", metadata_result);
                ("analyze_statistics", stats_result);
                ("detect_sensitive_data", sensitive_result)]) ;;
        call_activity "store_report" report ;;;
        ret report
    | _ => raise (ValueError "not enough values to unpack")
    end.

(** [blob_path.split("/", 1)[1]], when [blob_path] has a slash. *)
Fixpoint after_slash (blob_path : string) : option string :=
  match blob_path with
  | EmptyString => None
  | String c rest => if Ascii.eqb c "/" then Some rest else after_slash rest
  end.

(** [PdfBlobTrigger]: the orchestration is started for the blob
    [myblob.name] of the container "pdfs". *)
Definition PdfBlobTrigger (name : option string) : M Py.value :=
  let blob_path := _safe_str name in
  let blob_name :=
    match after_slash blob_path with
    | Some rest => rest
    | None => blob_path
    end in
  let container := "pdfs" in
  PdfOrchestrator
    (Py.Dict [("container", Py.Str container); ("blob_name", Py.Str blob_name)]).

(** ** The HTTP read path *)

Record HttpRequest : Type := {
  route_params : list (string * string);
  params : list (string * string)
}.

Record HttpResponse : Type := {
  body : string;
  status_code : Z;
  mimetype : string
}.

Fixpoint param (k : string) (ps : list (string * string)) : option string :=
  match ps with
  | [] => None
  | (k', v) :: ps' => if String.eqb k k' then Some v else param k ps'
  end.

Definition json_response (v : Py.value) (status : Z) : HttpResponse :=
  {| body := Json.dumps v; status_code := status; mimetype := "application/json" |}.

(** [func.HttpResponse(body, ...)] takes a str (or nothing) for a body. *)
Definition text_response (v : Py.value) (status : Z) : M HttpResponse :=
  match v with
  | Py.Str s => ret {| body := s; status_code := status; mimetype := "application/json" |}
  | Py.None_ => ret {| body := ""; status_code := status; mimetype := "application/json" |}
  | _ =>
      raise (TypeError ("response is expected to be either of str, bytes, or "
                        ++ "bytearray, got " ++ Py.type_name v))
  end.

Definition item_of (e : entity) : Py.value :=
  Py.Dict [("container", Py.get e "PartitionKey");
           ("blob_name", Py.get e "RowKey");
           ("generated_at_utc", Py.get e "generated_at_utc")].

(** The listing loop: append an item per entity and stop as soon as [top]
    items have been collected. *)
Fixpoint collect (top : Z) (entities : list entity) (items : list Py.value)
  : list Py.value :=
  match entities with
  | [] => items
  | e :: entities' =>
      let items' := items ++ [item_of e] in
      if (top <=? Z.of_nat (List.length items'))%Z then items'
      else collect top entities' items'
  end.

(** [lambda x: (x.get("generated_at_utc") or "")]; an item is a dict. *)
Definition sort_key (x : Py.value) : Py.value :=
  match x with
  | Py.Dict d => Py.or_ (Py.get d "generated_at_utc") (Py.Str "")
  | _ => Py.Str ""
  end.

(** [a < b] on sort keys. *)
Definition key_lt (a b : Py.value) : outcome bool :=
  match Py.ltb a b with
  | Some r => Returned r
  | None =>
      Raised (TypeError ("'<' not supported between instances of '"
                         ++ Py.type_name a ++ "' and '" ++ Py.type_name b ++ "'"))
  end.

(** [items.sort(key=sort_key, reverse=True)]: descending and stable, items
    with equal keys keep their order.  Python's sort is determined by
    that wherever [<] orders the keys (strings among themselves, numbers
    other than NaN among themselves), and there an insertion into the
    sorted rest gives the same list; like Python's sort it raises as soon
    as it meets two keys that do not compare. *)
Fixpoint insert_desc (x : Py.value) (sorted : list Py.value)
  : outcome (list Py.value) :=
  match sorted with
  | [] => Returned [x]
  | y :: rest =>
      match key_lt (sort_key x) (sort_key y) with
      | Raised e => Raised e
      | Returned true =>
          match insert_desc x rest with
          | Returned l => Returned (y :: l)
          | Raised e => Raised e
          end
      | Returned false => Returned (x :: y :: rest)
      end
  end.

Fixpoint sort_desc (items : list Py.value) : outcome (list Py.value) :=
  match items with
  | [] => Returned []
  | x :: items' =>
      match sort_desc items' with
      | Returned sorted => insert_desc x sorted
      | Raised e => Raised e
      end
  end.

(** The [top] query parameter: 50 when it is absent or is no integer,
    then clamped to 1..200. *)
Definition top_of (req : HttpRequest) : Z :=
  let top :=
    match Num.int_of_str
            (match param "top" (params req) with Some t => t | None => "50" end)
    with
    | Some n => n
    | None => 50%Z
    end in
  Z.max 1 (Z.min top 200).

Definition present (v : option string) : bool :=
  match v with
  | Some s => nonempty s
  | None => false
  end.

Definition reports (req : HttpRequest) : M HttpResponse :=
  let container := param "container" (route_params req) in
  let blob_name := param "blob_name" (route_params req) in
  if negb (present container) then
    ret (json_response (Py.Dict [("error", Py.Str "Missing container in route.")]) 400)
  else
    let container := _safe_str container in
    if present blob_name then
      (* GET ONE *)
      try_except
        (entity <- get_entity container (_safe_str blob_name) ;;
         text_response (Py.get_or entity "report" (Py.Str "{}")) 200)
        (fun e =>
           ret (json_response
                  (Py.Dict [("error", Py.Str "Report not found");
                            ("details", Py.Str (str_of_exn e))]) 404))
    else
      (* LIST *)
      let top := top_of req in
      let filter_str := ("PartitionKey eq '" ++ container ++ "'")%string in
      queried <-
        try_except
          (entities <- _query_entities_compat filter_str ;;
           ret (inl (collect top entities [])))
          (fun ex =>
             ret (inr (json_response
                         (Py.Dict [("error", Py.Str "Failed to query reports.");
                                   ("details", Py.Str (str_of_exn ex))]) 500))) ;;
      match queried with
      | inr failure => ret failure
      | inl items =>
          match sort_desc items with
          | Returned items => ret (json_response (Py.List items) 200)
          | Raised e => raise e
          end
      end.


(** ** The specification's notion of a word

    A word is a maximal run of word characters.  [fields] cuts a text at
    every character that is not a word character; the maximal runs are the
    pieces that are not empty. *)

Module Runs.

Fixpoint fields (s : string) : list string :=
  match s with
  | EmptyString => [EmptyString]
  | String c s' =>
      if Text.is_word c then
        match fields s' with
        | f :: fs => String c f :: fs
        | [] => [String c EmptyString]
        end
      else EmptyString :: fields s'
  end.

Definition maximal_runs (s : string) : list string :=
  filter nonempty (fields s).

(** The longest prefix of word characters, and what follows it. *)
Fixpoint take_word (s : string) : string :=
  match s with
  | String c s' => if Text.is_word c then String c (take_word s') else EmptyString
  | EmptyString => EmptyString
  end.

Fixpoint drop_word (s : string) : string :=
  match s with
  | String c s' => if Text.is_word c then drop_word s' else s
  | EmptyString => EmptyString
  end.

(** A separator: at least one character, none of them a word character. *)
Fixpoint no_word_char (s : string) : bool :=
  match s with
  | EmptyString => true
  | String c s' => negb (Text.is_word c) && no_word_char s'
  end.

Definition separator (sep : string) : bool := nonempty sep && no_word_char sep.

End Runs.


(** ** Notions the properties are stated with *)

(** [v[k]] for a dict [v]. *)
Definition field (k : string) (v : Py.value) : Py.value :=
  match v with
  | Py.Dict d => Py.get d k
  | _ => Py.None_
  end.

(** The container an analyzer and the orchestrator work on. *)
Definition container_of (d : list (string * Py.value)) : Py.value :=
  Py.or_ (Py.get d "container") (Py.Str "pdfs").

(** What an analyzer makes of the bytes of a blob, given the failure
    [fault] that its reading meets in a damaged document and what it
    computes [of_reader] from a document. *)
Definition reading (fault : pdf_bytes -> option exn)
  (of_reader : PdfReader -> Py.value) (b : pdf_bytes) : outcome Py.value :=
  match b with
  | NotPdf => Raised (PdfReadError "invalid pdf header")
  | Pdf reader | Damaged reader _ _ =>
      match fault b with
      | Some e => Raised e
      | None => Returned (of_reader reader)
      end
  end.

(** What an analyzer does with the blob it is pointed at, given the result
    [empty] it has for a payload without blob name. *)
Definition analysis (empty : Py.value) (fault : pdf_bytes -> option exn)
  (of_reader : PdfReader -> Py.value)
  (d : list (string * Py.value)) (bs : list (string * string * pdf_bytes))
  : outcome Py.value :=
  if negb (Py.truthy (Py.get d "blob_name")) then Returned empty
  else
    match container_of d, Py.get d "blob_name" with
    | Py.Str c, Py.Str n =>
        match find_blob c n bs with
        | Some b => reading fault of_reader b
        | None => Raised (ResourceNotFoundError "The specified blob does not exist.")
        end
    | _, _ => Raised (TypeError "container and blob names must be str")
    end.

Definition analyzers : list (string * (Py.value -> M Py.value)) :=
  [("extract_text", extract_text); ("extract_metadata", extract_metadata);
   ("analyze_statistics", analyze_statistics);
   ("detect_sensitive_data", detect_sensitive_data)].

(** The record with which the orchestrator reports a missing blob name. *)
Definition MissingIdentity : Py.value :=
  Py.Dict [("error", Py.Str "Missing blob_name in orchestrator input.")].

(** The metadata mapping with every field empty. *)
Definition blank_metadata : Py.value :=
  Py.Dict [("title", Py.Str ""); ("author", Py.Str ""); ("subject", Py.Str "");
           ("creator", Py.Str ""); ("producer", Py.Str "");
           ("creation_date", Py.Str ""); ("mod_date", Py.Str "")].

Definition report_keys : list string :=
  ["container"; "blob_name"; "generated_at_utc"; "extract_text";
   "extract_metadata"; "analyze_statistics"; "detect_sensitive_data"].

(** The text an item is sorted by. *)
Definition key_text (x : Py.value) : string :=
  match sort_key x with
  | Py.Str s => s
  | _ => ""
  end.

(** An item whose sort key is a string. *)
Definition has_text_key (x : Py.value) : Prop := exists s, sort_key x = Py.Str s.

(** Descending by [generated_at_utc], compared as strings. *)
Definition descending (items : list Py.value) : Prop :=
  StronglySorted (fun a b => String.leb (key_text b) (key_text a) = true) items.

(** A [generated_at_utc] property that is a string, or absent. *)
Definition str_or_null (v : Py.value) : bool :=
  match v with
  | Py.Str _ | Py.None_ => true
  | _ => false
  end.

(** A character that no integer literal has: neither a digit, a sign, an
    underscore nor white space. *)
Definition stray (ch : ascii) : bool :=
  negb (Text.is_digit ch || Ascii.eqb ch "+" || Ascii.eqb ch "-"
        || Ascii.eqb ch "_" || Num.is_int_space ch).

Definition has_stray_character (t : string) : bool :=
  existsb stray (list_ascii_of_string t).

(** A container name without a single quote. *)
Fixpoint no_quote (s : string) : bool :=
  match s with
  | EmptyString => true
  | String c s' => negb (Ascii.eqb c "'") && no_quote s'
  end.

(** The entities of a container, in the order a query returns them. *)
Definition stored_in (container : string) (w : world) : list entity :=
  map snd (filter (fun ke => String.eqb container (fst (fst ke))) (table w)).

(** The texts of the pages that have one, in page order: a page without
    text, or with an empty one, has none. *)
Fixpoint texts_of (ps : list (option string)) : list string :=
  match ps with
  | [] => []
  | Some (String c t) :: ps' => String c t :: texts_of ps'
  | _ :: ps' => texts_of ps'
  end.

(** Texts joined with newline separators. *)
Fixpoint lines (texts : list string) : string :=
  match texts with
  | [] => ""
  | [t] => t
  | t :: rest => t ++ String (ascii_of_nat 10) (lines rest)
  end.

Definition page_entry (ip : Z * option string) : Py.value :=
  Py.Dict [("page", Py.Int (fst ip)); ("text", Py.Str (page_text (snd ip)))].

Definition ok_response (text : string) : HttpResponse :=
  {| body := text; status_code := 200; mimetype := "application/json" |}.

Definition get_one (container blob_name : string) : HttpRequest :=
  {| route_params := [("container", container); ("blob_name", blob_name)];
     params := [] |}.

Definition list_top (container top : string) : HttpRequest :=
  {| route_params := [("container", container)]; params := [("top", top)] |}.

(** ** Sample documents and worlds *)

Definition job (c n : string) : Py.value :=
  Py.Dict [("container", Py.Str c); ("blob_name", Py.Str n)].


(** The specification's end-to-end scenario, with two empty pages added. *)
Definition test_pdf : PdfReader :=
  {| pages := [Some "Contact us at a@b.com or visit https://x.io"; None; Some "";
               Some "Call 555-123-4567"];
     metadata := Some [("/Title", "T"); ("/Producer", "p")] |}.

Definition foo_bar_pdf : PdfReader :=
  {| pages := [Some "foo"; Some "bar"]; metadata := None |}.

Definition no_pages_pdf : PdfReader := {| pages := []; metadata := None |}.

Definition w0 : world :=
  {| blobs := [(("pdfs", "test.pdf"), Pdf test_pdf); (("pdfs", "bad.pdf"), NotPdf);
               (("inbox", "foo.pdf"), Pdf foo_bar_pdf);
               (("pdfs", "blank.pdf"), Pdf no_pages_pdf);
               (("pdfs", "torn.pdf"), Damaged test_pdf None true);
               (("pdfs", "smudged.pdf"), Damaged test_pdf (Some 1%nat) false)];
     table := []; table_name := "PdfReports";
     utcnow := "2024-05-01T12:00:00.000001+00:00"; scheduled := [];
     query_filter_keyword := true |}.

Definition stored (c n stamp : string) : string * string * entity :=
  ((c, n), [("PartitionKey", Py.Str c); ("RowKey", Py.Str n);
            ("generated_at_utc", Py.Str stamp); ("report", Py.Str "{}")]).

(** The specification's list scenario: three reports, stored under the
    names a.pdf, b.pdf and c.pdf. *)
Definition three_reports : world :=
  with_table [stored "pdfs" "a.pdf" "2024-01-01Z"; stored "pdfs" "b.pdf" "2024-03-01Z";
              stored "pdfs" "c.pdf" "2024-02-01Z"] w0.

Definition listed (c n stamp : string) : Py.value :=
  Py.Dict [("container", Py.Str c); ("blob_name", Py.Str n);
           ("generated_at_utc", Py.Str stamp)].

(** Reports under two containers, one of them with a single quote in its
    name. *)
Definition quoted_reports : world :=
  with_table [stored "it's" "a.pdf" "2024-01-01Z"; stored "pdfs" "b.pdf" "2024-03-01Z"] w0.

Definition list_all (container : string) : HttpRequest :=
  {| route_params := [("container", container)]; params := [] |}.

Definition sample_report (c n : string) : Py.value :=
  Py.Dict [("container", Py.Str c); ("blob_name", Py.Str n);
           ("generated_at_utc", Py.Str "2024-05-01T12:00:00Z");
           ("extract_text", empty_text); ("extract_metadata", Py.Dict []);
           ("analyze_statistics", empty_statistics);
           ("detect_sensitive_data", empty_sensitive)].

(** A report with the figures of a document of three pages and 250
    words. *)
Definition measured_report (c n : string) : Py.value :=
  Py.Dict [("container", Py.Str c); ("blob_name", Py.Str n);
           ("generated_at_utc", Py.Str "2024-05-01T12:00:00Z");
           ("extract_text", empty_text); ("extract_metadata", Py.Dict []);
           ("analyze_statistics",
            Py.Dict [("page_count", Py.Int 3); ("word_count", Py.Int 250);
                     ("avg_words_per_page", Py.Float (250 / 3)%float);
                     ("estimated_reading_time_minutes",
                      Py.Float (250 / 200)%float)]);
           ("detect_sensitive_data", empty_sensitive)].

(** ** Notions of the further properties *)

Fixpoint no_slash (s : string) : bool :=
  match s with
  | EmptyString => true
  | String c s' => negb (Ascii.eqb c "/") && no_slash s'
  end.

Fixpoint no_plus (s : string) : bool :=
  match s with
  | EmptyString => true
  | String c s' => negb (Ascii.eqb c "+") && no_plus s'
  end.

(** The fields of the metadata result and the keys of the document
    information dictionary they are read from. *)
Definition metadata_fields : list (string * string) :=
  [("title", "/Title"); ("author", "/Author"); ("subject", "/Subject");
   ("creator", "/Creator"); ("producer", "/Producer");
   ("creation_date", "/CreationDate"); ("mod_date", "/ModDate")].

(** [md.get(key)] on the document information dictionary of a reader. *)
Definition info (reader : PdfReader) (key : string) : option string :=
  match metadata reader with
  | Some md => option_map snd (find (fun kv => String.eqb key (fst kv)) md)
  | None => None
  end.

(** The categories of sensitive data and their patterns. *)
Definition categories : list (string * Re.regex) :=
  [("emails", Re.email_re); ("phones", Re.phone_re); ("urls", Re.url_re);
   ("dates", Re.date_re)].

(** Strictly ascending by code point. *)
Definition ascending (l : list string) : Prop :=
  StronglySorted (fun a b => String.ltb a b = true) l.

(** The entity [store_report] writes for the payload [d] in the world [w]. *)
Definition entity_of (d : list (string * Py.value)) (w : world) : entity :=
  [("PartitionKey", Py.get_or d "container" (Py.Str "pdfs"));
   ("RowKey", Py.get d "blob_name");
   ("generated_at_utc",
    Py.or_ (Py.get d "generated_at_utc")
      (Py.Str (Text.replace "+00:00" "Z" (utcnow w))));
   ("report", Py.Str (Json.dumps (Py.Dict d)))].

(** The report the workflow builds for a document. *)
Definition report_of (container blob_name : Py.value) (reader : PdfReader)
  (w : world) : Py.value :=
  Py.Dict
    [("container", container); ("blob_name", blob_name);
     ("generated_at_utc", Py.Str (Text.replace "+00:00" "Z" (utcnow w)));
     ("extract_text", text_of_reader reader);
     ("extract_metadata", metadata_of_reader reader);
     ("analyze_statistics", statistics_of_reader reader);
     ("detect_sensitive_data", sensitive_of_reader reader)].

(** The table's keys are in strictly ascending order. *)
Definition sorted_table (t : list (string * string * entity)) : Prop :=
  StronglySorted (fun a b => key_ltb (fst a) (fst b) = true) t.

Definition not_found (details : string) : HttpResponse :=
  json_response
    (Py.Dict [("error", Py.Str "Report not found"); ("details", Py.Str details)])
    404.

(** The items of a list that are sorted by the text [k]. *)
Definition with_key (k : string) (items : list Py.value) : list Py.value :=
  filter (fun x => String.eqb (key_text x) k) items.

(** ** Notions of the round trip through JSON *)

(** A text of digits. *)
Fixpoint all_digits (s : string) : bool :=
  match s with
  | EmptyString => true
  | String c s' => Text.is_digit c && all_digits s'
  end.

(** A text that does not go on with a digit. *)
Definition no_digit_ahead (s : string) : Prop :=
  match s with
  | EmptyString => True
  | String c _ => Text.is_digit c = false
  end.

(** A text at whose head no number goes on. *)
Definition stops (s : string) : Prop :=
  match s with
  | EmptyString => True
  | String c _ =>
      Text.is_digit c = false /\ Ascii.eqb c "." = false
      /\ Ascii.eqb c "e" = false /\ Ascii.eqb c "E" = false
  end.

(** What may follow a value inside a JSON text: nothing, a comma, or the
    closing bracket or brace. *)
Definition closes (rest : string) : Prop :=
  match rest with
  | EmptyString => True
  | String c _ => c = ","%char \/ c = "]"%char \/ c = "}"%char
  end.

(** The character at the head of a number or of a constant. *)
Definition heads_constant (c : ascii) : Prop :=
  Text.is_digit c = true \/ c = "-"%char \/ c = "N"%char \/ c = "I"%char
  \/ c = "n"%char \/ c = "t"%char \/ c = "f"%char.

(** The text of a member of an object. *)
Definition member_text (kv : string * Py.value) : string :=
  (Json.quote (fst kv) ++ ": " ++ Json.dumps (snd kv))%string.

(** A value is read back from its text, whatever closes the text, by a
    reader with fuel for the length of the text. *)
Definition read_back (v : Py.value) : Prop :=
  Json.proper v = true ->
  forall fuel rest,
    closes rest -> (String.length (Json.dumps v) <= fuel)%nat ->
    Json.read_value fuel (Json.dumps v ++ rest)%string = Some (v, rest).


(** * Properties *)

(** ** Words: the pattern [\b\w+\b] finds the maximal runs *)

Section WordPattern.

Import Runs.

Lemma fields_not_nil (s : string) : fields s <> [].
Proof.
  destruct s as [|c s]; simpl; [discriminate|].
  destruct (Text.is_word c); [destruct (fields s)|]; discriminate.
Qed.

Lemma drop_word_length (s : string) :
  (String.length (drop_word s) <= String.length s)%nat.
Proof.
  induction s as [|c s IH]; simpl; [lia|].
  destruct (Text.is_word c); simpl; lia.
Qed.

Lemma take_word_substring (s : string) :
  String.substring 0 (String.length s - String.length (drop_word s)) s
  = take_word s.
Proof.
  induction s as [|c s IH]; [reflexivity|].
  cbn [drop_word take_word]. destruct (Text.is_word c).
  - pose proof (drop_word_length s).
    replace (String.length (String c s) - String.length (drop_word s))%nat
      with (S (String.length s - String.length (drop_word s)))
      by (cbn [String.length]; lia).
    cbn [String.substring]. now rewrite IH.
  - now rewrite Nat.sub_diag.
Qed.

(** The first field is the run at the head of the text; the fields of
    what follows the run start with an empty one. *)
Lemma fields_split (s : string) :
  fields s = take_word s :: tl (fields (drop_word s)).
Proof.
  induction s as [|c s IH]; [reflexivity|].
  cbn [fields take_word drop_word]. destruct (Text.is_word c) eqn:Hc.
  - now rewrite IH.
  - cbn [fields]. now rewrite Hc.
Qed.

Lemma fields_after_run (s : string) :
  fields (drop_word s) = EmptyString :: tl (fields (drop_word s)).
Proof.
  induction s as [|c s IH]; [reflexivity|].
  cbn [drop_word]. destruct (Text.is_word c) eqn:Hc; [exact IH|].
  cbn [fields]. now rewrite Hc.
Qed.

(** A run at the head of a text is its first maximal run. *)
Lemma maximal_runs_word (c : ascii) (s : string) :
  Text.is_word c = true ->
  maximal_runs (String c s)
  = take_word (String c s) :: maximal_runs (drop_word (String c s)).
Proof.
  intros Hc. unfold maximal_runs.
  rewrite (fields_split (String c s)), (fields_after_run (String c s)).
  cbn [tl filter take_word]. rewrite Hc. reflexivity.
Qed.

Lemma maximal_runs_skip (c : ascii) (s : string) :
  Text.is_word c = false -> maximal_runs (String c s) = maximal_runs s.
Proof. intros Hc. unfold maximal_runs. simpl. now rewrite Hc. Qed.

Lemma rep_word (s : string) :
  forall fuel n prev,
    (String.length s <= fuel)%nat ->
    (1 <= n -> Re.word_before prev = true)%nat ->
    (1 <= n)%nat \/ Re.word_after s = true ->
    Re.rep (Re.matches (Re.Chr Text.is_word)) 1 None Re.closing fuel n prev s
    = Some (drop_word s).
Proof.
  induction s as [|c s IH]; intros fuel n prev Hfuel Hprev Hrun.
  - destruct Hrun as [Hn|Hw]; [|discriminate].
    assert (Hstop : (if (1 <=? n)%nat then Re.closing prev "" else None) = Some "").
    { apply Nat.leb_le in Hn as Hn'. rewrite Hn'. unfold Re.closing. simpl.
      unfold Re.at_boundary. now rewrite (Hprev Hn). }
    destruct fuel; simpl; exact Hstop.
  - destruct fuel as [|fuel]; [simpl in Hfuel; lia|].
    simpl. destruct (Text.is_word c) eqn:Hc.
    + replace (String.length s <? S (String.length s))%nat with true
        by (symmetry; apply Nat.ltb_lt; lia).
      rewrite IH; [reflexivity|simpl in Hfuel; lia|now simpl|left; lia].
    + destruct Hrun as [Hn|Hw]; [|simpl in Hw; congruence].
      destruct n as [|n]; [lia|]. unfold Re.closing. simpl.
      unfold Re.at_boundary. simpl. rewrite (Hprev Hn), Hc. reflexivity.
Qed.

(** The pattern matches exactly at the first character of a run, and
    then it matches the whole run. *)
Lemma matches_word (prev : option ascii) (s : string) :
  Re.matches Re.word_re prev s Re.accept
  = if negb (Re.word_before prev) && Re.word_after s
    then Some (drop_word s) else None.
Proof.
  unfold Re.word_re, Re.plus. simpl.
  unfold Re.at_boundary.
  destruct (Re.word_before prev) eqn:Hp, (Re.word_after s) eqn:Hs; simpl.
  - reflexivity.
  - destruct s as [|c s]; simpl.
    + reflexivity.
    + simpl in Hs. rewrite Hs. reflexivity.
  - change (fun (prev' : option ascii) (s' : string) =>
              if Re.at_boundary prev' s' then Re.accept prev' s' else None)
      with Re.closing.
    apply rep_word; [lia|lia|now right].
  - reflexivity.
Qed.

Lemma match_here_word (prev : option ascii) (s : string) :
  Re.match_here Re.word_re prev s
  = if negb (Re.word_before prev) && Re.word_after s
    then Some (take_word s) else None.
Proof.
  unfold Re.match_here. rewrite matches_word.
  destruct (negb (Re.word_before prev) && Re.word_after s); [|reflexivity].
  now rewrite take_word_substring.
Qed.

Lemma take_word_length (c : ascii) (s : string) :
  Text.is_word c = true ->
  (String.length (take_word (String c s)) - 1 = String.length (take_word s))%nat.
Proof. intros Hc. simpl. rewrite Hc. simpl. lia. Qed.

(** The scan, from a position outside a run and from one inside. *)
Lemma findall_from_word (s : string) :
  (forall prev,
      Re.word_before prev = false ->
      Re.findall_from Re.word_re 0 prev s = maximal_runs s)
  /\ (forall prev n,
        (n <= String.length (take_word s))%nat ->
        (1 <= n)%nat \/ Re.word_before prev = true ->
        Re.findall_from Re.word_re n prev s = maximal_runs (drop_word s)).
Proof.
  induction s as [|c s [IHout IHin]]; split.
  - intros prev Hp. simpl. rewrite match_here_word. simpl.
    now rewrite andb_false_r.
  - intros prev n Hn Hin. simpl in Hn. assert (n = 0)%nat as -> by lia.
    simpl. rewrite match_here_word. simpl. now rewrite andb_false_r.
  - intros prev Hp. cbn [Re.findall_from]. rewrite match_here_word, Hp.
    cbn [negb andb Re.word_after].
    destruct (Text.is_word c) eqn:Hc.
    + rewrite (take_word_length c s Hc), (maximal_runs_word c s Hc).
      f_equal. cbn [drop_word]. rewrite Hc.
      apply IHin; [lia|right; exact Hc].
    + rewrite (maximal_runs_skip c s Hc). apply IHout. exact Hc.
  - intros prev n Hn Hin. cbn [Re.findall_from].
    destruct n as [|n].
    + destruct Hin as [Hin|Hp]; [lia|].
      rewrite match_here_word, Hp. cbn [negb andb].
      cbn [drop_word]. destruct (Text.is_word c) eqn:Hc.
      * apply IHin; [lia|right; exact Hc].
      * rewrite (maximal_runs_skip c s Hc). apply IHout. exact Hc.
    + cbn [take_word drop_word] in Hn |- *.
      destruct (Text.is_word c) eqn:Hc; [|simpl in Hn; lia].
      apply IHin; [simpl in Hn; lia|right; exact Hc].
Qed.

Lemma findall_word (s : string) :
  Re.findall Re.word_re s = maximal_runs s.
Proof. apply (proj1 (findall_from_word s)). reflexivity. Qed.

End WordPattern.

(** ** Words across pages *)

Section WordsAcrossPages.

Import Runs.

Lemma fields_app_sep (a t : string) (c : ascii) :
  Text.is_word c = false ->
  fields (a ++ String c t) = fields a ++ fields t.
Proof.
  intros Hc. induction a as [|x a IH]; simpl.
  - now rewrite Hc.
  - rewrite IH. destruct (Text.is_word x); [|reflexivity].
    destruct (fields a) as [|f fs] eqn:Hf; [now destruct (fields_not_nil a)|].
    reflexivity.
Qed.

Lemma maximal_runs_no_word (sep b : string) :
  no_word_char sep = true -> maximal_runs (sep ++ b) = maximal_runs b.
Proof.
  induction sep as [|c sep IH]; simpl; [reflexivity|].
  intros H. apply andb_true_iff in H as [Hc Hsep].
  apply negb_true_iff in Hc. rewrite (maximal_runs_skip c _ Hc). now apply IH.
Qed.

Lemma maximal_runs_sep (a sep b : string) :
  separator sep = true ->
  maximal_runs (a ++ sep ++ b) = maximal_runs a ++ maximal_runs b.
Proof.
  unfold separator. intros H. apply andb_true_iff in H as [Hne Hsep].
  destruct sep as [|c sep]; [discriminate|].
  simpl in Hsep. apply andb_true_iff in Hsep as [Hc Hsep].
  apply negb_true_iff in Hc. simpl.
  unfold maximal_runs at 1. rewrite (fields_app_sep a _ c Hc), filter_app.
  fold (maximal_runs a). fold (maximal_runs (sep ++ b)).
  now rewrite maximal_runs_no_word.
Qed.

(** Joined with a separator, pages keep their words apart. *)
Lemma maximal_runs_join (sep : string) (texts : list string) :
  separator sep = true ->
  maximal_runs (Text.join sep texts) = flat_map maximal_runs texts.
Proof.
  intros Hsep. unfold Text.join.
  induction texts as [|x [|y texts] IH].
  - reflexivity.
  - simpl. now rewrite app_nil_r.
  - change (String.concat sep (x :: y :: texts))
      with (x ++ sep ++ String.concat sep (y :: texts))%string.
    rewrite (maximal_runs_sep _ _ _ Hsep), IH. reflexivity.
Qed.

Lemma flat_map_count {A B} (f : A -> list B) (l : list A) :
  List.length (flat_map f l) = list_sum (map (fun x => List.length (f x)) l).
Proof.
  induction l as [|x l IH]; simpl; [reflexivity|].
  now rewrite length_app, IH.
Qed.

Lemma parts_loop (ps : list (option string)) (acc : list string) :
  fold_left (fun parts page => parts ++ [page_text page]) ps acc
  = acc ++ map page_text ps.
Proof.
  revert acc. induction ps as [|p ps IH]; intros acc; simpl.
  - now rewrite app_nil_r.
  - rewrite IH, <- app_assoc. reflexivity.
Qed.

Lemma all_text_join (reader : PdfReader) :
  all_text reader = Text.join Text.nl (map page_text (pages reader)).
Proof. unfold all_text. now rewrite parts_loop. Qed.

Lemma word_count_runs (reader : PdfReader) :
  field "word_count" (statistics_of_reader reader)
  = Py.Int (Z.of_nat (List.length (flat_map maximal_runs (map page_text (pages reader))))).
Proof.
  unfold statistics_of_reader, field. cbn [Py.get Py.get_or Py.lookup String.eqb].
  simpl. rewrite findall_word, all_text_join, maximal_runs_join; reflexivity.
Qed.

End WordsAcrossPages.

Lemma list_sum_perm (l l' : list nat) :
  Permutation l l' -> list_sum l = list_sum l'.
Proof. induction 1; simpl; lia. Qed.

(** C8, as amended: [word_count] is the number of maximal runs of word
    characters in the page texts joined with newlines, which is the sum of
    the pages' own counts; so it does not depend on the order of the pages,
    nor on the separator as long as that is a non-empty text without word
    characters. *)
Theorem word_count_counts_runs_of_joined_pages (reader : PdfReader) :
  field "word_count" (statistics_of_reader reader)
  = Py.Int (Z.of_nat (List.length
      (Runs.maximal_runs (Text.join Text.nl (map page_text (pages reader))))))
  /\ List.length (Runs.maximal_runs (Text.join Text.nl (map page_text (pages reader))))
     = list_sum (map (fun page => List.length (Runs.maximal_runs (page_text page)))
                     (pages reader))
  /\ (forall reader',
        Permutation (pages reader) (pages reader') ->
        field "word_count" (statistics_of_reader reader')
        = field "word_count" (statistics_of_reader reader))
  /\ (forall sep,
        Runs.separator sep = true ->
        List.length (Runs.maximal_runs (Text.join sep (map page_text (pages reader))))
        = List.length
            (Runs.maximal_runs (Text.join Text.nl (map page_text (pages reader))))).
Proof.
  assert (Hnl : Runs.separator Text.nl = true) by reflexivity.
  repeat split.
  - now rewrite word_count_runs, maximal_runs_join.
  - now rewrite maximal_runs_join, flat_map_count, map_map.
  - intros reader' Hperm. rewrite !word_count_runs, !flat_map_count, !map_map.
    do 2 f_equal. symmetry. apply list_sum_perm, Permutation_map, Hperm.
  - intros sep Hsep. now rewrite !maximal_runs_join.
Qed.

Lemma word_count_counts_runs_witness :
  field "word_count"
    (statistics_of_reader {| pages := [Some "bar"; Some "foo"]; metadata := None |})
  = field "word_count" (statistics_of_reader foo_bar_pdf)
  /\ List.length (Runs.maximal_runs (Text.join " - " (map page_text (pages foo_bar_pdf))))
     = List.length
         (Runs.maximal_runs (Text.join Text.nl (map page_text (pages foo_bar_pdf)))).
Proof.
  destruct (word_count_counts_runs_of_joined_pages foo_bar_pdf)
    as (_ & _ & Hperm & Hsep).
  split.
  - apply Hperm. apply perm_swap.
  - apply Hsep. reflexivity.
Defined.

(** C8 as stated fails: the count depends on what the page texts are
    joined with.  Two pages "foo" and "bar" hold two words; joined with
    nothing between them they make "foobar", a single run. *)
Lemma word_count_not_runs_of_concatenation :
  field "word_count" (statistics_of_reader foo_bar_pdf) = Py.Int 2
  /\ List.length
       (Runs.maximal_runs (String.concat "" (map page_text (pages foo_bar_pdf))))
     = 1%nat
  /\ field "word_count" (statistics_of_reader foo_bar_pdf)
     <> Py.Int (Z.of_nat (List.length
          (Runs.maximal_runs (String.concat "" (map page_text (pages foo_bar_pdf)))))).
Proof. repeat split; [vm_compute; reflexivity..|vm_compute; discriminate]. Qed.

(** ** The analyzers on a payload *)

Section Analyzers.

Variables (d : list (string * Py.value)) (w : world).

Ltac run_analyzer f :=
  unfold f, analysis, container_of, as_dict, bind, ret; cbn beta iota;
  destruct (Py.truthy (Py.get d "blob_name")); cbn [negb]; [|reflexivity];
  unfold _download_pdf_bytes;
  destruct (Py.or_ (Py.get d "container") (Py.Str "pdfs"));
  try reflexivity;
  destruct (Py.get d "blob_name"); try reflexivity;
  unfold bind, gets, ret, raise; cbn beta iota;
  destruct (find_blob _ _ (blobs w)) as [b|]; [|reflexivity];
  unfold reading, open_reader, extract_pages, read_metadata, ret, raise;
  destruct b as [|reader|reader bad_page bad_info]; try reflexivity;
  cbn beta iota;
  match goal with
  | |- context [pages_fault ?b] => destruct (pages_fault b); reflexivity
  | |- context [info_fault ?b] => destruct (info_fault b); reflexivity
  end.

Lemma extract_text_run :
  extract_text (Py.Dict d) w
  = (analysis empty_text pages_fault text_of_reader d (blobs w), w).
Proof. run_analyzer extract_text. Qed.

Lemma extract_metadata_run :
  extract_metadata (Py.Dict d) w
  = (analysis (Py.Dict []) info_fault metadata_of_reader d (blobs w), w).
Proof. run_analyzer extract_metadata. Qed.

Lemma analyze_statistics_run :
  analyze_statistics (Py.Dict d) w
  = (analysis empty_statistics pages_fault statistics_of_reader d (blobs w), w).
Proof. run_analyzer analyze_statistics. Qed.

Lemma detect_sensitive_data_run :
  detect_sensitive_data (Py.Dict d) w
  = (analysis empty_sensitive pages_fault sensitive_of_reader d (blobs w), w).
Proof. run_analyzer detect_sensitive_data. Qed.

End Analyzers.

(** ** extract_text *)

Lemma text_loop (l : list (Z * option string)) :
  forall acc,
    fold_left text_step l acc
    = (fst acc ++ map page_entry l,
       snd acc ++ filter nonempty (map (fun ip => page_text (snd ip)) l)).
Proof.
  induction l as [|ip l IH]; intros [ps parts]; simpl.
  - now rewrite !app_nil_r.
  - rewrite IH. unfold text_step at 1 2. simpl.
    destruct (nonempty (page_text (snd ip))); simpl;
      now rewrite <- !app_assoc.
Qed.

Lemma enumerate_texts (ps : list (option string)) :
  forall k, map (fun ip => page_text (snd ip)) (enumerate k ps) = map page_text ps.
Proof. induction ps as [|p ps IH]; intros k; simpl; [|rewrite IH]; reflexivity. Qed.

Lemma enumerate_length {A} (xs : list A) :
  forall k, List.length (enumerate k xs) = List.length xs.
Proof. induction xs as [|x xs IH]; intros k; simpl; [|rewrite IH]; reflexivity. Qed.

Lemma enumerate_nth {A} (xs : list A) :
  forall k i x,
    nth_error xs i = Some x ->
    nth_error (enumerate k xs) i = Some ((k + Z.of_nat i)%Z, x).
Proof.
  induction xs as [|y xs IH]; intros k [|i] x H; simpl in *; try discriminate.
  - injection H as ->. now rewrite Z.add_0_r.
  - rewrite (IH _ _ _ H). do 2 f_equal. lia.
Qed.

Lemma text_of_reader_spec (reader : PdfReader) :
  text_of_reader reader
  = Py.Dict
      [("pages", Py.List (map page_entry (enumerate 1 (pages reader))));
       ("full_text",
        Py.Str (Text.join Text.nl (filter nonempty (map page_text (pages reader)))))].
Proof.
  unfold text_of_reader. rewrite text_loop. simpl. now rewrite enumerate_texts.
Qed.

Lemma texts_of_pages (ps : list (option string)) :
  filter nonempty (map page_text ps) = texts_of ps.
Proof.
  induction ps as [|[[|c t]|] ps IH]; simpl; [|exact IH|rewrite IH|exact IH];
    reflexivity.
Qed.

Lemma lines_join (texts : list string) : Text.join Text.nl texts = lines texts.
Proof.
  unfold Text.join. induction texts as [|t [|t' rest] IH]; try reflexivity.
  cbn [String.concat lines] in IH |- *. now rewrite IH.
Qed.

(** C6: for a stored document, [extract_text] returns one entry per page,
    in page order and numbered from 1, each with the text the reader gave
    for the page and with the empty text when it gave none; and a
    [full_text] that is the texts of the pages that have one, in page
    order, with a newline between two of them. *)
Theorem extract_text_pages_and_full_text
  (w : world) (d : list (string * Py.value)) (c n : string) (reader : PdfReader) :
  container_of d = Py.Str c ->
  Py.get d "blob_name" = Py.Str n ->
  n <> "" ->
  find_blob c n (blobs w) = Some (Pdf reader) ->
  exists entries,
    extract_text (Py.Dict d) w
    = (Returned
         (Py.Dict
            [("pages", Py.List entries);
             ("full_text", Py.Str (lines (texts_of (pages reader))))]), w)
    /\ List.length entries = List.length (pages reader)
    /\ (forall i text,
          nth_error (pages reader) i = Some (Some text) ->
          nth_error entries i
          = Some (Py.Dict [("page", Py.Int (Z.of_nat i + 1));
                           ("text", Py.Str text)]))
    /\ (forall i,
          nth_error (pages reader) i = Some None ->
          nth_error entries i
          = Some (Py.Dict [("page", Py.Int (Z.of_nat i + 1));
                           ("text", Py.Str "")])).
Proof.
  intros Hc Hn Hne Hblob.
  exists (map page_entry (enumerate 1 (pages reader))).
  assert (Hentry : forall i page,
             nth_error (pages reader) i = Some page ->
             nth_error (map page_entry (enumerate 1 (pages reader))) i
             = Some (Py.Dict [("page", Py.Int (Z.of_nat i + 1));
                              ("text", Py.Str (page_text page))])).
  { intros i page Hi. rewrite nth_error_map, (enumerate_nth _ 1 i page Hi).
    cbn [option_map]. unfold page_entry. cbn [fst snd].
    now rewrite Z.add_comm. }
  split; [|split; [|split]].
  - rewrite extract_text_run. unfold analysis. rewrite Hc, Hn, Hblob.
    simpl. apply String.eqb_neq in Hne. rewrite Hne. simpl.
    now rewrite text_of_reader_spec, texts_of_pages, lines_join.
  - now rewrite length_map, enumerate_length.
  - intros i text Hi. apply (Hentry i (Some text) Hi).
  - intros i Hi. apply (Hentry i None Hi).
Qed.

Lemma extract_text_pages_and_full_text_witness :
  exists entries,
    extract_text (job "pdfs" "test.pdf") w0
    = (Returned
         (Py.Dict
            [("pages", Py.List entries);
             ("full_text",
              Py.Str ("Contact us at a@b.com or visit https://x.io"
                      ++ String (ascii_of_nat 10) "Call 555-123-4567"))]), w0)
    /\ List.length entries = 4%nat
    /\ nth_error entries 0
       = Some (Py.Dict [("page", Py.Int 1);
                        ("text", Py.Str "Contact us at a@b.com or visit https://x.io")])
    /\ nth_error entries 1
       = Some (Py.Dict [("page", Py.Int 2); ("text", Py.Str "")]).
Proof.
  destruct (extract_text_pages_and_full_text w0
              [("container", Py.Str "pdfs"); ("blob_name", Py.Str "test.pdf")]
              "pdfs" "test.pdf" test_pdf)
    as (entries & Hrun & Hlen & Htext & Hnone);
    [reflexivity|reflexivity|discriminate|reflexivity|].
  exists entries. split; [exact Hrun|]. split; [exact Hlen|]. split.
  - apply (Htext 0%nat). reflexivity.
  - apply (Hnone 1%nat). reflexivity.
Defined.

(** The specification's end-to-end scenario. *)
Example scenario_full_text :
  field "full_text" (text_of_reader test_pdf)
  = Py.Str ("Contact us at a@b.com or visit https://x.io" ++ Text.nl
            ++ "Call 555-123-4567").
Proof. reflexivity. Qed.

Example scenario_sensitive_data :
  sensitive_of_reader test_pdf
  = Py.Dict [("emails", Py.List [Py.Str "a@b.com"]);
             ("phones", Py.List [Py.Str "555-123-4567"]);
             ("urls", Py.List [Py.Str "https://x.io"]);
             ("dates", Py.List [])].
Proof. vm_compute. reflexivity. Qed.

(** ** analyze_statistics *)

Lemma analysis_returned empty fault of_reader d bs (r : Py.value) :
  analysis empty fault of_reader d bs = Returned r ->
  (Py.truthy (Py.get d "blob_name") = false /\ r = empty)
  \/ exists c n b reader,
       container_of d = Py.Str c /\ Py.get d "blob_name" = Py.Str n
       /\ find_blob c n bs = Some b /\ r = of_reader reader.
Proof.
  unfold analysis. destruct (Py.truthy (Py.get d "blob_name")); cbn [negb].
  - destruct (container_of d) as [| | | |c| |]; try discriminate.
    destruct (Py.get d "blob_name") as [| | | |n| |]; try discriminate.
    destruct (find_blob c n bs) as [b|] eqn:Hb; try discriminate.
    unfold reading.
    destruct b as [|reader|reader bad_page bad_info]; try discriminate;
      destruct (fault _); try discriminate;
      intros [= <-]; right; eexists c, n, _, reader; repeat split; try reflexivity; exact Hb.
  - intros [= <-]. now left.
Qed.

Lemma statistics_of_reader_spec (reader : PdfReader) :
  statistics_of_reader reader
  = Py.Dict
      [("page_count", Py.Int (Z.of_nat (List.length (pages reader))));
       ("word_count",
        Py.Int (Z.of_nat (List.length (Re.findall Re.word_re (all_text reader)))));
       ("avg_words_per_page",
        Py.Float
          (if (0 <? Z.of_nat (List.length (pages reader)))%Z
           then Num.truediv
                  (Z.of_nat (List.length (Re.findall Re.word_re (all_text reader))))
                  (Z.of_nat (List.length (pages reader)))
           else 0%float));
       ("estimated_reading_time_minutes",
        Py.Float
          (PrimFloat.div
             (Num.float_of_int
                (Z.of_nat (List.length (Re.findall Re.word_re (all_text reader)))))
             200%float))].
Proof.
  unfold statistics_of_reader. cbn [Py.truthy].
  replace (negb (Z.of_nat (List.length (pages reader)) =? 0)%Z)
    with (0 <? Z.of_nat (List.length (pages reader)))%Z
    by (destruct (List.length (pages reader)); reflexivity).
  reflexivity.
Qed.

(** C7: in every result of [analyze_statistics], [avg_words_per_page] is
    [word_count / page_count] when there are pages and [0.0] otherwise,
    and [estimated_reading_time_minutes] is [word_count / 200.0]; both
    are [0.0] for a document without pages. *)
Theorem statistics_invariant (w : world) (payload r : Py.value) :
  fst (analyze_statistics payload w) = Returned r ->
  exists page_count word_count : Z,
    (0 <= page_count)%Z /\ (0 <= word_count)%Z
    /\ r = Py.Dict
             [("page_count", Py.Int page_count); ("word_count", Py.Int word_count);
              ("avg_words_per_page",
               Py.Float (if (0 <? page_count)%Z
                         then Num.truediv word_count page_count else 0%float));
              ("estimated_reading_time_minutes",
               Py.Float (PrimFloat.div (Num.float_of_int word_count) 200%float))]
    /\ (page_count = 0%Z ->
        field "avg_words_per_page" r = Py.Float 0%float
        /\ field "estimated_reading_time_minutes" r = Py.Float 0%float).
Proof.
  intros H. destruct payload as [| | | | | |d]; try discriminate H.
  rewrite analyze_statistics_run in H. cbn [fst] in H.
  apply analysis_returned in H as [[_ ->]|(c & n & b & reader & _ & _ & _ & ->)].
  - exists 0%Z, 0%Z. repeat split; try lia; reflexivity.
  - exists (Z.of_nat (List.length (pages reader))),
      (Z.of_nat (List.length (Re.findall Re.word_re (all_text reader)))).
    split; [lia|]. split; [lia|]. split; [apply statistics_of_reader_spec|].
    intros Hzero. rewrite statistics_of_reader_spec.
    assert (Hpages : pages reader = []) by (destruct (pages reader); [reflexivity|discriminate]).
    rewrite all_text_join, Hpages. split; reflexivity.
Qed.

Lemma statistics_invariant_witness :
  exists page_count word_count : Z,
    (0 <= page_count)%Z /\ (0 <= word_count)%Z
    /\ statistics_of_reader test_pdf
       = Py.Dict
           [("page_count", Py.Int page_count); ("word_count", Py.Int word_count);
            ("avg_words_per_page",
             Py.Float (if (0 <? page_count)%Z
                       then Num.truediv word_count page_count else 0%float));
            ("estimated_reading_time_minutes",
             Py.Float (PrimFloat.div (Num.float_of_int word_count) 200%float))]
    /\ (page_count = 0%Z ->
        field "avg_words_per_page" (statistics_of_reader test_pdf) = Py.Float 0%float
        /\ field "estimated_reading_time_minutes" (statistics_of_reader test_pdf)
           = Py.Float 0%float).
Proof.
  apply (statistics_invariant w0 (job "pdfs" "test.pdf")). reflexivity.
Defined.

Example statistics_of_test_pdf :
  statistics_of_reader test_pdf
  = Py.Dict [("page_count", Py.Int 4); ("word_count", Py.Int 15);
             ("avg_words_per_page", Py.Float 3.75%float);
             ("estimated_reading_time_minutes", Py.Float (PrimFloat.div 15 200))].
Proof. vm_compute. reflexivity. Qed.

Example statistics_of_no_pages :
  fst (analyze_statistics (job "pdfs" "blank.pdf") w0) = Returned empty_statistics.
Proof. vm_compute. reflexivity. Qed.

(** ** Payload fields *)

Lemma get_set_same (k : string) (v : Py.value) (d : list (string * Py.value)) :
  Py.get (Py.set k v d) k = v.
Proof.
  unfold Py.get, Py.get_or.
  induction d as [|[k' v'] d IH]; simpl.
  - now rewrite String.eqb_refl.
  - destruct (String.eqb k k') eqn:E; simpl; rewrite E; [reflexivity|exact IH].
Qed.

Lemma get_set_other (k k' : string) (v : Py.value) (d : list (string * Py.value)) :
  k <> k' -> Py.get (Py.set k v d) k' = Py.get d k'.
Proof.
  intros Hk. unfold Py.get, Py.get_or.
  induction d as [|[k0 v0] d IH]; simpl.
  - apply not_eq_sym in Hk. apply String.eqb_neq in Hk. now rewrite Hk.
  - destruct (String.eqb k k0) eqn:E; simpl.
    + apply String.eqb_eq in E. subst k0.
      apply not_eq_sym in Hk. apply String.eqb_neq in Hk. now rewrite Hk.
    + destruct (String.eqb k' k0); [reflexivity|exact IH].
Qed.



Lemma analyzers_run (name : string) (f : Py.value -> M Py.value) :
  In (name, f) analyzers ->
  exists empty fault of_reader,
    forall d w, f (Py.Dict d) w = (analysis empty fault of_reader d (blobs w), w).
Proof.
  unfold analyzers. simpl.
  intros [[= <- <-]|[[= <- <-]|[[= <- <-]|[[= <- <-]|[]]]]].
  - exists empty_text, pages_fault, text_of_reader. apply extract_text_run.
  - exists (Py.Dict []), info_fault, metadata_of_reader. apply extract_metadata_run.
  - exists empty_statistics, pages_fault, statistics_of_reader.
    apply analyze_statistics_run.
  - exists empty_sensitive, pages_fault, sensitive_of_reader.
    apply detect_sensitive_data_run.
Qed.

(** ** Documents that are not there *)

(** C1, as amended: an analyzer returns its empty result exactly for a
    payload without blob name, and then without reading storage (for
    [extract_metadata] that result is the empty mapping); when the named
    document is missing from storage, the failure of the download is
    raised, not turned into an empty result. *)
Theorem analyzers_degrade_only_without_blob_name
  (w : world) (d : list (string * Py.value)) :
  (Py.truthy (Py.get d "blob_name") = false ->
   extract_text (Py.Dict d) w = (Returned empty_text, w)
   /\ extract_metadata (Py.Dict d) w = (Returned (Py.Dict []), w)
   /\ analyze_statistics (Py.Dict d) w = (Returned empty_statistics, w)
   /\ detect_sensitive_data (Py.Dict d) w = (Returned empty_sensitive, w))
  /\ (forall c n,
        container_of d = Py.Str c ->
        Py.get d "blob_name" = Py.Str n ->
        n <> "" ->
        find_blob c n (blobs w) = None ->
        forall name f,
          In (name, f) analyzers ->
          f (Py.Dict d) w
          = (Raised (ResourceNotFoundError "The specified blob does not exist."), w)).
Proof.
  split.
  - intros Hn.
    rewrite extract_text_run, extract_metadata_run, analyze_statistics_run,
      detect_sensitive_data_run.
    unfold analysis. rewrite Hn. repeat split.
  - intros c n Hc Hn Hne Hblob name f Hin.
    destruct (analyzers_run name f Hin) as (e & fault & core & Hrun).
    rewrite Hrun. unfold analysis. rewrite Hc, Hn, Hblob. simpl.
    apply String.eqb_neq in Hne. now rewrite Hne.
Qed.

Lemma analyzers_degrade_witness :
  (extract_text (Py.Dict [("container", Py.Str "pdfs")]) w0 = (Returned empty_text, w0)
   /\ extract_metadata (Py.Dict [("container", Py.Str "pdfs")]) w0
      = (Returned (Py.Dict []), w0)
   /\ analyze_statistics (Py.Dict [("container", Py.Str "pdfs")]) w0
      = (Returned empty_statistics, w0)
   /\ detect_sensitive_data (Py.Dict [("container", Py.Str "pdfs")]) w0
      = (Returned empty_sensitive, w0))
  /\ analyze_statistics (job "pdfs" "gone.pdf") w0
     = (Raised (ResourceNotFoundError "The specified blob does not exist."), w0).
Proof.
  split.
  - apply (proj1 (analyzers_degrade_only_without_blob_name w0
                    [("container", Py.Str "pdfs")])).
    reflexivity.
  - apply (proj2 (analyzers_degrade_only_without_blob_name w0
                    [("container", Py.Str "pdfs"); ("blob_name", Py.Str "gone.pdf")])
             "pdfs" "gone.pdf" eq_refl eq_refl) with (name := "analyze_statistics").
    + discriminate.
    + reflexivity.
    + simpl. auto.
Defined.

(** C1 as stated fails: for a document that is not in storage every
    analyzer raises. *)
Lemma missing_document_raises :
  fst (extract_text (job "pdfs" "gone.pdf") w0)
  = Raised (ResourceNotFoundError "The specified blob does not exist.")
  /\ fst (extract_metadata (job "pdfs" "gone.pdf") w0)
     = Raised (ResourceNotFoundError "The specified blob does not exist.")
  /\ fst (analyze_statistics (job "pdfs" "gone.pdf") w0)
     = Raised (ResourceNotFoundError "The specified blob does not exist.")
  /\ fst (detect_sensitive_data (job "pdfs" "gone.pdf") w0)
     = Raised (ResourceNotFoundError "The specified blob does not exist.")
  /\ fst (extract_text (job "pdfs" "gone.pdf") w0) <> Returned empty_text.
Proof. repeat split; try reflexivity. discriminate. Qed.

(** ** The orchestrator *)

(** C4: without a blob name the orchestration ends at once with the
    MissingIdentity record; the world is left as it was: no activity is
    scheduled, so no analyzer runs, no report is built and nothing is
    stored. *)
Theorem missing_blob_name_stops_the_workflow
  (w : world) (input : Py.value) (d : list (string * Py.value)) :
  Py.or_ input (Py.Dict []) = Py.Dict d ->
  Py.truthy (Py.get d "blob_name") = false ->
  PdfOrchestrator input w = (Returned MissingIdentity, w)
  /\ scheduled (snd (PdfOrchestrator input w)) = scheduled w
  /\ table (snd (PdfOrchestrator input w)) = table w.
Proof.
  intros Hd Hn.
  assert (H : PdfOrchestrator input w = (Returned MissingIdentity, w)).
  { unfold PdfOrchestrator. rewrite Hd. unfold as_dict, bind, ret.
    cbn beta iota. rewrite Hn. reflexivity. }
  rewrite H. repeat split.
Qed.

Lemma missing_blob_name_witness :
  (PdfOrchestrator (Py.Dict [("container", Py.Str "pdfs"); ("blob_name", Py.Str "")]) w0
   = (Returned MissingIdentity, w0)
   /\ scheduled
        (snd (PdfOrchestrator
                (Py.Dict [("container", Py.Str "pdfs"); ("blob_name", Py.Str "")]) w0))
      = scheduled w0
   /\ table
        (snd (PdfOrchestrator
                (Py.Dict [("container", Py.Str "pdfs"); ("blob_name", Py.Str "")]) w0))
      = table w0)
  /\ fst (PdfOrchestrator Py.None_ w0) = Returned MissingIdentity.
Proof.
  split.
  - apply (missing_blob_name_stops_the_workflow w0 _
             [("container", Py.Str "pdfs"); ("blob_name", Py.Str "")]);
      reflexivity.
  - rewrite (proj1 (missing_blob_name_stops_the_workflow w0 Py.None_ []
                      eq_refl eq_refl)).
    reflexivity.
Defined.


(** The fan-out: the four analyzers are scheduled and run on the same
    blobs; the join is over their four outcomes. *)
Lemma fan_out_run (b : list (string * Py.value)) (w : world) :
  task_all
    [call_activity "extract_text" (Py.Dict b);
     call_activity "extract_metadata" (Py.Dict b);
     call_activity "analyze_statistics" (Py.Dict b);
     call_activity "detect_sensitive_data" (Py.Dict b)] w
  = (join_all
       [analysis empty_text pages_fault text_of_reader b (blobs w);
        analysis (Py.Dict []) info_fault metadata_of_reader b (blobs w);
        analysis empty_statistics pages_fault statistics_of_reader b (blobs w);
        analysis empty_sensitive pages_fault sensitive_of_reader b (blobs w)],
     with_scheduled
       (scheduled w ++ map (fun nf => (fst nf, Py.Dict b)) analyzers) w).
Proof.
  unfold task_all, run_all, call_activity, bind, modify. cbn [activity String.eqb].
  unfold activity. cbn [String.eqb Ascii.eqb Bool.eqb andb].
  rewrite extract_text_run, extract_metadata_run, analyze_statistics_run,
    detect_sensitive_data_run.
  unfold with_scheduled.
  cbn [blobs table table_name utcnow scheduled query_filter_keyword].
  rewrite <- !app_assoc. reflexivity.
Qed.




(** ** The default container *)



Section DefaultContainer.

Variables (d : list (string * Py.value)) (w : world) (c n : string).
Hypothesis Hcontainer : container_of d = Py.Str c.
Hypothesis Hname : Py.get d "blob_name" = Py.Str n.
Hypothesis Hnonempty : n <> "".
Hypothesis Hc : c <> "".




End DefaultContainer.



Example trigger_of_test_pdf :
  PdfBlobTrigger (Some "pdfs/test.pdf") w0 = PdfOrchestrator (job "pdfs" "test.pdf") w0
  /\ fst (PdfBlobTrigger (Some "pdfs/") w0) = Returned MissingIdentity.
Proof. split; reflexivity. Qed.

Example orchestration_of_test_pdf :
  map fst (scheduled (snd (PdfOrchestrator (job "" "test.pdf") w0)))
  = map fst analyzers ++ ["generate_report"; "store_report"]
  /\ map fst (table (snd (PdfOrchestrator (job "" "test.pdf") w0)))
     = [("pdfs", "test.pdf")].
Proof. vm_compute. split; reflexivity. Qed.

(** ** The report builder *)

Lemma or_not_none (v default : Py.value) :
  default <> Py.None_ -> Py.or_ v default <> Py.None_.
Proof.
  unfold Py.or_. destruct (Py.truthy v) eqn:Hv; [|trivial].
  intros _ ->. discriminate.
Qed.

Lemma or_truthy (v default : Py.value) :
  Py.truthy v = true -> Py.or_ v default = v.
Proof. unfold Py.or_. now intros ->. Qed.

Lemma or_falsy (v default : Py.value) :
  Py.truthy v = false -> Py.or_ v default = default.
Proof. unfold Py.or_. now intros ->. Qed.

(** C3, as amended: the assembled report has its seven keys, whatever the
    input holds; none of the four component values is null, and a
    component that is there is passed on.  A component that is missing,
    null or otherwise false is replaced by a default: the empty extraction
    for [extract_text], the four empty lists for [detect_sensitive_data],
    and for [extract_metadata] the empty mapping, not the mapping with
    seven empty fields. *)
Theorem generate_report_defaults (w : world) (d : list (string * Py.value)) :
  exists r,
    generate_report (Py.Dict d) w = (Returned (Py.Dict r), w)
    /\ map fst r = report_keys
    /\ (forall k,
          In k ["extract_text"; "extract_metadata"; "analyze_statistics";
                "detect_sensitive_data"] ->
          Py.get r k <> Py.None_
          /\ (Py.truthy (Py.get d k) = true -> Py.get r k = Py.get d k))
    /\ (Py.truthy (Py.get d "extract_text") = false ->
        Py.get r "extract_text" = empty_text)
    /\ (Py.truthy (Py.get d "extract_metadata") = false ->
        Py.get r "extract_metadata" = Py.Dict [])
    /\ (Py.truthy (Py.get d "detect_sensitive_data") = false ->
        Py.get r "detect_sensitive_data" = empty_sensitive).
Proof.
  eexists. split; [reflexivity|]. split; [reflexivity|].
  split; [|repeat split; intros H; cbn; now apply or_falsy].
  intros k [<-|[<-|[<-|[<-|[]]]]]; cbn; (split; [apply or_not_none; discriminate|]);
    apply or_truthy.
Qed.

Lemma generate_report_defaults_witness :
  exists r,
    generate_report (job "pdfs" "a.pdf") w0 = (Returned (Py.Dict r), w0)
    /\ map fst r = report_keys
    /\ Py.get r "extract_text" = empty_text
    /\ Py.get r "extract_metadata" = Py.Dict []
    /\ Py.get r "detect_sensitive_data" = empty_sensitive
    /\ Py.get r "analyze_statistics" <> Py.None_.
Proof.
  destruct (generate_report_defaults w0
              [("container", Py.Str "pdfs"); ("blob_name", Py.Str "a.pdf")])
    as (r & Hrun & Hkeys & Hall & Htext & Hmeta & Hsens).
  exists r. repeat split.
  - exact Hrun.
  - exact Hkeys.
  - apply Htext. reflexivity.
  - apply Hmeta. reflexivity.
  - apply Hsens. reflexivity.
  - apply Hall. simpl. auto.
Defined.

(** C3 as stated fails: for an input without component results the
    report's metadata and statistics are empty mappings, in which no field
    is present. *)
Lemma missing_components_become_empty_mappings :
  exists r,
    fst (generate_report (job "pdfs" "a.pdf") w0) = Returned r
    /\ field "extract_metadata" r = Py.Dict []
    /\ field "extract_metadata" r <> blank_metadata
    /\ field "title" (field "extract_metadata" r) = Py.None_
    /\ field "analyze_statistics" r = Py.Dict []
    /\ field "analyze_statistics" r <> empty_statistics.
Proof.
  eexists. split; [reflexivity|]. cbn.
  repeat split; try reflexivity; discriminate.
Qed.

(** ** Storing a report and reading it back *)

Lemma key_eqb_refl (pk rk : string) : key_eqb pk rk (pk, rk) = true.
Proof. unfold key_eqb. simpl. now rewrite !String.eqb_refl. Qed.

(** After an upsert the key holds the written entity, or the stored one
    with the written properties merged in. *)
Lemma find_upsert (pk rk : string) (e : entity) (t : list (string * string * entity)) :
  exists e',
    find_entity pk rk (upsert (pk, rk) e t) = Some e'
    /\ (e' = e \/ exists old, e' = merge_entity old e).
Proof.
  induction t as [|[k old] t IH]; simpl.
  - rewrite key_eqb_refl. exists e. auto.
  - destruct (key_eqb pk rk k) eqn:Hk; simpl.
    + rewrite Hk. exists (merge_entity old e). eauto.
    + destruct (key_ltb (pk, rk) k); simpl.
      * rewrite key_eqb_refl. exists e. auto.
      * rewrite Hk. exact IH.
Qed.

(** The last property written wins. *)
Lemma merge_last (old e : entity) (k : string) (v : Py.value) :
  Py.get (merge_entity old (e ++ [(k, v)])) k = v.
Proof.
  unfold merge_entity. rewrite fold_left_app. simpl. apply get_set_same.
Qed.

(** ** Reading a report back from its text

    [store_report] keeps the report as the text [json.dumps] gives it,
    and [reports] answers with that text.  The text spells the report:
    what is read from it is the report.  For a float this is the round
    trip of [repr]: the shortest decimal that [repr] prints lies in the
    rounding interval of the float, and every decimal of that interval
    is read as the float. *)

Section ReadingBack.

Local Open Scope Z_scope.

Lemma append_nil_r (s : string) : (s ++ "")%string = s.
Proof. induction s as [|a s IH]; simpl; [|rewrite IH]; reflexivity. Qed.

Lemma append_assoc (a b c : string) : ((a ++ b) ++ c = a ++ (b ++ c))%string.
Proof. induction a as [|x a IH]; simpl; [|rewrite IH]; reflexivity. Qed.

(** *** The decimals of the rounding interval are read as the float *)

Lemma digits2_size (m : positive) : digits2_pos m = Pos.size m.
Proof. induction m; simpl; congruence. Qed.

Lemma digits2_log2 (m : positive) : Z.pos (digits2_pos m) = Z.log2 (Z.pos m) + 1.
Proof.
  rewrite digits2_size. destruct m; simpl; try lia.
Qed.

(** The mantissa and the exponent of a finite float. *)
Lemma finite_bounds (f : float) (s : bool) (m : positive) (e : Z) :
  Prim2SF f = S754_finite s m e ->
  Z.pos m < 2 ^ 53 /\ -1074 <= e <= 971 /\ (2 ^ 52 <= Z.pos m \/ e = -1074).
Proof.
  intros H. pose proof (Prim2SF_valid f) as Hv. rewrite H in Hv.
  unfold SpecFloat.valid_binary, bounded, canonical_mantissa, fexp in Hv.
  apply andb_prop in Hv as [Hc Hb].
  apply Z.eqb_eq in Hc. apply Z.leb_le in Hb.
  rewrite digits2_log2 in Hc.
  change (SpecFloat.emin prec emax) with (-1074) in Hc.
  change prec with 53 in *. change emax with 1024 in *.
  pose proof (Z.log2_nonneg (Z.pos m)) as Hl.
  assert (Hlog : Z.log2 (Z.pos m) <= 52) by lia.
  split.
  - apply Z.log2_lt_pow2; lia.
  - split; [lia|].
    destruct (Z.eq_dec e (-1074)) as [->|Hne]; [now right|left].
    assert (Z.log2 (Z.pos m) = 52) as Hl52 by lia.
    pose proof (Z.log2_spec (Z.pos m) ltac:(lia)) as Hs. rewrite Hl52 in Hs. lia.
Qed.

Lemma pow2_pos n : 0 < Num.pow2 n.
Proof. unfold Num.pow2. apply Z.pow_pos_nonneg; lia. Qed.

Lemma pow10_pos n : 0 < Num.pow10 n.
Proof. unfold Num.pow10. apply Z.pow_pos_nonneg; lia. Qed.

Lemma compare_scale (a b p : Z) : 0 < p -> (a * p ?= b * p) = (a ?= b).
Proof.
  intros Hp. destruct (Z.compare_spec a b) as [->|H|H].
  - apply Z.compare_refl.
  - apply Z.compare_lt_iff. nia.
  - apply Z.compare_gt_iff. nia.
Qed.

(** A comparison in the units of the reader. *)
Lemma dec_compare_scaled (e c k x : Z) :
  -1074 <= e ->
  Num.dec_compare e c k x
  = (c * Num.pow10 k * 2 ^ 1200 ?= x * 2 ^ (e + 1198) * Num.pow10 (- k)).
Proof.
  intros He. unfold Num.dec_compare, Num.pow2.
  pose proof (pow10_pos k) as Hk. pose proof (pow10_pos (- k)) as Hk'.
  destruct (Z.le_gt_cases 2 e) as [H2|H2].
  - rewrite (Z.max_r (2 - e) 0), (Z.max_l (e - 2) 0) by lia.
    replace (e + 1198) with ((e - 2) + 1200) by lia.
    rewrite Z.pow_add_r by lia. rewrite Z.pow_0_r, Z.mul_1_r.
    rewrite <- (compare_scale _ _ (2 ^ 1200)) by (apply Z.pow_pos_nonneg; lia).
    f_equal; ring.
  - rewrite (Z.max_l (2 - e) 0), (Z.max_r (e - 2) 0) by lia.
    rewrite Z.pow_0_r, Z.mul_1_r.
    rewrite <- (compare_scale _ _ (2 ^ (e + 1198))) by (apply Z.pow_pos_nonneg; lia).
    replace (2 ^ 1200) with (2 ^ (2 - e) * 2 ^ (e + 1198))
      by (rewrite <- Z.pow_add_r by lia; f_equal; lia).
    f_equal; ring.
Qed.

(** Rounding to the nearest multiple of the unit [4 * u4], ties to the even
    one, gives [m] all over the rounding interval of [m]. *)
Lemma round_half_even (m u4 i : Z) (sticky : bool) :
  0 < u4 ->
  (4 * m - 2) * u4 <= i <= (4 * m + 2) * u4 ->
  (i = (4 * m - 2) * u4 -> sticky = true \/ Z.even m = true) ->
  (i = (4 * m + 2) * u4 -> sticky = false /\ Z.even m = true) ->
  (if match 2 * (i mod (4 * u4)) ?= 4 * u4 with
      | Gt => true
      | Eq => sticky || Z.odd (i / (4 * u4))
      | Lt => false
      end
   then i / (4 * u4) + 1 else i / (4 * u4)) = m.
Proof.
  intros Hu [Hlo Hhi] Htie_lo Htie_hi.
  destruct (Z.lt_ge_cases i (4 * m * u4)) as [Hlt|Hge].
  - assert (Hq : i / (4 * u4) = m - 1).
    { symmetry. apply (Z.div_unique _ _ _ (i - (m - 1) * (4 * u4))); lia. }
    assert (Hr : i mod (4 * u4) = i - (m - 1) * (4 * u4)).
    { symmetry. apply (Z.mod_unique _ _ (m - 1)); lia. }
    rewrite Hq, Hr.
    destruct (Z.compare_spec (2 * (i - (m - 1) * (4 * u4))) (4 * u4)) as [E|E|E].
    + assert (Hi : i = (4 * m - 2) * u4) by lia.
      replace (m - 1) with (Z.pred m) by lia. rewrite Z.odd_pred.
      destruct (Htie_lo Hi) as [Hs|Hev].
      * rewrite Hs. cbn [orb]. lia.
      * rewrite Hev, orb_true_r. lia.
    + lia.
    + lia.
  - assert (Hq : i / (4 * u4) = m).
    { symmetry. apply (Z.div_unique _ _ _ (i - m * (4 * u4))); lia. }
    assert (Hr : i mod (4 * u4) = i - m * (4 * u4)).
    { symmetry. apply (Z.mod_unique _ _ m); lia. }
    rewrite Hq, Hr.
    destruct (Z.compare_spec (2 * (i - m * (4 * u4))) (4 * u4)) as [E|E|E].
    + assert (Hi : i = (4 * m + 2) * u4) by lia.
      destruct (Htie_hi Hi) as [Hs Hev].
      rewrite Hs, <- Z.negb_even, Hev. reflexivity.
    + reflexivity.
    + lia.
Qed.

Section Nearest.

Variables (m e c k : Z) (neg : bool).
Hypothesis Hm : 0 < m < 2 ^ 53.
Hypothesis He : -1074 <= e <= 971.
Hypothesis Hnormal : 2 ^ 52 <= m \/ e = -1074.
Hypothesis Hin : Num.in_interval m e c k = true.

Let n := c * Num.pow10 k * 2 ^ 1200.
Let d := Num.pow10 (- k).
Let i := n / d.
Let r := n mod d.
Let u4 := 2 ^ (e + 1198).
Let lo := Num.lower_end m e.

Lemma d_pos : 0 < d.
Proof. apply pow10_pos. Qed.

Lemma u4_pos : 0 < u4.
Proof. apply Z.pow_pos_nonneg; lia. Qed.

Lemma n_split : n = d * i + r /\ 0 <= r < d.
Proof.
  split; [apply Z.div_mod; pose proof d_pos; lia|apply Z.mod_pos_bound, d_pos].
Qed.

Lemma lo_cases :
  (lo = 4 * m - 2) \/ (lo = 4 * m - 1 /\ m = 2 ^ 52 /\ -1074 < e).
Proof.
  unfold lo, Num.lower_end.
  destruct (m =? 2 ^ 52) eqn:E1; destruct (-1074 <? e) eqn:E2; cbn [andb]; auto.
  right. apply Z.eqb_eq in E1. apply Z.ltb_lt in E2. auto.
Qed.

(** What the interval says about the integer part and the rest. *)
Lemma interval_facts :
  lo * u4 <= i /\ (i = lo * u4 -> r <> 0 \/ Z.even m = true)
  /\ i <= (4 * m + 2) * u4
  /\ (i = (4 * m + 2) * u4 -> r = 0 /\ Z.even m = true).
Proof.
  pose proof d_pos as Hd. pose proof n_split as [Hn Hr].
  pose proof Hin as H. unfold Num.in_interval in H.
  rewrite !dec_compare_scaled in H by lia.
  fold n d u4 lo in H.
  assert (Hlow : lo * u4 * d < n \/ (lo * u4 * d = n /\ Z.even m = true)).
  { destruct (Z.compare_spec n (lo * u4 * d)) as [E|E|E].
    - right. split; [lia|]. destruct (n ?= (4 * m + 2) * u4 * d); congruence.
    - discriminate H.
    - now left. }
  assert (Hhigh : n < (4 * m + 2) * u4 * d
                  \/ (n = (4 * m + 2) * u4 * d /\ Z.even m = true)).
  { destruct (Z.compare_spec n ((4 * m + 2) * u4 * d)) as [E|E|E].
    - right. split; [lia|]. destruct (n ?= lo * u4 * d); congruence.
    - now left.
    - destruct (n ?= lo * u4 * d); discriminate H. }
  split; [|split; [|split]].
  - apply Z.div_le_lower_bound; [exact Hd|]. fold n. lia.
  - intros Hi. destruct Hlow as [Hlt|[Heq Hev]]; [left|now right].
    rewrite Hn, Hi in Hlt. lia.
  - destruct Hhigh as [Hlt|[Heq _]].
    + apply Z.lt_le_incl. apply Z.div_lt_upper_bound; [exact Hd|]. fold n. lia.
    + unfold i. rewrite Heq. rewrite Z.div_mul by lia. lia.
  - intros Hi. destruct Hhigh as [Hlt|[Heq Hev]].
    + rewrite Hn, Hi in Hlt. lia.
    + split; [|exact Hev]. rewrite Hn, Hi in Heq. lia.
Qed.

Lemma nearest_in_interval :
  Num.nearest neg c k = SF2Prim (S754_finite neg (Z.to_pos m) e).
Proof.
  pose proof interval_facts as (Hlo & Hlo' & Hhi & Hhi').
  pose proof u4_pos as Hu4. pose proof lo_cases as Hlc.
  unfold Num.nearest. change Num.read_scale with 1200. fold n d i r.
  assert (Hi0 : 0 < i) by (destruct Hlc as [E|(E & _ & _)]; rewrite E in Hlo; nia).
  rewrite (proj2 (Z.eqb_neq i 0)) by lia.
  set (W := 2 ^ (e + 1252)).
  assert (HW : W = 2 ^ 52 * (4 * u4)).
  { unfold W, u4. replace (e + 1252) with (52 + (2 + (e + 1198))) by lia.
    rewrite !Z.pow_add_r by lia. reflexivity. }
  assert (Hunit : 2 ^ (e + 1200) = 4 * u4).
  { unfold u4. replace (e + 1200) with (2 + (e + 1198)) by lia.
    rewrite Z.pow_add_r by lia. reflexivity. }
  assert (Hupper : i < 2 ^ (e + 1253)).
  { replace (e + 1253) with (1 + (e + 1252)) by lia.
    rewrite Z.pow_add_r by lia. fold W. rewrite HW. nia. }
  assert (Hlog_hi : Z.log2 i - 1200 - 52 <= e).
  { apply Z.log2_lt_pow2 in Hupper; lia. }
  assert (Hround :
            (if match 2 * (i mod (4 * u4)) ?= 4 * u4 with
                | Gt => true
                | Eq => negb (r =? 0) || Z.odd (i / (4 * u4))
                | Lt => false
                end
             then i / (4 * u4) + 1 else i / (4 * u4)) = m).
  { apply round_half_even; [exact Hu4| | |].
    - destruct Hlc as [E|(E & _ & _)]; rewrite E in Hlo; nia.
    - intros Hi. destruct Hlc as [E|(E & _ & _)]; rewrite E in Hlo, Hlo'.
      + destruct (Hlo' Hi) as [Hr|Hev]; [left|now right].
        apply Z.eqb_neq in Hr. now rewrite Hr.
      + nia.
    - intros Hi. destruct (Hhi' Hi) as [-> Hev]. split; [reflexivity|exact Hev]. }
  assert (Hfinish :
            forall e0, e0 = e ->
              (let unit := 2 ^ (e0 + 1200) in
               let q0 := i / unit in
               let rem := i mod unit in
               let up := match 2 * rem ?= unit with
                         | Gt => true
                         | Eq => negb (r =? 0) || Z.odd q0
                         | Lt => false
                         end in
               let q := if up then q0 + 1 else q0 in
               let '(q1, e1) := if q =? 2 ^ 53 then (2 ^ 52, e0 + 1) else (q, e0) in
               if q1 =? 0 then (if neg then neg_zero else PrimFloat.zero)
               else if 971 <? e1 then (if neg then neg_infinity else infinity)
               else SF2Prim (S754_finite neg (Z.to_pos q1) e1))
              = SF2Prim (S754_finite neg (Z.to_pos m) e)).
  { intros e0 ->. cbv zeta. rewrite Hunit, Hround.
    rewrite (proj2 (Z.eqb_neq m (2 ^ 53))) by lia.
    rewrite (proj2 (Z.eqb_neq m 0)) by lia.
    rewrite (proj2 (Z.ltb_ge 971 e)) by lia. reflexivity. }
  destruct (Z.le_gt_cases W i) as [HWi|HWi].
  - apply Hfinish. apply Z.log2_le_pow2 in HWi; lia.
  - destruct (Z.eq_dec e (-1074)) as [Ee|Ee].
    + apply Hfinish. apply Z.log2_lt_pow2 in HWi; lia.
    + (* just below a power of two *)
      destruct Hnormal as [Hn52|]; [|lia].
      assert (Hm52 : m = 2 ^ 52).
      { destruct Hlc as [E|(_ & E & _)]; [|exact E]. rewrite E in Hlo. nia. }
      destruct Hlc as [E|(E & _ & _)]; [unfold lo, Num.lower_end in E;
        rewrite Hm52, Z.eqb_refl in E;
        rewrite (proj2 (Z.ltb_lt (-1074) e)) in E by lia; cbn [andb] in E; lia|].
      rewrite E in Hlo.
      assert (Hlog : Z.log2 i = e + 1251).
      { apply Z.log2_unique; [lia|]. split.
        - replace (e + 1251) with (51 + (2 + (e + 1198))) by lia.
          rewrite !Z.pow_add_r by lia. fold u4. nia.
        - replace (Z.succ (e + 1251)) with (e + 1252) by lia. exact HWi. }
      rewrite Hlog.
      replace (Z.max (e + 1251 - 1200 - 52) (-1074)) with (e - 1) by lia.
      assert (Hu2 : 2 ^ (e - 1 + 1200) = 2 * u4).
      { unfold u4. replace (e - 1 + 1200) with (1 + (e + 1198)) by lia.
        rewrite Z.pow_add_r by lia. reflexivity. }
      rewrite Hu2.
      assert (Hq : i / (2 * u4) = 2 ^ 53 - 1).
      { symmetry. apply (Z.div_unique _ _ _ (i - (2 ^ 53 - 1) * (2 * u4))); nia. }
      assert (Hr : i mod (2 * u4) = i - (2 ^ 53 - 1) * (2 * u4)).
      { symmetry. apply (Z.mod_unique _ _ (2 ^ 53 - 1)); nia. }
      rewrite Hq, Hr.
      assert (Hup : match 2 * (i - (2 ^ 53 - 1) * (2 * u4)) ?= 2 * u4 with
                    | Gt => true
                    | Eq => negb (r =? 0) || Z.odd (2 ^ 53 - 1)
                    | Lt => false
                    end = true).
      { destruct (Z.compare_spec (2 * (i - (2 ^ 53 - 1) * (2 * u4))) (2 * u4));
          [now rewrite orb_true_r|nia|reflexivity]. }
      rewrite Hup.
      replace (2 ^ 53 - 1 + 1) with (2 ^ 53) by lia. rewrite Z.eqb_refl.
      rewrite (proj2 (Z.eqb_neq (2 ^ 52) 0)) by lia.
      replace (e - 1 + 1) with e by lia.
      rewrite (proj2 (Z.ltb_ge 971 e)) by lia. now rewrite Hm52.
Qed.

End Nearest.

(** The comparisons depend on the value of the decimal only. *)
Lemma dec_compare_rescale (e c k x j : Z) :
  0 <= j ->
  Num.dec_compare e (c * 10 ^ j) (k - j) x = Num.dec_compare e c k x.
Proof.
  intros Hj. unfold Num.dec_compare.
  set (P := Num.pow2 (2 - e)). set (Q := Num.pow2 (e - 2)).
  assert (Hid : 10 ^ j * Num.pow10 (k - j) * Num.pow10 (- k)
                = Num.pow10 k * Num.pow10 (- (k - j))).
  { unfold Num.pow10. rewrite <- !Z.pow_add_r by lia. f_equal. lia. }
  rewrite <- (compare_scale _ _ (Num.pow10 (- k)) (pow10_pos _)).
  rewrite <- (compare_scale (c * Num.pow10 k * P) _ (Num.pow10 (- (k - j)))
                (pow10_pos _)).
  f_equal.
  - transitivity (c * P * (10 ^ j * Num.pow10 (k - j) * Num.pow10 (- k))); [ring|].
    rewrite Hid. ring.
  - ring.
Qed.

Lemma in_interval_rescale (m e c k j : Z) :
  0 <= j ->
  Num.in_interval m e (c * 10 ^ j) (k - j) = Num.in_interval m e c k.
Proof. intros Hj. unfold Num.in_interval. now rewrite !dec_compare_rescale. Qed.

Lemma dec_compare_exact (m e x : Z) :
  Num.dec_compare e (fst (Num.exact_decimal m e)) (snd (Num.exact_decimal m e)) x
  = (4 * m ?= x).
Proof.
  unfold Num.exact_decimal, Num.dec_compare, Num.pow2, Num.pow10.
  destruct (0 <=? e) eqn:E; cbn [fst snd].
  - apply Z.leb_le in E. change (Z.max 0 0) with 0. change (Z.max (- 0) 0) with 0.
    rewrite Z.pow_0_r, !Z.mul_1_r.
    destruct (Z.le_gt_cases 2 e) as [H2|H2].
    + rewrite (Z.max_r (2 - e) 0), (Z.max_l (e - 2) 0) by lia.
      rewrite Z.pow_0_r, Z.mul_1_r.
      replace (m * 2 ^ e) with (4 * m * 2 ^ (e - 2)).
      * apply compare_scale. apply Z.pow_pos_nonneg; lia.
      * replace e with (2 + (e - 2)) at 2 by lia. rewrite Z.pow_add_r by lia. ring.
    + rewrite (Z.max_l (2 - e) 0), (Z.max_r (e - 2) 0) by lia.
      rewrite Z.pow_0_r, Z.mul_1_r.
      replace (m * 2 ^ e * 2 ^ (2 - e)) with (4 * m); [reflexivity|].
      rewrite <- Z.mul_assoc, <- Z.pow_add_r by lia.
      replace (e + (2 - e)) with 2 by lia. ring.
  - apply Z.leb_gt in E.
    rewrite (Z.max_r e 0), (Z.max_l (- e) 0), (Z.max_l (2 - e) 0), (Z.max_r (e - 2) 0)
      by lia.
    rewrite Z.pow_0_r, !Z.mul_1_r.
    replace (m * 5 ^ (- e) * 2 ^ (2 - e)) with (4 * m * 10 ^ (- e)).
    + apply compare_scale. apply Z.pow_pos_nonneg; lia.
    + replace (2 - e) with (2 + - e) by lia. rewrite Z.pow_add_r by lia.
      change 10 with (5 * 2). rewrite Z.pow_mul_l. ring.
Qed.

Lemma in_interval_exact (m e : Z) :
  0 < m ->
  Num.in_interval m e (fst (Num.exact_decimal m e)) (snd (Num.exact_decimal m e))
  = true.
Proof.
  intros Hm. unfold Num.in_interval. rewrite !dec_compare_exact.
  assert (Hlo : Num.lower_end m e < 4 * m)
    by (unfold Num.lower_end; destruct (_ && _); lia).
  apply Z.compare_gt_iff in Hlo. rewrite Hlo.
  assert (Hhi : 4 * m < 4 * m + 2) by lia.
  apply Z.compare_lt_iff in Hhi. now rewrite Hhi.
Qed.

(** The decimal that is printed reads back as the float. *)
Lemma shortest_in_interval (m e E : Z) (fuel : nat) :
  0 < m ->
  forall n,
    Num.in_interval m e (fst (Num.shortest fuel n m e E))
      (snd (Num.shortest fuel n m e E)) = true.
Proof.
  intros Hm. induction fuel as [|fuel IH]; intros n; cbn [Num.shortest].
  - now apply in_interval_exact.
  - destruct (Num.in_interval m e (Num.dec_floor e (E - n + 1) (4 * m)) (E - n + 1))
      eqn:Hlo;
      destruct (Num.in_interval m e (Num.dec_floor e (E - n + 1) (4 * m) + 1)
                  (E - n + 1)) eqn:Hhi; cbn [andb].
    + destruct (Num.closer_floor _ _ _ _); assumption.
    + assumption.
    + assumption.
    + apply IH.
Qed.

Lemma strip_zeros_in_interval (m e : Z) (fuel : nat) :
  forall c k,
    Num.in_interval m e c k = true ->
    Num.in_interval m e (fst (Num.strip_zeros fuel c k))
      (snd (Num.strip_zeros fuel c k)) = true.
Proof.
  induction fuel as [|fuel IH]; intros c k H; cbn [Num.strip_zeros]; [exact H|].
  destruct ((c mod 10 =? 0) && (0 <? c)) eqn:E; [|exact H].
  apply andb_prop in E as [E _]. apply Z.eqb_eq in E.
  apply IH. rewrite <- H.
  assert (Hc : c = c / 10 * 10 ^ 1)
    by (rewrite Z.pow_1_r; pose proof (Z.div_mod c 10); lia).
  rewrite Hc at 2. replace k with (k + 1 - 1) at 2 by lia.
  symmetry. apply in_interval_rescale. lia.
Qed.

Local Open Scope string_scope.

(** *** Numbers as texts *)

Lemma stops_no_digit (s : string) : stops s -> no_digit_ahead s.
Proof. destruct s; simpl; tauto. Qed.

Lemma take_digits_app (a b : string) :
  all_digits a = true -> no_digit_ahead b ->
  Json.take_digits (a ++ b) = (a, b).
Proof.
  induction a as [|c a IH]; intros Ha Hb.
  - simpl. destruct b as [|c b]; [reflexivity|]. simpl in Hb |- *. now rewrite Hb.
  - simpl in Ha. apply andb_prop in Ha as [Hc Ha].
    cbn [append Json.take_digits]. rewrite Hc, (IH Ha Hb). reflexivity.
Qed.

Lemma digits_value_app (a b : string) :
  forall acc,
    Json.digits_value acc (a ++ b) = Json.digits_value (Json.digits_value acc a) b.
Proof. induction a as [|c a IH]; intros acc; simpl; [|rewrite IH]; reflexivity. Qed.

Lemma digits_value_zeros (n : nat) :
  forall acc, Json.digits_value acc (Num.zeros n) = (acc * 10 ^ Z.of_nat n)%Z.
Proof.
  induction n as [|n IH]; intros acc.
  - simpl. lia.
  - cbn [Num.zeros Json.digits_value]. rewrite IH.
    change (Num.digit_value "0") with 0%Z.
    rewrite Nat2Z.inj_succ, Z.pow_succ_r by lia. ring.
Qed.

Lemma all_digits_zeros (n : nat) : all_digits (Num.zeros n) = true.
Proof. induction n; simpl; auto. Qed.

Lemma all_digits_app (a b : string) :
  all_digits (a ++ b) = all_digits a && all_digits b.
Proof.
  induction a as [|c a IH]; simpl; [reflexivity|]. now rewrite IH, andb_assoc.
Qed.

Lemma length_append (a b : string) :
  String.length (a ++ b) = (String.length a + String.length b)%nat.
Proof. induction a as [|c a IH]; simpl; [|rewrite IH]; reflexivity. Qed.

Lemma length_zeros (n : nat) : String.length (Num.zeros n) = n.
Proof. induction n; simpl; congruence. Qed.

(** The decimal numeral of a natural number. *)
Lemma all_digits_uint (d : Decimal.uint) :
  all_digits (NilEmpty.string_of_uint d) = true.
Proof. induction d; simpl; auto. Qed.

Lemma digits_value_acc (d : Decimal.uint) :
  forall p,
    Json.digits_value (Z.pos p) (NilEmpty.string_of_uint d)
    = Z.pos (Pos.of_uint_acc d p).
Proof.
  induction d; intros p; [reflexivity|..];
    cbn [NilEmpty.string_of_uint Json.digits_value Pos.of_uint_acc];
    rewrite <- IHd; f_equal;
    (match goal with
     | |- context [Num.digit_value ?c] =>
         let v := eval vm_compute in (Num.digit_value c) in
         change (Num.digit_value c) with v
     end);
    lia.
Qed.

Lemma digits_value_uint (d : Decimal.uint) :
  Json.digits_value 0 (NilEmpty.string_of_uint d) = Z.of_N (Pos.of_uint d).
Proof.
  induction d; [reflexivity|..];
    cbn [NilEmpty.string_of_uint Json.digits_value Pos.of_uint];
    [exact IHd|..];
    (match goal with
     | |- Json.digits_value ?a _ = Z.of_N (N.pos (Pos.of_uint_acc _ ?q)) =>
         change a with (Z.pos q)
     end);
    apply digits_value_acc.
Qed.

Lemma str_of_int_digits (c : Z) :
  (0 <= c)%Z ->
  all_digits (Num.str_of_int c) = true
  /\ Json.digits_value 0 (Num.str_of_int c) = c
  /\ Num.str_of_int c <> "".
Proof.
  intros Hc. unfold Num.str_of_int.
  pose proof (DecimalZ.of_to c) as Hback.
  destruct c as [|p|p]; [repeat split; discriminate| |lia].
  cbn [Z.to_int NilZero.string_of_int Z.of_int] in *. unfold Z.of_uint in Hback.
  pose proof (all_digits_uint (Pos.to_uint p)) as Ha.
  pose proof (digits_value_uint (Pos.to_uint p)) as Hv.
  pose proof (DecimalPos.Unsigned.to_uint_nonnil p) as Hn.
  destruct (Pos.to_uint p) eqn:E; try contradiction;
    cbn [NilZero.string_of_uint] in *;
    (split; [exact Ha|split; [now rewrite Hv|discriminate]]).
Qed.

(** Cutting a text in two. *)
Lemma substring_whole (s : string) : String.substring 0 (String.length s) s = s.
Proof. induction s as [|c s IH]; simpl; [|rewrite IH]; reflexivity. Qed.

Lemma substring_split (s : string) :
  forall n,
    (n <= String.length s)%nat ->
    String.substring 0 n s ++ String.substring n (String.length s - n) s = s.
Proof.
  induction s as [|c s IH]; intros [|n] H; simpl in H; try lia.
  - reflexivity.
  - rewrite Nat.sub_0_r. cbn [String.substring append].
    apply (substring_whole (String c s)).
  - cbn [String.length Nat.sub String.substring append]. f_equal. apply IH. lia.
Qed.

Lemma substring_length (s : string) :
  forall n m,
    (n + m <= String.length s)%nat ->
    String.length (String.substring n m s) = m.
Proof.
  induction s as [|c s IH]; intros [|n] [|m] H; simpl in *; try lia; try reflexivity.
  - f_equal. apply (IH 0%nat). lia.
  - apply IH. lia.
  - apply IH. lia.
Qed.

(** *** Reading a number back *)

Lemma take_fraction_none (s : string) :
  match s with String c _ => Ascii.eqb c "." = false | EmptyString => True end ->
  Json.take_fraction s = Some (None, s).
Proof. destruct s as [|c s]; simpl; [reflexivity|]. now intros ->. Qed.

Lemma is_empty_false (s : string) : s <> "" -> Json.is_empty s = false.
Proof. destruct s; [congruence|reflexivity]. Qed.

Lemma take_fraction_some (fr rest : string) :
  all_digits fr = true -> fr <> "" -> no_digit_ahead rest ->
  Json.take_fraction (String "." (fr ++ rest)) = Some (Some fr, rest).
Proof.
  intros Hd Hne Hrest. unfold Json.take_fraction.
  change (Ascii.eqb "." ".") with true. cbv iota.
  rewrite (take_digits_app fr rest Hd Hrest). now rewrite is_empty_false.
Qed.

Lemma take_exponent_none (s : string) :
  match s with
  | String c _ => Ascii.eqb c "e" = false /\ Ascii.eqb c "E" = false
  | EmptyString => True
  end ->
  Json.take_exponent s = Some (None, s).
Proof. destruct s as [|c s]; simpl; [reflexivity|]. now intros [-> ->]. Qed.

Lemma take_exponent_some (negative : bool) (ds rest : string) :
  all_digits ds = true -> ds <> "" -> no_digit_ahead rest ->
  Json.take_exponent
    (String "e" ((if negative then "-" else "+") ++ ds ++ rest))
  = Some (Some (if negative then (- Json.digits_value 0 ds)%Z
                else Json.digits_value 0 ds), rest).
Proof.
  intros Hd Hne Hrest. unfold Json.take_exponent.
  change (Ascii.eqb "e" "e" || Ascii.eqb "e" "E") with true. cbv iota.
  destruct negative; cbn [append];
    [change (Ascii.eqb "-" "-") with true
    |change (Ascii.eqb "+" "-") with false; change (Ascii.eqb "+" "+") with true];
    cbv iota; rewrite (take_digits_app ds rest Hd Hrest);
    now rewrite is_empty_false.
Qed.

Lemma read_unsigned_parts (negative : bool) (whole s2 : string)
  (fraction : option string) (s3 : string) (exponent : option Z) (s4 : string) :
  all_digits whole = true -> whole <> "" -> no_digit_ahead s2 ->
  Json.take_fraction s2 = Some (fraction, s3) ->
  Json.take_exponent s3 = Some (exponent, s4) ->
  Json.read_unsigned negative (whole ++ s2)
  = match fraction, exponent with
    | None, None =>
        let v := Json.digits_value 0 whole in
        Some (Py.Int (if negative then (- v)%Z else v), s4)
    | _, _ =>
        let digits := match fraction with Some f => f | None => EmptyString end in
        let e10 := match exponent with Some e => e | None => 0%Z end in
        Some (Py.Float
                (Num.nearest negative (Json.digits_value 0 (whole ++ digits))
                   (e10 - Z.of_nat (String.length digits))),
              s4)
    end.
Proof.
  intros Hd Hne Hs2 Hf He. unfold Json.read_unsigned.
  rewrite (take_digits_app whole s2 Hd Hs2), (is_empty_false whole Hne), Hf, He.
  reflexivity.
Qed.

Section Layout.

Variables (negative : bool) (digits rest : string) (decpt : Z).
Hypothesis Hdigits : all_digits digits = true.
Hypothesis Hsome_digit : digits <> "".
Hypothesis Hrest : stops rest.

Let len := Z.of_nat (String.length digits).
Let v := Json.digits_value 0 digits.

Lemma rest_no_fraction :
  match rest with String c _ => Ascii.eqb c "." = false | EmptyString => True end.
Proof. destruct rest; simpl in *; tauto. Qed.

Lemma rest_no_exponent :
  match rest with
  | String c _ => Ascii.eqb c "e" = false /\ Ascii.eqb c "E" = false
  | EmptyString => True
  end.
Proof. destruct rest; simpl in *; tauto. Qed.

Lemma read_layout_exponent :
  (decpt <=? -4)%Z || (16 <? decpt)%Z = true ->
  Json.read_unsigned negative (Num.layout digits decpt ++ rest)
  = Some (Py.Float (Num.nearest negative v (decpt - len)), rest).
Proof.
  intros Hcase. unfold Num.layout. rewrite Hcase.
  set (e10 := (decpt - 1)%Z).
  set (ds := (if (Z.abs e10 <? 10)%Z then "0" else "") ++ Num.str_of_int (Z.abs e10)).
  destruct (str_of_int_digits (Z.abs e10)) as (Hea & Hev & Hen); [lia|].
  assert (Hds : all_digits ds = true /\ ds <> "" /\ Json.digits_value 0 ds = Z.abs e10).
  { unfold ds. destruct (Z.abs e10 <? 10)%Z; cbn [append].
    - repeat split; [exact Hea|discriminate|exact Hev].
    - repeat split; assumption. }
  destruct Hds as (Hda & Hdn & Hdv).
  assert (Hexp : Json.take_exponent
                   (String "e" ((if (e10 <? 0)%Z then "-" else "+") ++ ds ++ rest))
                 = Some (Some e10, rest)).
  { rewrite (take_exponent_some (e10 <? 0)%Z ds rest Hda Hdn (stops_no_digit _ Hrest)).
    rewrite Hdv. do 3 f_equal.
    destruct (e10 <? 0)%Z eqn:E; [apply Z.ltb_lt in E|apply Z.ltb_ge in E]; lia. }
  assert (Htext : forall mant,
             (mant ++ "e" ++ (if (e10 <? 0)%Z then "-" else "+")
                   ++ (if (Z.abs e10 <? 10)%Z then "0" else "")
                   ++ Num.str_of_int (Z.abs e10)) ++ rest
             = mant ++ String "e" ((if (e10 <? 0)%Z then "-" else "+") ++ ds ++ rest)).
  { intros mant. unfold ds. rewrite !append_assoc. reflexivity. }
  rewrite Htext.
  set (tail := String "e" ((if (e10 <? 0)%Z then "-" else "+") ++ ds ++ rest)) in *.
  destruct digits as [|d [|d' more]] eqn:Ed; [congruence| |].
  - (* one digit *)
    rewrite (read_unsigned_parts negative (String d "") tail None tail (Some e10) rest);
      [|exact Hdigits|discriminate|reflexivity|reflexivity|exact Hexp].
    cbv zeta iota. rewrite append_nil_r. unfold v, len, e10. cbn [String.length].
    do 4 f_equal. lia.
  - (* a digit, a point and more digits *)
    cbn [all_digits] in Hdigits. apply andb_prop in Hdigits as [Hd Hmore].
    change (String d ("." ++ String d' more) ++ tail)
      with (String d "" ++ String "." (String d' more ++ tail)).
    rewrite (read_unsigned_parts negative (String d "")
               (String "." (String d' more ++ tail)) (Some (String d' more))
               tail (Some e10) rest);
      [|cbn [all_digits]; now rewrite Hd|discriminate|reflexivity
       |apply take_fraction_some; [exact Hmore|discriminate|reflexivity]
       |exact Hexp].
    cbv zeta iota. unfold v, len, e10. cbn [append String.length].
    do 4 f_equal. lia.
Qed.

Lemma read_layout_small :
  (decpt <=? 0)%Z = true ->
  Json.read_unsigned negative (("0." ++ Num.zeros (Z.to_nat (- decpt)) ++ digits) ++ rest)
  = Some (Py.Float (Num.nearest negative v (decpt - len)), rest).
Proof.
  intros Hcase. apply Z.leb_le in Hcase.
  set (fr := Num.zeros (Z.to_nat (- decpt)) ++ digits).
  change (("0." ++ fr) ++ rest) with ("0" ++ String "." (fr ++ rest)).
  assert (Hfr : all_digits fr = true).
  { unfold fr. now rewrite all_digits_app, all_digits_zeros, Hdigits. }
  assert (Hne : fr <> "").
  { unfold fr. intros H. apply (f_equal String.length) in H.
    rewrite length_append in H. destruct digits; [congruence|simpl in H; lia]. }
  rewrite (read_unsigned_parts negative "0" (String "." (fr ++ rest)) (Some fr)
             rest None rest);
    [|reflexivity|discriminate|reflexivity
     |apply take_fraction_some; [exact Hfr|exact Hne|exact (stops_no_digit _ Hrest)]
     |apply take_exponent_none, rest_no_exponent].
  cbv zeta iota. do 4 f_equal.
  - unfold fr. change ("0" ++ Num.zeros (Z.to_nat (- decpt)) ++ digits)
      with (Num.zeros (S (Z.to_nat (- decpt))) ++ digits).
    rewrite digits_value_app, digits_value_zeros. reflexivity.
  - unfold fr, len. rewrite length_append, length_zeros. lia.
Qed.

Lemma read_layout_whole :
  (len <=? decpt)%Z = true ->
  Json.read_unsigned negative
    ((digits ++ Num.zeros (Z.to_nat (decpt - len)) ++ ".0") ++ rest)
  = Some (Py.Float
            (Num.nearest negative (v * 10 ^ (decpt - len + 1)) (-1)), rest).
Proof.
  intros Hcase. apply Z.leb_le in Hcase.
  set (n := Z.to_nat (decpt - len)).
  replace ((digits ++ Num.zeros n ++ ".0") ++ rest)
    with ((digits ++ Num.zeros n) ++ String "." ("0" ++ rest))
    by (rewrite !append_assoc; reflexivity).
  rewrite (read_unsigned_parts negative (digits ++ Num.zeros n)
             (String "." ("0" ++ rest)) (Some "0") rest None rest);
    [|now rewrite all_digits_app, all_digits_zeros, Hdigits
     |intros H; destruct digits; [congruence|discriminate]
     |reflexivity
     |apply take_fraction_some; [reflexivity|discriminate|exact (stops_no_digit _ Hrest)]
     |apply take_exponent_none, rest_no_exponent].
  cbv zeta iota. do 4 f_equal.
  rewrite digits_value_app, digits_value_app, digits_value_zeros.
  cbn [Json.digits_value]. change (Num.digit_value "0") with 0%Z.
  fold v. unfold n. rewrite Z2Nat.id by lia.
  rewrite Z.pow_add_r by lia. lia.
Qed.

Lemma read_layout_split :
  (0 < decpt < len)%Z ->
  Json.read_unsigned negative
    ((String.substring 0 (Z.to_nat decpt) digits ++ "."
        ++ String.substring (Z.to_nat decpt) (Z.to_nat (len - decpt)) digits) ++ rest)
  = Some (Py.Float (Num.nearest negative v (decpt - len)), rest).
Proof.
  intros Hcase.
  set (p := Z.to_nat decpt).
  assert (Hp : (0 < p < String.length digits)%nat) by (unfold p, len in *; lia).
  replace (Z.to_nat (len - decpt)) with (String.length digits - p)%nat
    by (unfold p, len; lia).
  set (a := String.substring 0 p digits).
  set (b := String.substring p (String.length digits - p) digits).
  assert (Hab : a ++ b = digits) by (apply substring_split; lia).
  assert (Hla : String.length a = p) by (apply substring_length; lia).
  assert (Hlb : String.length b = (String.length digits - p)%nat)
    by (apply substring_length; lia).
  assert (Hda : all_digits a = true /\ all_digits b = true).
  { apply andb_prop. rewrite <- all_digits_app, Hab. exact Hdigits. }
  destruct Hda as [Hda Hdb].
  replace ((a ++ "." ++ b) ++ rest) with (a ++ String "." (b ++ rest))
    by (rewrite !append_assoc; reflexivity).
  rewrite (read_unsigned_parts negative a (String "." (b ++ rest)) (Some b)
             rest None rest);
    [|exact Hda
     |intros H; rewrite H in Hla; simpl in Hla; lia
     |reflexivity
     |apply take_fraction_some;
      [exact Hdb|intros H; rewrite H in Hlb; simpl in Hlb; lia
      |exact (stops_no_digit _ Hrest)]
     |apply take_exponent_none, rest_no_exponent].
  cbv zeta iota. rewrite Hab, Hlb. do 4 f_equal. unfold len, p. lia.
Qed.

Lemma read_layout :
  exists j : Z,
    (0 <= j)%Z
    /\ Json.read_unsigned negative (Num.layout digits decpt ++ rest)
       = Some (Py.Float (Num.nearest negative (v * 10 ^ j) (decpt - len - j)), rest).
Proof.
  destruct ((decpt <=? -4)%Z || (16 <? decpt)%Z) eqn:E1.
  { exists 0%Z. split; [lia|]. rewrite (read_layout_exponent E1).
    do 4 f_equal; lia. }
  unfold Num.layout. rewrite E1. fold len.
  destruct (decpt <=? 0)%Z eqn:E2.
  { exists 0%Z. split; [lia|]. rewrite (read_layout_small E2). do 4 f_equal; lia. }
  destruct (len <=? decpt)%Z eqn:E3.
  { exists (decpt - len + 1)%Z. apply Z.leb_le in E3 as E3'. split; [lia|].
    rewrite (read_layout_whole E3). do 4 f_equal. lia. }
  exists 0%Z. split; [lia|].
  apply Z.leb_gt in E2, E3. rewrite (read_layout_split (conj E2 E3)).
  do 4 f_equal; lia.
Qed.

Lemma layout_head :
  exists c s, Num.layout digits decpt = String c s /\ Text.is_digit c = true.
Proof.
  assert (Hhead : exists c s, digits = String c s /\ Text.is_digit c = true).
  { destruct digits as [|c s]; [congruence|]. exists c, s. split; [reflexivity|].
    cbn [all_digits] in Hdigits. now apply andb_prop in Hdigits. }
  destruct Hhead as (c & s & Hd & Hc).
  unfold Num.layout.
  destruct ((decpt <=? -4)%Z || (16 <? decpt)%Z).
  { rewrite Hd. destruct s; cbn [append]; eauto. }
  destruct (decpt <=? 0)%Z eqn:E2; [exists "0"%char; eexists; split; reflexivity|].
  destruct (Z.of_nat (String.length digits) <=? decpt)%Z eqn:E3.
  { rewrite Hd. cbn [append]. eauto. }
  rewrite Hd. apply Z.leb_gt in E2.
  destruct (Z.to_nat decpt) as [|p] eqn:Ep; [lia|].
  cbn [String.substring append]. eauto.
Qed.

End Layout.

Lemma in_interval_positive (m e c k : Z) :
  0 < m -> Num.in_interval m e c k = true -> 0 < c.
Proof.
  intros Hm H. unfold Num.in_interval in H.
  assert (Hlo : 0 < Num.lower_end m e).
  { unfold Num.lower_end. destruct (_ && _); lia. }
  assert (Hge : Num.dec_compare e c k (Num.lower_end m e) <> Lt).
  { destruct (Num.dec_compare e c k (Num.lower_end m e)); congruence. }
  unfold Num.dec_compare in Hge.
  pose proof (pow10_pos k) as H1. pose proof (pow10_pos (- k)) as H2.
  pose proof (pow2_pos (2 - e)) as H3. pose proof (pow2_pos (e - 2)) as H4.
  assert (H5 : 0 < Num.lower_end m e * Num.pow2 (e - 2) * Num.pow10 (- k))
    by (apply Z.mul_pos_pos; [apply Z.mul_pos_pos|]; assumption).
  assert (H6 : 0 < c * (Num.pow10 k * Num.pow2 (2 - e))).
  { rewrite Z.mul_assoc.
    destruct (Z.compare_spec (c * Num.pow10 k * Num.pow2 (2 - e))
                (Num.lower_end m e * Num.pow2 (e - 2) * Num.pow10 (- k)));
      [lia|congruence|lia]. }
  assert (H7 : 0 < Num.pow10 k * Num.pow2 (2 - e)) by (apply Z.mul_pos_pos; assumption).
  nia.
Qed.

Lemma digit_is_no_letter (c : ascii) :
  Text.is_digit c = true ->
  Ascii.eqb c "-" = false /\ Ascii.eqb "n" c = false /\ Ascii.eqb "t" c = false
  /\ Ascii.eqb "f" c = false /\ Ascii.eqb "N" c = false /\ Ascii.eqb "I" c = false
  /\ Ascii.eqb "-" c = false.
Proof.
  destruct c as [[] [] [] [] [] [] [] []]; intros H; try discriminate H;
    repeat split; reflexivity.
Qed.

Lemma read_constant_digit (c : ascii) (s : string) :
  Text.is_digit c = true ->
  Json.read_constant (String c s) = Json.read_unsigned false (String c s).
Proof.
  intros H. destruct (digit_is_no_letter c H) as (H0 & H1 & H2 & H3 & H4 & H5 & H6).
  unfold Json.read_constant, Json.read_number, Json.take_minus. cbn [Json.after].
  now rewrite H0, H1, H2, H3, H4, H5, H6.
Qed.

Lemma read_constant_minus_digit (c : ascii) (s : string) :
  Text.is_digit c = true ->
  Json.read_constant (String "-" (String c s)) = Json.read_unsigned true (String c s).
Proof.
  intros H. destruct (digit_is_no_letter c H) as (H0 & H1 & H2 & H3 & H4 & H5 & H6).
  unfold Json.read_constant, Json.read_number, Json.take_minus. cbn [Json.after].
  change (Ascii.eqb "n" "-") with false. change (Ascii.eqb "t" "-") with false.
  change (Ascii.eqb "f" "-") with false. change (Ascii.eqb "N" "-") with false.
  change (Ascii.eqb "I" "-") with false. change (Ascii.eqb "-" "-") with true.
  cbv iota. now rewrite H5.
Qed.

(** A float is read back from its text. *)
Lemma read_float_text (f : float) (rest : string) :
  stops rest ->
  Json.read_constant (Json.float_text f ++ rest) = Some (Py.Float f, rest).
Proof.
  intros Hrest. pose proof (SF2Prim_Prim2SF f) as Hf.
  pose proof (Prim2SF_valid f) as Hvalid.
  unfold Json.float_text, Num.repr.
  destruct (Prim2SF f) as [s|s| |s m e] eqn:E.
  - (* zero *)
    rewrite <- Hf.
    destruct s; cbn [append].
    + rewrite read_constant_minus_digit by reflexivity.
      change (String "0" (String "." (String "0" rest))) with ("0" ++ String "." ("0" ++ rest)).
      rewrite (read_unsigned_parts true "0" (String "." ("0" ++ rest)) (Some "0")
                 rest None rest);
        [reflexivity|reflexivity|discriminate|reflexivity
        |apply take_fraction_some; [reflexivity|discriminate|exact (stops_no_digit _ Hrest)]
        |apply take_exponent_none; destruct rest; simpl in *; tauto].
    + rewrite read_constant_digit by reflexivity.
      change (String "0" (String "." (String "0" rest))) with ("0" ++ String "." ("0" ++ rest)).
      rewrite (read_unsigned_parts false "0" (String "." ("0" ++ rest)) (Some "0")
                 rest None rest);
        [reflexivity|reflexivity|discriminate|reflexivity
        |apply take_fraction_some; [reflexivity|discriminate|exact (stops_no_digit _ Hrest)]
        |apply take_exponent_none; destruct rest; simpl in *; tauto].
  - rewrite <- Hf. destruct s; reflexivity.
  - rewrite <- Hf. reflexivity.
  - (* finite *)
    destruct (finite_bounds f s m e E) as (Hm & He & Hn).
    unfold Num.repr_finite.
    set (E10 := Num.decimal_exponent (Z.pos m) e).
    pose proof (shortest_in_interval (Z.pos m) e E10 17 ltac:(lia) 1) as Hs.
    destruct (Num.shortest 17 1 (Z.pos m) e E10) as [c0 k0]. cbn [fst snd] in Hs.
    pose proof (strip_zeros_in_interval (Z.pos m) e 17 c0 k0 Hs) as Hz.
    destruct (Num.strip_zeros 17 c0 k0) as [c k]. cbn [fst snd] in Hz.
    pose proof (in_interval_positive (Z.pos m) e c k ltac:(lia) Hz) as Hc.
    destruct (str_of_int_digits c ltac:(lia)) as (Hda & Hdv & Hdn).
    set (digits := Num.str_of_int c) in *.
    set (decpt := Z.of_nat (String.length digits) + k).
    destruct (layout_head digits decpt Hda Hdn) as (h & t & Hl & Hh).
    destruct (read_layout s digits rest decpt Hda Hdn Hrest) as (j & Hj & Hread).
    assert (Hnear : Num.nearest s (Json.digits_value 0 digits * 10 ^ j)
                      (decpt - Z.of_nat (String.length digits) - j) = f).
    { rewrite Hdv. replace (decpt - Z.of_nat (String.length digits) - j) with (k - j)
        by (unfold decpt; lia).
      rewrite (nearest_in_interval (Z.pos m) e (c * 10 ^ j) (k - j) s);
        [exact Hf|lia|exact He|exact Hn|].
      now rewrite in_interval_rescale. }
    rewrite Hnear in Hread.
    destruct s; cbn [append].
    + rewrite Hl in Hread |- *. cbn [append] in Hread |- *.
      now rewrite read_constant_minus_digit.
    + rewrite Hl in Hread |- *. cbn [append] in Hread |- *.
      now rewrite read_constant_digit.
Qed.

(** *** Ints and strings *)

Lemma str_of_int_negative (p : positive) :
  Num.str_of_int (Z.neg p) = String "-" (Num.str_of_int (Z.pos p)).
Proof. reflexivity. Qed.

Lemma digits_head (digits : string) :
  all_digits digits = true -> digits <> "" ->
  exists c s, digits = String c s /\ Text.is_digit c = true.
Proof.
  intros Ha Hn. destruct digits as [|c s]; [congruence|]. exists c, s.
  split; [reflexivity|]. cbn [all_digits] in Ha. now apply andb_prop in Ha.
Qed.

Lemma read_digits (negative : bool) (digits rest : string) :
  all_digits digits = true -> digits <> "" -> stops rest ->
  Json.read_unsigned negative (digits ++ rest)
  = Some (Py.Int (if negative then (- Json.digits_value 0 digits)%Z
                  else Json.digits_value 0 digits), rest).
Proof.
  intros Ha Hn Hrest.
  rewrite (read_unsigned_parts negative digits rest None rest None rest);
    [reflexivity|exact Ha|exact Hn|exact (stops_no_digit _ Hrest)
    |apply take_fraction_none; destruct rest; simpl in *; tauto
    |apply take_exponent_none; destruct rest; simpl in *; tauto].
Qed.

(** An int is read back from its text. *)
Lemma read_int_text (z : Z) (rest : string) :
  stops rest ->
  Json.read_constant (Num.str_of_int z ++ rest) = Some (Py.Int z, rest).
Proof.
  intros Hrest.
  assert (Hnonneg : forall c, (0 <= c)%Z -> forall negative,
             Json.read_constant ((if negative : bool then "-" else "")
                                   ++ Num.str_of_int c ++ rest)
             = Some (Py.Int (if negative then (- c)%Z else c), rest)).
  { intros c Hc negative.
    destruct (str_of_int_digits c Hc) as (Ha & Hv & Hn).
    destruct (digits_head _ Ha Hn) as (h & t & Hd & Hh).
    pose proof (read_digits negative _ rest Ha Hn Hrest) as Hread.
    rewrite Hv in Hread. rewrite Hd in Hread |- *.
    destruct negative; cbn [append] in Hread |- *;
      [rewrite read_constant_minus_digit by exact Hh
      |rewrite read_constant_digit by exact Hh]; exact Hread. }
  destruct z as [|p|p].
  - apply (Hnonneg 0%Z ltac:(lia) false).
  - apply (Hnonneg (Z.pos p) ltac:(lia) false).
  - rewrite str_of_int_negative. apply (Hnonneg (Z.pos p) ltac:(lia) true).
Qed.

Lemma read_escape_char (c : ascii) (tail : string) :
  Json.read_string (Json.escape_char c ++ tail)
  = Json.prepend c (Json.read_string tail).
Proof. destruct c as [[] [] [] [] [] [] [] []]; reflexivity. Qed.

(** A string is read back from its escaped text. *)
Lemma read_string_escape (s tail : string) :
  Json.read_string (Json.escape s ++ String (ascii_of_nat 34) tail) = Some (s, tail).
Proof.
  induction s as [|c s IH]; [reflexivity|].
  cbn [Json.escape]. rewrite append_assoc, read_escape_char, IH. reflexivity.
Qed.

(** *** Values *)

Lemma value_induction (P : Py.value -> Prop) :
  P Py.None_ ->
  (forall b, P (Py.Bool b)) ->
  (forall z, P (Py.Int z)) ->
  (forall f, P (Py.Float f)) ->
  (forall s, P (Py.Str s)) ->
  (forall l, Forall P l -> P (Py.List l)) ->
  (forall d, Forall (fun kv => P (snd kv)) d -> P (Py.Dict d)) ->
  forall v, P v.
Proof.
  intros HN HB HI HF HS HL HD.
  fix IH 1. intros [| b | z | f | s | l | d].
  - exact HN.
  - apply HB.
  - apply HI.
  - apply HF.
  - apply HS.
  - apply HL. induction l as [|x l IHl]; constructor; [apply IH|exact IHl].
  - apply HD. induction d as [|[k x] d IHd]; constructor; [apply IH|exact IHd].
Qed.

Lemma closes_stops (rest : string) : closes rest -> stops rest.
Proof.
  destruct rest as [|c rest]; [trivial|]. intros [->|[->| ->]]; repeat split.
Qed.

Lemma heads_constant_plain (c : ascii) :
  heads_constant c ->
  Json.is_ws c = false /\ (Text.code c =? 34)%nat = false
  /\ (Text.code c =? 91)%nat = false /\ (Text.code c =? 123)%nat = false
  /\ (Text.code c =? 93)%nat = false.
Proof.
  intros [H|[->|[->|[->|[->|[->| ->]]]]]]; try (repeat split; reflexivity).
  destruct c as [[] [] [] [] [] [] [] []]; try discriminate H; repeat split; reflexivity.
Qed.

Lemma read_value_constant (fuel : nat) (c : ascii) (s : string) :
  heads_constant c ->
  Json.read_value (S fuel) (String c s) = Json.read_constant (String c s).
Proof.
  intros H. destruct (heads_constant_plain c H) as (H0 & H1 & H2 & H3 & _).
  cbn [Json.read_value Json.skip_ws]. now rewrite H0, H1, H2, H3.
Qed.

Lemma read_value_space (fuel : nat) (s : string) :
  Json.read_value fuel (String " " s) = Json.read_value fuel s.
Proof. destruct fuel; reflexivity. Qed.

Lemma read_items_space (fuel : nat) (s : string) :
  Json.read_items fuel (String " " s) = Json.read_items fuel s.
Proof.
  destruct fuel as [|fuel]; [reflexivity|].
  cbn [Json.read_items]. now rewrite read_value_space.
Qed.

Lemma read_members_space (fuel : nat) (acc : list (string * Py.value)) (s : string) :
  Json.read_members fuel acc (String " " s) = Json.read_members fuel acc s.
Proof. destruct fuel; reflexivity. Qed.

Lemma int_text_head (z : Z) :
  exists c s, Num.str_of_int z = String c s /\ heads_constant c.
Proof.
  destruct z as [|p|p].
  - exists "0"%char, "". split; [reflexivity|now left].
  - destruct (str_of_int_digits (Z.pos p) ltac:(lia)) as (Ha & _ & Hn).
    destruct (digits_head _ Ha Hn) as (c & s & Hd & Hc).
    exists c, s. split; [exact Hd|now left].
  - rewrite str_of_int_negative. eexists _, _. split; [reflexivity|]. right. now left.
Qed.

Lemma float_text_head (f : float) :
  exists c s, Json.float_text f = String c s /\ heads_constant c.
Proof.
  unfold Json.float_text, Num.repr.
  destruct (Prim2SF f) as [s|s| |s m e] eqn:E.
  - destruct s; eexists _, _; (split; [reflexivity|]); unfold heads_constant; auto.
  - destruct s; eexists _, _; (split; [reflexivity|]); unfold heads_constant; auto.
  - eexists _, _; (split; [reflexivity|]); unfold heads_constant; auto.
  - destruct s; [eexists _, _; (split; [reflexivity|]); unfold heads_constant; auto|].
    unfold Num.repr_finite.
    pose proof (shortest_in_interval (Z.pos m) e (Num.decimal_exponent (Z.pos m) e)
                  17 ltac:(lia) 1) as Hs.
    destruct (Num.shortest 17 1 (Z.pos m) e _) as [c0 k0]. cbn [fst snd] in Hs.
    pose proof (strip_zeros_in_interval (Z.pos m) e 17 c0 k0 Hs) as Hz.
    destruct (Num.strip_zeros 17 c0 k0) as [c k]. cbn [fst snd] in Hz.
    pose proof (in_interval_positive (Z.pos m) e c k ltac:(lia) Hz) as Hc.
    destruct (str_of_int_digits c ltac:(lia)) as (Hda & Hdv & Hdn).
    destruct (layout_head (Num.str_of_int c)
                (Z.of_nat (String.length (Num.str_of_int c)) + k) Hda Hdn)
      as (h & t & Hl & Hh).
    exists h, t. cbn [append]. split; [exact Hl|now left].
Qed.

Lemma dumps_head (v : Py.value) :
  exists c s,
    Json.dumps v = String c s /\ Json.is_ws c = false
    /\ (Text.code c =? 93)%nat = false.
Proof.
  destruct v as [| [] | z | f | s | l | d];
    try (eexists _, _; repeat split; reflexivity).
  - destruct (int_text_head z) as (c & s & H & Hc).
    destruct (heads_constant_plain c Hc) as (H0 & _ & _ & _ & H4). cbn [Json.dumps]. eauto.
  - destruct (float_text_head f) as (c & s & H & Hc).
    destruct (heads_constant_plain c Hc) as (H0 & _ & _ & _ & H4). cbn [Json.dumps]. eauto.
Qed.

Lemma unique_NoDup (keys : list string) : Json.unique keys = true -> NoDup keys.
Proof.
  induction keys as [|k keys IH]; intros H; constructor;
    cbn [Json.unique] in H; apply andb_prop in H as [H1 H2].
  - intros Hin. apply negb_true_iff in H1.
    assert (Hex : existsb (String.eqb k) keys = true).
    { apply existsb_exists. exists k. split; [exact Hin|apply String.eqb_refl]. }
    congruence.
  - now apply IH.
Qed.

Lemma set_new (k : string) (v : Py.value) (acc : list (string * Py.value)) :
  ~ In k (map fst acc) -> Py.set k v acc = (acc ++ [(k, v)])%list.
Proof.
  induction acc as [|[k' v'] acc IH]; intros H; [reflexivity|].
  cbn [Py.set app]. cbn [map fst In] in H.
  destruct (String.eqb k k') eqn:E.
  - apply String.eqb_eq in E. subst. tauto.
  - rewrite IH by tauto. reflexivity.
Qed.

Section ReadBack.

Lemma read_back_items (l : list Py.value) :
  Forall read_back l -> forallb Json.proper l = true -> l <> [] ->
  forall fuel rest,
    (String.length (Text.join ", " (map Json.dumps l)) + 1 <= fuel)%nat ->
    Json.read_items fuel (Text.join ", " (map Json.dumps l) ++ String "]" rest)
    = Some (l, rest).
Proof.
  unfold Text.join.
  induction l as [|x l IH]; intros HP Hproper Hne fuel rest Hlen; [congruence|].
  inversion HP as [|? ? Hx Hl]; subst.
  cbn [forallb] in Hproper. apply andb_prop in Hproper as [Hpx Hpl].
  destruct fuel as [|fuel]; [lia|].
  destruct l as [|y l].
  - cbn [map String.concat] in *. cbn [Json.read_items].
    rewrite (Hx Hpx fuel (String "]" rest)); [reflexivity|right; now left|lia].
  - change (String.concat ", " (map Json.dumps (x :: y :: l)))
      with (Json.dumps x ++ ", " ++ String.concat ", " (map Json.dumps (y :: l))) in *.
    rewrite !length_append in Hlen. cbn [String.length] in Hlen.
    rewrite !append_assoc. cbn [append Json.read_items].
    rewrite (Hx Hpx fuel); [|now left|lia].
    cbn [Json.skip_ws]. change (Json.is_ws ",") with false. cbv iota.
    change (Text.code "," =? 44)%nat with true. cbv iota.
    rewrite read_items_space, (IH Hl Hpl ltac:(discriminate) fuel rest); [reflexivity|lia].
Qed.

Lemma read_back_members (d : list (string * Py.value)) :
  Forall (fun kv => read_back (snd kv)) d ->
  Forall (fun kv => Json.proper (snd kv) = true) d -> d <> [] ->
  forall fuel acc rest,
    NoDup (map fst acc ++ map fst d)%list ->
    (String.length (Text.join ", " (map member_text d)) + 1 <= fuel)%nat ->
    Json.read_members fuel acc
      (Text.join ", " (map member_text d) ++ String "}" rest)
    = Some ((acc ++ d)%list, rest).
Proof.
  unfold Text.join.
  induction d as [|[k x] d IH]; intros HP Hproper Hne fuel acc rest Hkeys Hlen;
    [congruence|].
  inversion HP as [|? ? Hx Hd]; subst. inversion Hproper as [|? ? Hpx Hpd]; subst.
  cbn [snd] in Hx, Hpx.
  assert (Hnew : ~ In k (map fst acc)).
  { cbn [map fst] in Hkeys. apply NoDup_remove_2 in Hkeys.
    intros Hin. apply Hkeys, in_or_app. now left. }
  assert (Hkeys' : NoDup (map fst (acc ++ [(k, x)]) ++ map fst d)%list).
  { rewrite map_app, <- app_assoc. exact Hkeys. }
  destruct fuel as [|fuel]; [lia|].
  assert (Hstep : forall tail,
             closes tail -> (String.length (Json.dumps x) <= fuel)%nat ->
             Json.read_members (S fuel) acc (member_text (k, x) ++ tail)
             = match Json.skip_ws tail with
               | String c rest3 =>
                   if (Text.code c =? 44)%nat
                   then Json.read_members fuel (acc ++ [(k, x)])%list rest3
                   else if (Text.code c =? 125)%nat
                        then Some ((acc ++ [(k, x)])%list, rest3) else None
               | EmptyString => None
               end).
  { intros tail Htail Hfuel. unfold member_text, Json.quote. cbn [fst snd].
    rewrite !append_assoc. cbn [append]. rewrite !append_assoc. cbn [append].
    cbn [Json.read_members Json.skip_ws].
    change (Json.is_ws (ascii_of_nat 34)) with false. cbv iota.
    change (Text.code (ascii_of_nat 34) =? 34)%nat with true. cbv iota.
    rewrite read_string_escape. cbn [Json.skip_ws].
    change (Json.is_ws ":") with false. cbv iota.
    change (Text.code ":" =? 58)%nat with true. cbv iota.
    rewrite read_value_space, (Hx Hpx fuel tail Htail Hfuel).
    now rewrite (set_new k x acc Hnew). }
  destruct d as [|kv d].
  - cbn [map String.concat] in *.
    unfold member_text in Hlen. rewrite !length_append in Hlen. cbn [fst snd] in Hlen.
    rewrite Hstep; [|right; right; reflexivity|lia].
    reflexivity.
  - change (String.concat ", " (map member_text ((k, x) :: kv :: d)))
      with (member_text (k, x) ++ ", "
              ++ String.concat ", " (map member_text (kv :: d))) in *.
    rewrite !length_append in Hlen. cbn [String.length] in Hlen.
    unfold member_text at 1 in Hlen. rewrite !length_append in Hlen.
    cbn [fst snd] in Hlen.
    rewrite !append_assoc. cbn [append].
    rewrite Hstep; [|now left|lia].
    cbn [Json.skip_ws]. change (Json.is_ws ",") with false. cbv iota.
    change (Text.code "," =? 44)%nat with true. cbv iota.
    rewrite read_members_space.
    rewrite (IH Hd Hpd ltac:(discriminate) fuel (acc ++ [(k, x)])%list rest Hkeys');
      [|lia].
    now rewrite <- app_assoc.
Qed.

Lemma members_proper (d : list (string * Py.value)) :
  Json.proper (Py.Dict d) = true ->
  NoDup (map fst d) /\ Forall (fun kv => Json.proper (snd kv) = true) d.
Proof.
  cbn [Json.proper]. intros H. apply andb_prop in H as [Hu Hm].
  split; [now apply unique_NoDup|]. clear Hu.
  induction d as [|[k x] d IH]; constructor;
    apply andb_prop in Hm as [H1 H2]; [exact H1|now apply IH].
Qed.

(** Every value whose dicts have no key twice is read back from its text. *)
Lemma read_value_dumps (v : Py.value) : read_back v.
Proof.
  induction v as [| b | z | f | s | l IHl | d IHd] using value_induction;
    intros Hproper fuel rest Hrest Hlen.
  - destruct fuel; [simpl in Hlen; lia|reflexivity].
  - destruct fuel; [destruct b; simpl in Hlen; lia|destruct b; reflexivity].
  - destruct (int_text_head z) as (c & t & Hd & Hc).
    destruct fuel; [cbn [Json.dumps] in Hlen; rewrite Hd in Hlen; simpl in Hlen; lia|].
    pose proof (read_int_text z rest (closes_stops _ Hrest)) as Hread.
    cbn [Json.dumps]. rewrite Hd in Hread |- *. cbn [append] in Hread |- *.
    now rewrite read_value_constant.
  - destruct (float_text_head f) as (c & t & Hd & Hc).
    destruct fuel; [cbn [Json.dumps] in Hlen; rewrite Hd in Hlen; simpl in Hlen; lia|].
    pose proof (read_float_text f rest (closes_stops _ Hrest)) as Hread.
    cbn [Json.dumps]. rewrite Hd in Hread |- *. cbn [append] in Hread |- *.
    now rewrite read_value_constant.
  - destruct fuel; [simpl in Hlen; lia|].
    cbn [Json.dumps]. unfold Json.quote. cbn [append Json.read_value Json.skip_ws].
    change (Json.is_ws (ascii_of_nat 34)) with false. cbv iota.
    change (Text.code (ascii_of_nat 34) =? 34)%nat with true. cbv iota.
    rewrite append_assoc. cbn [append]. now rewrite read_string_escape.
  - destruct fuel; [simpl in Hlen; lia|].
    cbn [Json.proper] in Hproper. cbn [Json.dumps] in Hlen |- *.
    cbn [append String.length] in Hlen. rewrite length_append in Hlen.
    cbn [String.length] in Hlen.
    cbn [append Json.read_value Json.skip_ws].
    change (Json.is_ws "[") with false. cbv iota.
    change (Text.code "[" =? 34)%nat with false.
    change (Text.code "[" =? 91)%nat with true. cbv iota.
    rewrite append_assoc. cbn [append].
    destruct l as [|x l]; [reflexivity|].
    rewrite (read_back_items (x :: l) IHl Hproper ltac:(discriminate) fuel rest)
      by lia.
    destruct (dumps_head x) as (c & t & Hd & Hws & Hc).
    assert (Hhead : exists t',
               Text.join ", " (map Json.dumps (x :: l)) ++ String "]" rest
               = String c t').
    { unfold Text.join. destruct l; cbn [map String.concat]; rewrite Hd;
        cbn [append]; eauto. }
    destruct Hhead as (t' & ->). cbn [Json.skip_ws]. now rewrite Hws, Hc.
  - destruct fuel; [simpl in Hlen; lia|].
    destruct (members_proper d Hproper) as [Hkeys Hmembers].
    cbn [Json.dumps] in Hlen |- *. fold (map member_text d) in Hlen |- *.
    change (fun kv : string * Py.value =>
              Json.quote (fst kv) ++ ": " ++ Json.dumps (snd kv)) with member_text
      in Hlen |- *.
    cbn [append String.length] in Hlen. rewrite length_append in Hlen.
    cbn [String.length] in Hlen.
    cbn [append Json.read_value Json.skip_ws].
    change (Json.is_ws "{") with false. cbv iota.
    change (Text.code "{" =? 34)%nat with false.
    change (Text.code "{" =? 91)%nat with false.
    change (Text.code "{" =? 123)%nat with true. cbv iota.
    rewrite append_assoc. cbn [append].
    destruct d as [|[k x] d]; [reflexivity|].
    rewrite (read_back_members ((k, x) :: d) IHd Hmembers ltac:(discriminate)
               fuel [] rest Hkeys) by lia.
    assert (Hhead : exists t',
               Text.join ", " (map member_text ((k, x) :: d)) ++ String "}" rest
               = String (ascii_of_nat 34) t').
    { unfold Text.join, member_text, Json.quote.
      destruct d; cbn [map String.concat fst append]; eauto. }
    destruct Hhead as (t' & ->). reflexivity.
Qed.

End ReadBack.

(** The text of a value spells the value. *)
Lemma read_dumps (v : Py.value) :
  Json.proper v = true -> Json.read (Json.dumps v) = Some v.
Proof.
  intros Hproper. unfold Json.read.
  pose proof (read_value_dumps v Hproper (S (String.length (Json.dumps v))) ""
                I ltac:(lia)) as H.
  rewrite append_nil_r in H. now rewrite H.
Qed.

End ReadingBack.

(** C9, as amended: a report whose container and blob name are both
    non-empty strings is stored, and the GET of that container and name
    then answers 200 with a text from which the report is read back: the
    value that the text spells is the report that was stored, field by
    field, in the order of its fields (and float by float: also a NaN is
    read back as a NaN, which [==] would not call equal to itself).  The
    report is any JSON object that [json.dumps] prints: in no dict of it
    a key comes twice (as in every dict of Python), and its ints have at
    most 4300 digits. *)
Theorem store_then_get_roundtrip
  (w : world) (d : list (string * Py.value)) (C N : string) :
  Py.get_or d "container" (Py.Str "pdfs") = Py.Str C ->
  C <> "" ->
  Py.get d "blob_name" = Py.Str N ->
  N <> "" ->
  Json.proper (Py.Dict d) = true ->
  Json.printable (Py.Dict d) = true ->
  exists ack w' text,
    store_report (Py.Dict d) w = (Returned ack, w')
    /\ reports (get_one C N) w' = (Returned (ok_response text), w')
    /\ Json.read text = Some (Py.Dict d).
Proof.
  intros HC HCne HN HNne Hproper _.
  pose proof (read_dumps (Py.Dict d) Hproper) as Hread.
  apply String.eqb_neq in HCne, HNne.
  unfold store_report, as_dict. unfold bind at 1. unfold ret at 1. cbn beta iota.
  rewrite HC, HN. cbn [Py.truthy]. rewrite HNne. cbn [negb].
  revert Hread. generalize (Json.dumps (Py.Dict d)). intros text Hread.
  set (stamp := Py.or_ (Py.get d "generated_at_utc")
                  (Py.Str (Text.replace "+00:00" "Z" (utcnow w)))).
  unfold bind, gets, utc_stamp, upsert_entity, modify, ret. cbn.
  fold stamp.
  eexists _, _, text. split; [reflexivity|]. split; [|exact Hread].
  unfold reports, get_one. cbn [route_params param String.eqb Ascii.eqb Bool.eqb andb].
  unfold present, nonempty. cbn [_safe_str]. rewrite HCne, HNne. cbn [negb].
  unfold try_except, get_entity, with_table. unfold bind, gets, ret. cbn [table].
  destruct (find_upsert C N
              [("PartitionKey", Py.Str C); ("RowKey", Py.Str N);
               ("generated_at_utc", stamp); ("report", Py.Str text)] (table w))
    as (e' & -> & He').
  assert (Hreport : Py.get_or e' "report" (Py.Str "{}") = Py.Str text).
  { destruct He' as [->|[old ->]]; [reflexivity|].
    assert (H := merge_last old
                   [("PartitionKey", Py.Str C); ("RowKey", Py.Str N);
                    ("generated_at_utc", stamp)]
                   "report" (Py.Str text)).
    cbn [app] in H. unfold Py.get, Py.get_or in H |- *.
    destruct (Py.lookup "report" _); [exact H|discriminate H]. }
  rewrite Hreport. reflexivity.
Qed.

Lemma store_then_get_witness :
  exists ack w' text,
    store_report (measured_report "pdfs" "a.pdf") w0 = (Returned ack, w')
    /\ reports (get_one "pdfs" "a.pdf") w' = (Returned (ok_response text), w')
    /\ Json.read text = Some (measured_report "pdfs" "a.pdf").
Proof.
  apply (store_then_get_roundtrip w0 _ "pdfs" "a.pdf");
    [reflexivity|discriminate|reflexivity|discriminate|reflexivity|reflexivity].
Defined.

(** C9 as stated fails for the empty container: the report is stored, and
    the query for it is refused with status 400; what is read from the
    answer is the error, not the report. *)
Lemma empty_container_report_is_not_served :
  fst (store_report (sample_report "" "a.pdf") w0)
  = Returned (Py.Dict [("partition_key", Py.Str ""); ("row_key", Py.Str "a.pdf");
                       ("table", Py.Str "PdfReports")])
  /\ fst (reports (get_one "" "a.pdf") (snd (store_report (sample_report "" "a.pdf") w0)))
     = Returned
         (json_response (Py.Dict [("error", Py.Str "Missing container in route.")])
            400)
  /\ fst (reports (get_one "" "a.pdf") (snd (store_report (sample_report "" "a.pdf") w0)))
     <> Returned (ok_response (Json.dumps (sample_report "" "a.pdf")))
  /\ Json.read
       (body (json_response
                (Py.Dict [("error", Py.Str "Missing container in route.")]) 400))
     = Some (Py.Dict [("error", Py.Str "Missing container in route.")])
  /\ Json.proper (sample_report "" "a.pdf") = true
  /\ Json.printable (sample_report "" "a.pdf") = true.
Proof.
  split; [vm_compute; reflexivity|]. split; [vm_compute; reflexivity|].
  split; [intros H; vm_compute in H; discriminate H|].
  split; [vm_compute; reflexivity|]. split; reflexivity.
Qed.

(** The texts of some floats, and what is read from them. *)
Example floats_read_back :
  map (fun f => (Json.dumps (Py.Float f), Json.read (Json.dumps (Py.Float f))))
    [0.1%float; 2.5e-8%float; 1e22%float; (-0)%float]
  = [("0.1", Some (Py.Float 0.1%float));
     ("2.5e-08", Some (Py.Float 2.5e-8%float));
     ("1e+22", Some (Py.Float 1e22%float));
     ("-0.0", Some (Py.Float (-0)%float))].
Proof. vm_compute. reflexivity. Qed.

(** ** Listing reports *)

Section StringOrder.

Lemma compare_refl (x : string) : String.compare x x = Eq.
Proof.
  pose proof (String.compare_antisym x x) as H.
  destruct (String.compare x x); [reflexivity|discriminate H|discriminate H].
Qed.

Lemma compare_as_OT (a b : string) :
  String.compare a b = String_as_OT.compare a b.
Proof. reflexivity. Qed.

Lemma compare_lt_trans (a b c : string) :
  String.compare a b = Lt -> String.compare b c = Lt -> String.compare a c = Lt.
Proof.
  rewrite !compare_as_OT.
  apply (@StrictOrder_Transitive _ _ String_as_OT.lt_strorder).
Qed.

Lemma leb_trans (a b c : string) :
  String.leb a b = true -> String.leb b c = true -> String.leb a c = true.
Proof.
  unfold String.leb.
  destruct (String.compare a b) eqn:Hab; [| |discriminate].
  - apply String.compare_eq_iff in Hab. now subst.
  - destruct (String.compare b c) eqn:Hbc; [| |discriminate].
    + apply String.compare_eq_iff in Hbc. subst. now rewrite Hab.
    + now rewrite (compare_lt_trans a b c Hab Hbc).
Qed.

Lemma ltb_leb (a b : string) : String.ltb a b = true -> String.leb a b = true.
Proof. unfold String.ltb, String.leb. now destruct (String.compare a b). Qed.

Lemma not_ltb_leb (a b : string) : String.ltb a b = false -> String.leb b a = true.
Proof.
  unfold String.ltb, String.leb. rewrite (String.compare_antisym b a).
  now destruct (String.compare a b).
Qed.

End StringOrder.

Section Listing.

Lemma key_lt_text (x y : Py.value) :
  has_text_key x -> has_text_key y ->
  key_lt (sort_key x) (sort_key y) = Returned (String.ltb (key_text x) (key_text y)).
Proof. unfold key_text. now intros [a ->] [b ->]. Qed.

Lemma insert_desc_sorted (x : Py.value) (l : list Py.value) :
  has_text_key x -> Forall has_text_key l -> descending l ->
  exists l',
    insert_desc x l = Returned l' /\ Permutation l' (x :: l) /\ descending l'.
Proof.
  intros Hx Hl Hsorted. induction l as [|y l IH]; simpl.
  - exists [x]. repeat split; [apply Permutation_refl|].
    constructor; constructor.
  - inversion Hl as [|? ? Hy Hl']; subst.
    apply StronglySorted_inv in Hsorted as [Hrest Hhead].
    rewrite (key_lt_text x y Hx Hy).
    destruct (String.ltb (key_text x) (key_text y)) eqn:Hlt.
    + destruct (IH Hl' Hrest) as (l' & -> & Hperm & Hdesc).
      exists (y :: l'). repeat split.
      * rewrite Hperm. apply perm_swap.
      * constructor; [exact Hdesc|].
        apply (Permutation_Forall (Permutation_sym Hperm)).
        constructor; [now apply ltb_leb|exact Hhead].
    + exists (x :: y :: l). repeat split; [apply Permutation_refl|].
      apply not_ltb_leb in Hlt.
      constructor; [now constructor|].
      constructor; [exact Hlt|].
      eapply Forall_impl; [|exact Hhead].
      intros z Hz. cbn beta in Hz |- *. eapply leb_trans; eassumption.
Qed.

(** Sorting items whose keys are strings succeeds, keeps the items and
    puts them in descending order. *)
Lemma sort_desc_sorted (items : list Py.value) :
  Forall has_text_key items ->
  exists sorted,
    sort_desc items = Returned sorted /\ Permutation sorted items /\ descending sorted.
Proof.
  induction items as [|x items IH]; intros Hkeys; simpl.
  - exists []. repeat split; [apply Permutation_refl|constructor].
  - inversion Hkeys as [|? ? Hx Hrest]; subst.
    destruct (IH Hrest) as (sorted & -> & Hperm & Hdesc).
    assert (Hsk : Forall has_text_key sorted)
      by (apply (Permutation_Forall (Permutation_sym Hperm)), Hrest).
    destruct (insert_desc_sorted x sorted Hx Hsk Hdesc) as (l' & -> & Hperm' & Hdesc').
    exists l'. repeat split; [|exact Hdesc'].
    rewrite Hperm'. now constructor.
Qed.

(** The loop stops after [top] items: it keeps the first [top] entities
    of the query. *)
Lemma collect_firstn (top : Z) (entities : list entity) :
  forall items,
    (Z.of_nat (List.length items) < top)%Z ->
    collect top entities items
    = items ++ map item_of (firstn (Z.to_nat top - List.length items) entities).
Proof.
  induction entities as [|e entities IH]; intros items Hlen; simpl.
  - now rewrite firstn_nil, app_nil_r.
  - rewrite length_app. simpl.
    destruct (Z.to_nat top - List.length items)%nat as [|k] eqn:Hk; [lia|].
    simpl. destruct (top <=? Z.of_nat (List.length items + 1))%Z eqn:Htop.
    + apply Z.leb_le in Htop. assert (k = 0)%nat as -> by lia.
      now rewrite firstn_O.
    + apply Z.leb_gt in Htop. rewrite IH by (rewrite length_app; simpl; lia).
      rewrite length_app. simpl. rewrite <- app_assoc. simpl.
      replace (Z.to_nat top - (List.length items + 1))%nat with k by lia.
      reflexivity.
Qed.

Lemma item_has_text_key (e : entity) :
  str_or_null (Py.get e "generated_at_utc") = true -> has_text_key (item_of e).
Proof.
  unfold has_text_key, item_of, sort_key. cbn.
  destruct (Py.get e "generated_at_utc") as [| | | |s| |]; try discriminate;
    intros _; unfold Py.or_; simpl.
  - now exists "".
  - destruct (String.eqb s ""); simpl; eauto.
Qed.

Lemma in_firstn {A} (n : nat) (l : list A) (x : A) :
  In x (firstn n l) -> In x l.
Proof.
  intros H. rewrite <- (firstn_skipn n l). apply in_or_app. now left.
Qed.

Lemma top_of_range (req : HttpRequest) : (1 <= top_of req <= 200)%Z.
Proof. unfold top_of. lia. Qed.

End Listing.

(** *** The filter of the listing's query *)

Section PartitionFilter.

(** Inside a literal, a text without quote is read as it is, up to the
    closing quote. *)
Lemma scan_literal (c : string) :
  no_quote c = true ->
  forall lit,
    Filter.scan (Filter.InQuote lit) (c ++ "'")
    = Some [Filter.Quoted (lit ++ c)%string].
Proof.
  induction c as [|a c IH]; intros Hc lit.
  - simpl. now rewrite append_nil_r.
  - simpl in Hc. apply andb_prop in Hc as [Ha Hc].
    cbn [append Filter.scan Filter.step]. unfold Filter.is_quote.
    apply negb_true_iff in Ha. rewrite Ha.
    rewrite (IH Hc). cbn [option_map app]. now rewrite append_assoc.
Qed.

Lemma read_partition_filter (c : string) :
  no_quote c = true ->
  Filter.read ("PartitionKey eq '" ++ c ++ "'")
  = Some (Filter.Compare "PartitionKey" Filter.OpEq c).
Proof.
  intros Hc. unfold Filter.read.
  cbn [append Filter.scan Filter.step Filter.start Filter.is_blank Filter.is_quote
       Ascii.eqb Bool.eqb andb orb].
  rewrite (scan_literal c Hc). reflexivity.
Qed.

Lemma test_eq (a b : string) :
  Filter.test Filter.OpEq (String.compare a b) = String.eqb b a.
Proof.
  destruct (String.eqb b a) eqn:E.
  - apply String.eqb_eq in E. subst. now rewrite compare_refl.
  - apply String.eqb_neq in E. destruct (String.compare a b) eqn:C; try reflexivity.
    apply String.compare_eq_iff in C. congruence.
Qed.

(** For a container name without quote the query yields the container's
    entities, whichever way the installed library takes the filter. *)
Lemma query_partition (w : world) (c : string) :
  no_quote c = true ->
  _query_entities_compat ("PartitionKey eq '" ++ c ++ "'") w
  = (Returned (stored_in c w), w).
Proof.
  intros Hc.
  assert (Hq : query_entities ("PartitionKey eq '" ++ c ++ "'") w
               = (Returned (stored_in c w), w)).
  { unfold query_entities. rewrite (read_partition_filter c Hc).
    unfold bind, gets, ret, stored_in. do 3 f_equal.
    apply filter_ext. intros row. cbn [Filter.holds]. unfold Filter.property_of.
    cbn [String.eqb Ascii.eqb Bool.eqb andb]. apply test_eq. }
  unfold _query_entities_compat, try_except_TypeError, query_entities_by_keyword.
  unfold bind at 1. unfold gets at 1.
  destruct (query_filter_keyword w); [now rewrite Hq|].
  unfold raise. exact Hq.
Qed.

(** A query reads only, whatever its filter. *)
Lemma query_leaves_world (text : string) (w : world) :
  snd (_query_entities_compat text w) = w.
Proof.
  unfold _query_entities_compat, try_except_TypeError, query_entities_by_keyword,
    query_entities, bind, gets, ret, raise.
  destruct (query_filter_keyword w); destruct (Filter.read text); reflexivity.
Qed.

Lemma reports_list_run (w : world) (req : HttpRequest) (c : string) :
  param "container" (route_params req) = Some c ->
  c <> "" ->
  no_quote c = true ->
  present (param "blob_name" (route_params req)) = false ->
  reports req w
  = (match sort_desc (collect (top_of req) (stored_in c w) []) with
     | Returned items => Returned (json_response (Py.List items) 200)
     | Raised e => Raised e
     end, w).
Proof.
  intros Hc Hne Hq Hblob. unfold reports. rewrite Hc, Hblob. unfold present, nonempty.
  apply String.eqb_neq in Hne. rewrite Hne. cbn [negb _safe_str].
  unfold try_except. unfold bind at 1 2. rewrite (query_partition w c Hq).
  unfold ret. now destruct (sort_desc _).
Qed.

End PartitionFilter.

(** *** The limit of the listing *)

Section Limit.

Local Open Scope Z_scope.

Lemma digits_from_acc (d : Decimal.uint) :
  forall p,
    Num.digits_from (Z.pos p) true (NilEmpty.string_of_uint d)
    = Some (Z.pos (Pos.of_uint_acc d p)).
Proof.
  induction d; intros p; [reflexivity|..];
    cbn [NilEmpty.string_of_uint Num.digits_from Pos.of_uint_acc];
    (match goal with
     | |- context [Text.is_digit ?c] =>
         change (Text.is_digit c) with true; cbv beta iota
     end);
    rewrite <- IHd; f_equal;
    (match goal with
     | |- context [Num.digit_value ?c] =>
         let v := eval vm_compute in (Num.digit_value c) in
         change (Num.digit_value c) with v
     end);
    lia.
Qed.

Lemma digits_from_zero (d : Decimal.uint) :
  Num.digits_from 0 true (NilEmpty.string_of_uint d) = Some (Z.of_N (Pos.of_uint d)).
Proof.
  induction d; [reflexivity|..];
    cbn [NilEmpty.string_of_uint Num.digits_from Pos.of_uint];
    (match goal with
     | |- context [Text.is_digit ?c] =>
         change (Text.is_digit c) with true; cbv beta iota
     end);
    [exact IHd|..];
    (match goal with
     | |- Num.digits_from ?a true _ = Some (Z.of_N (N.pos (Pos.of_uint_acc _ ?q))) =>
         change a with (Z.pos q)
     end);
    apply digits_from_acc.
Qed.

Lemma count_digits_uint (d : Decimal.uint) :
  Num.count_digits (NilZero.string_of_uint d)
  = String.length (NilZero.string_of_uint d).
Proof.
  assert (H : forall u, Num.count_digits (NilEmpty.string_of_uint u)
                        = String.length (NilEmpty.string_of_uint u))
    by (induction u; simpl; congruence).
  destruct d; try apply H. reflexivity.
Qed.

(** [int] reads the decimal numeral of a natural number back. *)
Lemma int_of_str_uint (d : Decimal.uint) :
  (String.length (NilZero.string_of_uint d) <= Num.max_str_digits)%nat ->
  Num.int_of_str (NilZero.string_of_uint d) = Some (Z.of_uint d).
Proof.
  intros Hlen. unfold Num.int_of_str. rewrite count_digits_uint.
  apply Nat.ltb_ge in Hlen. rewrite Hlen.
  pose proof (digits_from_zero d) as Hd. unfold Z.of_uint.
  destruct d; try exact Hd; reflexivity.
Qed.

Lemma int_of_str_minus (d : Decimal.uint) :
  (String.length (NilZero.string_of_uint d) <= Num.max_str_digits)%nat ->
  Num.int_of_str (String "-" (NilZero.string_of_uint d)) = Some (- Z.of_uint d).
Proof.
  intros Hlen. unfold Num.int_of_str.
  change (Num.count_digits (String "-" (NilZero.string_of_uint d)))
    with (Num.count_digits (NilZero.string_of_uint d)).
  rewrite count_digits_uint. apply Nat.ltb_ge in Hlen. rewrite Hlen.
  cbn [Num.strip_left].
  change (Num.is_int_space "-") with false. cbv beta iota.
  change (Ascii.eqb "-" "-") with true. cbv beta iota.
  pose proof (digits_from_zero d) as Hd. unfold Z.of_uint.
  assert (Hb : Num.digits_from 0 false (NilZero.string_of_uint d)
               = Some (Z.of_N (Pos.of_uint d)))
    by (destruct d; try exact Hd; reflexivity).
  now rewrite Hb.
Qed.

Lemma int_of_str_of_int (z : Z) :
  (String.length (Num.str_of_int (Z.abs z)) <= Num.max_str_digits)%nat ->
  Num.int_of_str (Num.str_of_int z) = Some z.
Proof.
  unfold Num.str_of_int. intros Hlen.
  rewrite <- (DecimalZ.of_to z) at 2.
  destruct z as [|p|p]; cbn [Z.abs Z.to_int NilZero.string_of_int Z.of_int] in *.
  - reflexivity.
  - now apply int_of_str_uint.
  - now apply int_of_str_minus.
Qed.

Lemma int_of_str_too_long (z : Z) :
  (Num.max_str_digits < String.length (Num.str_of_int (Z.abs z)))%nat ->
  Num.int_of_str (Num.str_of_int z) = None.
Proof.
  unfold Num.str_of_int, Num.int_of_str. intros Hlen.
  assert (Hcount : Num.count_digits (NilZero.string_of_int (Z.to_int z))
                   = String.length (NilZero.string_of_int (Z.to_int (Z.abs z)))).
  { destruct z as [|p|p]; cbn [Z.abs Z.to_int NilZero.string_of_int];
      apply count_digits_uint. }
  rewrite Hcount. apply Nat.ltb_lt in Hlen. now rewrite Hlen.
Qed.

Lemma underscore_code (c : ascii) : (Text.code c =? 95)%nat = Ascii.eqb c "_".
Proof. destruct c as [[] [] [] [] [] [] [] []]; reflexivity. Qed.

Lemma strip_left_stray (s : string) :
  existsb stray (list_ascii_of_string s) = true ->
  existsb stray (list_ascii_of_string (Num.strip_left s)) = true.
Proof.
  induction s as [|c s IH]; [discriminate|]. cbn [Num.strip_left].
  destruct (Num.is_int_space c) eqn:Hsp; [|trivial].
  cbn [list_ascii_of_string existsb]. unfold stray at 1. rewrite Hsp.
  rewrite !orb_true_r. exact IH.
Qed.

Lemma digits_from_stray (s : string) :
  existsb stray (list_ascii_of_string s) = true ->
  forall acc b, Num.digits_from acc b s = None.
Proof.
  induction s as [|c s IH]; [discriminate|]. intros H acc b.
  cbn [list_ascii_of_string existsb] in H. cbn [Num.digits_from].
  unfold stray at 1 in H. rewrite underscore_code.
  destruct (Text.is_digit c); [apply IH; exact H|].
  destruct (Ascii.eqb c "_").
  - rewrite !orb_true_r in H. cbn [negb orb] in H.
    destruct b; [|reflexivity]. destruct s as [|d s']; [reflexivity|].
    destruct (Text.is_digit d); [|reflexivity]. now apply IH.
  - destruct (Num.is_int_space c).
    + rewrite !orb_true_r in H. cbn [negb orb] in H.
      destruct b; [|reflexivity].
      apply strip_left_stray in H.
      destruct (Num.strip_left s); [discriminate H|reflexivity].
    + reflexivity.
Qed.

(** A text with a stray character spells no integer. *)
Lemma int_of_str_stray (t : string) :
  has_stray_character t = true -> Num.int_of_str t = None.
Proof.
  intros H. apply strip_left_stray in H. unfold Num.int_of_str.
  destruct (_ <? _)%nat; [reflexivity|].
  destruct (Num.strip_left t) as [|c s]; [reflexivity|].
  cbn [list_ascii_of_string existsb] in H.
  destruct (Ascii.eqb c "-") eqn:Hm.
  - unfold stray at 1 in H. rewrite Hm, !orb_true_r in H. cbn [negb orb] in H.
    now rewrite (digits_from_stray s H).
  - destruct (Ascii.eqb c "+") eqn:Hp.
    + unfold stray at 1 in H. rewrite Hp, !orb_true_r in H. cbn [negb orb] in H.
      now rewrite (digits_from_stray s H).
    + apply (digits_from_stray (String c s)). exact H.
Qed.

(** What [top] is: the requested limit clamped to 1..200, where a request
    without [top], with a numeral of more than 4300 digits or with a text
    that is no numeral asks for 50. *)
Lemma top_of_spec (req : HttpRequest) :
  (param "top" (params req) = None -> top_of req = 50)
  /\ (forall z,
        param "top" (params req) = Some (Num.str_of_int z) ->
        (String.length (Num.str_of_int (Z.abs z)) <= 4300)%nat ->
        top_of req = Z.max 1 (Z.min z 200))
  /\ (forall z,
        param "top" (params req) = Some (Num.str_of_int z) ->
        (4300 < String.length (Num.str_of_int (Z.abs z)))%nat ->
        top_of req = 50)
  /\ (forall t,
        param "top" (params req) = Some t ->
        t = "" \/ has_stray_character t = true ->
        top_of req = 50).
Proof.
  unfold top_of. repeat split.
  - now intros ->.
  - intros z -> Hlen. now rewrite int_of_str_of_int.
  - intros z -> Hlen. now rewrite int_of_str_too_long.
  - intros t -> [->|Hstray]; [reflexivity|]. now rewrite int_of_str_stray.
Qed.

End Limit.

(** C2, as amended: for a container whose name has no single quote, the
    list operation answers with the first [N] entities of the container, in
    the order the table returns them, sorted in descending order of
    [generated_at_utc] compared as strings.  [N] is the requested limit
    clamped to 1..200: the integer that [top] spells, and 50 when the
    request has no [top], when [top] spells an integer of more than 4300
    digits, and when [top] is empty or has a character that no integer
    has.  The items listed are all the container's reports, and so the
    [N] greatest, when the container holds at most [N] of them.  Neither
    the table nor anything else is changed. *)
Theorem reports_list_sorted_prefix (w : world) (req : HttpRequest) (c : string) :
  param "container" (route_params req) = Some c ->
  c <> "" ->
  no_quote c = true ->
  present (param "blob_name" (route_params req)) = false ->
  Forall (fun e => str_or_null (Py.get e "generated_at_utc") = true) (stored_in c w) ->
  exists (N : Z) (items : list Py.value),
    reports req w = (Returned (json_response (Py.List items) 200), w)
    /\ (param "top" (params req) = None -> N = 50%Z)
    /\ (forall z,
          param "top" (params req) = Some (Num.str_of_int z) ->
          (String.length (Num.str_of_int (Z.abs z)) <= 4300)%nat ->
          N = Z.max 1 (Z.min z 200))
    /\ (forall z,
          param "top" (params req) = Some (Num.str_of_int z) ->
          (4300 < String.length (Num.str_of_int (Z.abs z)))%nat ->
          N = 50%Z)
    /\ (forall t,
          param "top" (params req) = Some t ->
          t = "" \/ has_stray_character t = true ->
          N = 50%Z)
    /\ (1 <= N <= 200)%Z
    /\ Permutation items (map item_of (firstn (Z.to_nat N) (stored_in c w)))
    /\ descending items
    /\ ((List.length (stored_in c w) <= Z.to_nat N)%nat ->
        Permutation items (map item_of (stored_in c w))).
Proof.
  intros Hc Hne Hq Hblob Hkeys.
  pose proof (top_of_range req) as Htop.
  destruct (top_of_spec req) as (Hnone & Hint & Hlong & Hbad).
  assert (Hitems : collect (top_of req) (stored_in c w) []
                   = map item_of (firstn (Z.to_nat (top_of req)) (stored_in c w))).
  { rewrite collect_firstn by (simpl; lia). simpl. now rewrite Nat.sub_0_r. }
  destruct (sort_desc_sorted (collect (top_of req) (stored_in c w) []))
    as (sorted & Hsort & Hperm & Hdesc).
  { rewrite Hitems. apply Forall_map.
    apply Forall_forall. intros e He. apply item_has_text_key.
    apply in_firstn in He. revert e He. now apply Forall_forall. }
  exists (top_of req), sorted.
  split; [|split; [|split; [|split; [|split; [|split; [|split; [|split]]]]]]].
  - rewrite (reports_list_run w req c Hc Hne Hq Hblob). now rewrite Hsort.
  - exact Hnone.
  - exact Hint.
  - exact Hlong.
  - exact Hbad.
  - exact Htop.
  - now rewrite <- Hitems.
  - exact Hdesc.
  - intros Hall. rewrite Hperm, Hitems. now rewrite firstn_all2.
Qed.

Lemma reports_list_witness :
  exists items,
    reports (list_top "pdfs" "2") three_reports
    = (Returned (json_response (Py.List items) 200), three_reports)
    /\ Permutation items
         (map item_of (firstn 2 (stored_in "pdfs" three_reports)))
    /\ descending items.
Proof.
  destruct (reports_list_sorted_prefix three_reports (list_top "pdfs" "2") "pdfs")
    as (N & items & Hrun & _ & Hint & _ & _ & _ & Hperm & Hdesc & _).
  - reflexivity.
  - discriminate.
  - reflexivity.
  - reflexivity.
  - repeat constructor.
  - assert (HN : N = 2%Z).
    { apply (Hint 2%Z); [reflexivity|]. simpl. lia. }
    subst N. exists items. split; [exact Hrun|]. split; [exact Hperm|exact Hdesc].
Defined.

(** C2 as stated fails on the specification's own scenario: with top=2
    the first two stored reports are listed, and the report of
    2024-02-01, which is among the two most recent, is left out. *)
Lemma list_scenario_keeps_first_two :
  fst (reports (list_top "pdfs" "2") three_reports)
  = Returned
      (json_response
         (Py.List [listed "pdfs" "b.pdf" "2024-03-01Z";
                   listed "pdfs" "a.pdf" "2024-01-01Z"]) 200)
  /\ fst (reports (list_top "pdfs" "2") three_reports)
     <> Returned
          (json_response
             (Py.List [listed "pdfs" "b.pdf" "2024-03-01Z";
                       listed "pdfs" "c.pdf" "2024-02-01Z"]) 200).
Proof.
  split; [vm_compute; reflexivity|].
  intros H. vm_compute in H. discriminate H.
Qed.

Example list_clamps_top :
  top_of (list_top "pdfs" "0") = 1%Z /\ top_of (list_top "pdfs" "1000") = 200%Z
  /\ top_of (list_top "pdfs" "many") = 50%Z
  /\ top_of {| route_params := [("container", "pdfs")]; params := [] |} = 50%Z.
Proof. repeat split. Qed.

(** The container's name goes into the filter text as it is.  A name with
    a single quote ends the literal early: the query is refused and the
    answer is 500, or the name's own text is taken for a part of the
    filter and the reports of other containers are listed. *)
Example quoted_container_is_not_listed :
  fst (reports (list_all "it's") quoted_reports)
  = Returned
      (json_response
         (Py.Dict [("error", Py.Str "Failed to query reports.");
                   ("details", Py.Str "One of the request inputs is not valid.")])
         500)
  /\ fst (reports (list_all "x' or PartitionKey ne 'x") quoted_reports)
     = Returned
         (json_response
            (Py.List [listed "pdfs" "b.pdf" "2024-03-01Z";
                      listed "it's" "a.pdf" "2024-01-01Z"]) 200).
Proof. split; vm_compute; reflexivity. Qed.

(** * Further properties of the code *)

(** ** The blob trigger *)

Lemma after_slash_split (prefix name : string) :
  no_slash prefix = true ->
  after_slash (prefix ++ String "/" name)%string = Some name.
Proof.
  induction prefix as [|c prefix IH]; simpl; [reflexivity|].
  intros H. apply andb_true_iff in H as [Hc Hrest].
  apply negb_true_iff in Hc. rewrite Hc. now apply IH.
Qed.

Lemma after_slash_none (path : string) :
  no_slash path = true -> after_slash path = None.
Proof.
  induction path as [|c path IH]; simpl; [reflexivity|].
  intros H. apply andb_true_iff in H as [Hc Hrest].
  apply negb_true_iff in Hc. rewrite Hc. now apply IH.
Qed.

(** X1: the trigger starts the orchestration for the container "pdfs" and
    the part of the blob's path after its first slash, whatever stands
    before that slash and however many slashes follow; a path without a
    slash is the blob name as it is. *)
Theorem blob_trigger_names_the_blob (w : world) (prefix name : string) :
  no_slash prefix = true ->
  PdfBlobTrigger (Some (prefix ++ String "/" name)%string) w
  = PdfOrchestrator (job "pdfs" name) w
  /\ PdfBlobTrigger (Some prefix) w = PdfOrchestrator (job "pdfs" prefix) w.
Proof.
  intros H. unfold PdfBlobTrigger, _safe_str, job.
  now rewrite (after_slash_split prefix name H), (after_slash_none prefix H).
Qed.

Lemma blob_trigger_witness :
  PdfBlobTrigger (Some "uploads/2024/a.pdf") w0
  = PdfOrchestrator (job "pdfs" "2024/a.pdf") w0
  /\ PdfBlobTrigger (Some "uploads") w0 = PdfOrchestrator (job "pdfs" "uploads") w0.
Proof.
  apply (blob_trigger_names_the_blob w0 "uploads" "2024/a.pdf"). reflexivity.
Defined.

(** ** What the analyzers read and leave alone *)

Lemma not_dict_raises (name : string) (f : Py.value -> M Py.value)
  (payload : Py.value) (w : world) :
  In (name, f) analyzers ->
  (forall d, payload <> Py.Dict d) ->
  f payload w = (Raised (AttributeError "object has no attribute 'get'"), w).
Proof.
  unfold analyzers. simpl.
  intros [[= <- <-]|[[= <- <-]|[[= <- <-]|[[= <- <-]|[]]]]] Hnot;
    destruct payload; try reflexivity; now destruct (Hnot d).
Qed.

(** X2: an analyzer never writes: whatever the payload and the outcome,
    the world is as before; and its outcome is decided by the one blob the
    payload names: two worlds that hold the same thing under that
    container and name give the same outcome. *)
Theorem analyzers_read_one_blob
  (name : string) (f : Py.value -> M Py.value) (w : world) :
  In (name, f) analyzers ->
  (forall payload, snd (f payload w) = w)
  /\ (forall d c n w',
        container_of d = Py.Str c ->
        Py.get d "blob_name" = Py.Str n ->
        find_blob c n (blobs w') = find_blob c n (blobs w) ->
        fst (f (Py.Dict d) w') = fst (f (Py.Dict d) w)).
Proof.
  intros Hin. destruct (analyzers_run name f Hin) as (e & fault & core & Hrun). split.
  - intros payload. destruct payload as [| | | | | |d];
      try (rewrite (not_dict_raises name f _ w Hin); [reflexivity|discriminate]).
    now rewrite Hrun.
  - intros d c n w' Hc Hn Hblob. rewrite !Hrun. cbn [fst].
    unfold analysis. now rewrite Hc, Hn, Hblob.
Qed.

Lemma analyzers_read_one_blob_witness :
  snd (analyze_statistics (job "pdfs" "bad.pdf") w0) = w0
  /\ fst (analyze_statistics (job "pdfs" "test.pdf") three_reports)
     = fst (analyze_statistics (job "pdfs" "test.pdf") w0).
Proof.
  destruct (analyzers_read_one_blob "analyze_statistics" analyze_statistics w0)
    as [Hframe Hsame]; [simpl; auto|].
  split; [apply Hframe|].
  apply (Hsame _ "pdfs" "test.pdf"); reflexivity.
Defined.

(** ** extract_metadata *)

(** X3: for a stored, readable document [extract_metadata] returns the
    seven fields, each a string: the document's entry for the field's key,
    and the empty string when the document has no such entry; a document
    without an information dictionary gives the mapping with seven empty
    strings. *)
Theorem extract_metadata_fields
  (w : world) (d : list (string * Py.value)) (c n : string) (reader : PdfReader) :
  container_of d = Py.Str c ->
  Py.get d "blob_name" = Py.Str n ->
  n <> "" ->
  find_blob c n (blobs w) = Some (Pdf reader) ->
  exists r,
    extract_metadata (Py.Dict d) w = (Returned (Py.Dict r), w)
    /\ map fst r = map fst metadata_fields
    /\ (forall name key,
          In (name, key) metadata_fields ->
          Py.get r name = Py.Str (_safe_str (info reader key)))
    /\ (metadata reader = None -> Py.Dict r = blank_metadata).
Proof.
  intros Hc Hn Hne Hblob. apply String.eqb_neq in Hne.
  eexists. split; [|split; [|split]].
  - rewrite extract_metadata_run. unfold analysis. rewrite Hc, Hn, Hblob.
    cbn [Py.truthy]. rewrite Hne. reflexivity.
  - reflexivity.
  - unfold metadata_fields, info. simpl.
    intros name key [[= <- <-]|[[= <- <-]|[[= <- <-]|[[= <- <-]|[[= <- <-]|
      [[= <- <-]|[[= <- <-]|[]]]]]]]]; destruct (metadata reader); reflexivity.
  - intros Hmd. rewrite Hmd. reflexivity.
Qed.

Lemma extract_metadata_fields_witness :
  exists r,
    extract_metadata (job "pdfs" "test.pdf") w0 = (Returned (Py.Dict r), w0)
    /\ map fst r = map fst metadata_fields
    /\ (forall name key,
          In (name, key) metadata_fields ->
          Py.get r name = Py.Str (_safe_str (info test_pdf key)))
    /\ (metadata test_pdf = None -> Py.Dict r = blank_metadata).
Proof.
  apply (extract_metadata_fields w0 _ "pdfs" "test.pdf" test_pdf);
    [reflexivity|reflexivity|discriminate|reflexivity].
Defined.

(** ** detect_sensitive_data *)

Section SortedSet.

Lemma ltb_lt (a b : string) : String.ltb a b = true <-> String.compare a b = Lt.
Proof. unfold String.ltb. destruct (String.compare a b); split; congruence. Qed.

Lemma ltb_trans (a b c : string) :
  String.ltb a b = true -> String.ltb b c = true -> String.ltb a c = true.
Proof. rewrite !ltb_lt. apply compare_lt_trans. Qed.

Lemma insert_unique_in (x : string) (l : list string) (y : string) :
  In y (Text.insert_unique x l) <-> y = x \/ In y l.
Proof.
  induction l as [|z l IH]; simpl; [intuition congruence|].
  destruct (String.compare x z) eqn:Hxz; simpl.
  - apply String.compare_eq_iff in Hxz. subst z. intuition congruence.
  - intuition congruence.
  - rewrite IH. intuition congruence.
Qed.

Lemma insert_unique_ascending (x : string) (l : list string) :
  ascending l -> ascending (Text.insert_unique x l).
Proof.
  unfold ascending. induction l as [|z l IH]; intros Hl; simpl.
  - constructor; constructor.
  - apply StronglySorted_inv in Hl as [Hrest Hhead].
    destruct (String.compare x z) eqn:Hxz.
    + now constructor.
    + constructor; [now constructor|].
      constructor; [now apply ltb_lt|].
      eapply Forall_impl; [|exact Hhead]. intros a Ha. cbn beta in Ha.
      eapply ltb_trans; [apply ltb_lt; exact Hxz|exact Ha].
    + constructor; [now apply IH|].
      apply Forall_forall. intros a Ha. apply insert_unique_in in Ha as [->|Ha].
      * apply ltb_lt. rewrite String.compare_antisym, Hxz. reflexivity.
      * revert a Ha. now apply Forall_forall.
Qed.

(** [sorted(set(xs))] is strictly ascending and has the elements of [xs]. *)
Lemma sorted_set_spec (xs : list string) :
  ascending (Text.sorted_set xs)
  /\ forall y, In y (Text.sorted_set xs) <-> In y xs.
Proof.
  unfold Text.sorted_set.
  assert (H : forall acc,
             ascending acc ->
             ascending (fold_left (fun acc x => Text.insert_unique x acc) xs acc)
             /\ forall y,
                 In y (fold_left (fun acc x => Text.insert_unique x acc) xs acc)
                 <-> In y acc \/ In y xs).
  { induction xs as [|x xs IH]; intros acc Hacc; simpl.
    - split; [exact Hacc|]. intuition.
    - destruct (IH (Text.insert_unique x acc) (insert_unique_ascending x acc Hacc))
        as [Hs Hin].
      split; [exact Hs|]. intros y. rewrite Hin, insert_unique_in. intuition. }
  destruct (H [] (SSorted_nil _)) as [Hs Hin]. split; [exact Hs|].
  intros y. rewrite Hin. simpl. intuition.
Qed.

Lemma ascending_nodup (l : list string) : ascending l -> NoDup l.
Proof.
  unfold ascending. induction l as [|x l IH]; intros Hl; constructor.
  - apply StronglySorted_inv in Hl as [_ Hhead]. intros Hin.
    rewrite Forall_forall in Hhead. specialize (Hhead x Hin).
    apply ltb_lt in Hhead. rewrite compare_refl in Hhead. discriminate.
  - apply IH. now apply StronglySorted_inv in Hl.
Qed.

End SortedSet.

(** X4: each category of [detect_sensitive_data] is a list of strings in
    strictly ascending order, so without repeats, holding exactly the
    texts its pattern matches in the document's text. *)
Theorem sensitive_categories_sorted_unique
  (reader : PdfReader) (category : string) (re : Re.regex) :
  In (category, re) categories ->
  exists l,
    field category (sensitive_of_reader reader) = Py.List (map Py.Str l)
    /\ ascending l
    /\ NoDup l
    /\ forall x, In x l <-> In x (Re.findall re (all_text reader)).
Proof.
  intros Hin. exists (Text.sorted_set (Re.findall re (all_text reader))).
  destruct (sorted_set_spec (Re.findall re (all_text reader))) as [Hs Hmem].
  split; [|split; [exact Hs|split; [now apply ascending_nodup|exact Hmem]]].
  unfold categories in Hin. simpl in Hin.
  destruct Hin as [[= <- <-]|[[= <- <-]|[[= <- <-]|[[= <- <-]|[]]]]]; reflexivity.
Qed.

Lemma sensitive_categories_witness :
  exists l,
    field "emails" (sensitive_of_reader test_pdf) = Py.List (map Py.Str l)
    /\ ascending l
    /\ NoDup l
    /\ forall x, In x l <-> In x (Re.findall Re.email_re (all_text test_pdf)).
Proof.
  apply (sensitive_categories_sorted_unique test_pdf "emails" Re.email_re).
  simpl. auto.
Defined.

Section NoWordCharacter.

Import Runs.

Lemma matches_bnd (r : Re.regex) (prev : option ascii) (s : string) (k : Re.cont) :
  Re.matches (Re.Seq Re.Bnd r) prev s k
  = if Re.at_boundary prev s then Re.matches r prev s k else None.
Proof. reflexivity. Qed.

(** Away from word characters there is no word boundary, and a pattern
    that starts with one finds nothing. *)
Lemma findall_no_word (r : Re.regex) :
  (forall prev s, Re.at_boundary prev s = false -> Re.matches r prev s Re.accept = None) ->
  forall s skip prev,
    no_word_char s = true ->
    Re.word_before prev = false ->
    Re.findall_from r skip prev s = [].
Proof.
  intros Hr. induction s as [|c s IH]; intros skip prev Hs Hprev.
  - simpl. unfold Re.match_here. rewrite Hr.
    + now destruct skip.
    + unfold Re.at_boundary. now rewrite Hprev.
  - simpl in Hs. apply andb_true_iff in Hs as [Hc Hs]. apply negb_true_iff in Hc.
    cbn [Re.findall_from]. destruct skip as [|skip].
    + unfold Re.match_here. rewrite Hr.
      * apply IH; [exact Hs|exact Hc].
      * unfold Re.at_boundary. simpl. now rewrite Hprev, Hc.
    + apply IH; [exact Hs|exact Hc].
Qed.

Lemma matches_alt (r1 r2 : Re.regex) (prev : option ascii) (s : string) (k : Re.cont) :
  Re.matches (Re.Alt r1 r2) prev s k
  = match Re.matches r1 prev s k with
    | Some rest => Some rest
    | None => Re.matches r2 prev s k
    end.
Proof. reflexivity. Qed.

Lemma patterns_need_a_boundary (prev : option ascii) (s : string) :
  Re.at_boundary prev s = false ->
  Re.matches Re.word_re prev s Re.accept = None
  /\ Re.matches Re.email_re prev s Re.accept = None
  /\ Re.matches Re.phone_re prev s Re.accept = None
  /\ Re.matches Re.url_re prev s Re.accept = None
  /\ Re.matches Re.date_re prev s Re.accept = None.
Proof.
  intros H. repeat split.
  - unfold Re.word_re. cbn [Re.seq fold_right]. now rewrite matches_bnd, H.
  - unfold Re.email_re. cbn [Re.seq fold_right]. now rewrite matches_bnd, H.
  - unfold Re.phone_re. cbn [Re.seq fold_right]. now rewrite matches_bnd, H.
  - unfold Re.url_re. cbn [Re.seq fold_right].
    now rewrite matches_alt, !matches_bnd, H.
  - unfold Re.date_re. cbn [Re.seq fold_right]. now rewrite matches_bnd, H.
Qed.

Lemma no_word_char_app (a b : string) :
  no_word_char (a ++ b) = no_word_char a && no_word_char b.
Proof.
  induction a as [|c a IH]; simpl; [reflexivity|].
  now rewrite IH, andb_assoc.
Qed.

Lemma no_word_char_join (texts : list string) :
  Forall (fun t => no_word_char t = true) texts ->
  no_word_char (Text.join Text.nl texts) = true.
Proof.
  unfold Text.join. induction texts as [|x [|y texts] IH]; intros H.
  - reflexivity.
  - now inversion H.
  - inversion H as [|? ? Hx Hrest]; subst.
    change (String.concat Text.nl (x :: y :: texts))
      with (x ++ Text.nl ++ String.concat Text.nl (y :: texts))%string.
    rewrite !no_word_char_app, Hx, (IH Hrest). reflexivity.
Qed.

End NoWordCharacter.

(** X5: a document whose pages hold no alphanumeric character and no
    underscore (blank pages, white space, punctuation) has no emails,
    phones, urls or dates, and a word count of 0. *)
Theorem blank_document_has_no_findings (reader : PdfReader) :
  Forall (fun page => Runs.no_word_char (page_text page) = true) (pages reader) ->
  sensitive_of_reader reader = empty_sensitive
  /\ field "word_count" (statistics_of_reader reader) = Py.Int 0.
Proof.
  intros Hpages.
  assert (Htext : Runs.no_word_char (all_text reader) = true).
  { rewrite all_text_join. apply no_word_char_join. now apply Forall_map. }
  assert (Hnone : forall r,
             (forall prev s, Re.at_boundary prev s = false ->
                             Re.matches r prev s Re.accept = None) ->
             Re.findall r (all_text reader) = []).
  { intros r Hr. now apply findall_no_word. }
  assert (Hw : Re.findall Re.word_re (all_text reader) = [])
    by (apply Hnone; intros prev s H; apply (patterns_need_a_boundary prev s H)).
  assert (He : Re.findall Re.email_re (all_text reader) = [])
    by (apply Hnone; intros prev s H; apply (patterns_need_a_boundary prev s H)).
  assert (Hp : Re.findall Re.phone_re (all_text reader) = [])
    by (apply Hnone; intros prev s H; apply (patterns_need_a_boundary prev s H)).
  assert (Hu : Re.findall Re.url_re (all_text reader) = [])
    by (apply Hnone; intros prev s H; apply (patterns_need_a_boundary prev s H)).
  assert (Hd : Re.findall Re.date_re (all_text reader) = [])
    by (apply Hnone; intros prev s H; apply (patterns_need_a_boundary prev s H)).
  unfold sensitive_of_reader, statistics_of_reader, found, field.
  cbn [Py.get Py.get_or Py.lookup String.eqb Ascii.eqb Bool.eqb andb].
  rewrite Hw, He, Hp, Hu, Hd. split; reflexivity.
Qed.

Lemma blank_document_witness :
  sensitive_of_reader {| pages := [None; Some " - "; Some ""]; metadata := None |}
  = empty_sensitive
  /\ field "word_count"
       (statistics_of_reader
          {| pages := [None; Some " - "; Some ""]; metadata := None |})
     = Py.Int 0.
Proof.
  apply (blank_document_has_no_findings
           {| pages := [None; Some " - "; Some ""]; metadata := None |}).
  repeat constructor.
Defined.

(** ** The analyzers agree *)

Lemma runs_of_nonempty (texts : list string) :
  flat_map Runs.maximal_runs (filter nonempty texts)
  = flat_map Runs.maximal_runs texts.
Proof.
  induction texts as [|t texts IH]; simpl; [reflexivity|].
  destruct t as [|c t]; simpl; [exact IH|]. now rewrite IH.
Qed.

(** X6: the two analyzers that read the pages agree: [page_count] is the
    number of entries [extract_text] lists, and [word_count] is the number
    of words in its [full_text], although that text leaves the empty
    pages out. *)
Theorem statistics_agree_with_extract_text (reader : PdfReader) :
  exists entries full_text,
    text_of_reader reader
    = Py.Dict [("pages", Py.List entries); ("full_text", Py.Str full_text)]
    /\ field "page_count" (statistics_of_reader reader)
       = Py.Int (Z.of_nat (List.length entries))
    /\ field "word_count" (statistics_of_reader reader)
       = Py.Int (Z.of_nat (List.length (Re.findall Re.word_re full_text))).
Proof.
  do 2 eexists. split; [apply text_of_reader_spec|]. split.
  - now rewrite length_map, enumerate_length.
  - rewrite word_count_runs, findall_word, maximal_runs_join by reflexivity.
    now rewrite runs_of_nonempty.
Qed.

(** ** The time stamp of a report *)

Lemma replace_offset (t : string) :
  no_plus t = true ->
  Text.replace "+00:00" "Z" (t ++ "+00:00") = (t ++ "Z")%string.
Proof.
  unfold Text.replace. induction t as [|c t IH]; intros H; [reflexivity|].
  simpl in H. apply andb_true_iff in H as [Hc Ht]. apply negb_true_iff in Hc.
  change ((String c t ++ "+00:00")%string) with (String c (t ++ "+00:00")).
  cbn [Text.replace_from String.prefix].
  destruct (ascii_dec "+" c) as [E|_].
  - subst c. discriminate Hc.
  - cbn [append]. now rewrite (IH Ht).
Qed.

(** X7: the report's time stamp is the clock's ISO text with its UTC
    offset "+00:00" replaced by "Z", whatever [generated_at_utc] the input
    carries. *)
Theorem generate_report_stamp
  (w : world) (d : list (string * Py.value)) (t : string) :
  utcnow w = (t ++ "+00:00")%string ->
  no_plus t = true ->
  exists r,
    generate_report (Py.Dict d) w = (Returned r, w)
    /\ field "generated_at_utc" r = Py.Str (t ++ "Z").
Proof.
  intros Hnow Ht. eexists. split; [reflexivity|].
  cbn. now rewrite Hnow, replace_offset.
Qed.

Lemma generate_report_stamp_witness :
  exists r,
    generate_report
      (Py.Dict [("blob_name", Py.Str "a.pdf"); ("generated_at_utc", Py.Str "old")]) w0
    = (Returned r, w0)
    /\ field "generated_at_utc" r = Py.Str ("2024-05-01T12:00:00.000001" ++ "Z").
Proof.
  apply (generate_report_stamp w0 _ "2024-05-01T12:00:00.000001"); reflexivity.
Defined.

(** ** store_report *)

Lemma store_report_run (w : world) (d : list (string * Py.value)) (C N : string) :
  Py.get_or d "container" (Py.Str "pdfs") = Py.Str C ->
  Py.get d "blob_name" = Py.Str N ->
  N <> "" ->
  store_report (Py.Dict d) w
  = (Returned (Py.Dict [("partition_key", Py.Str C); ("row_key", Py.Str N);
                        ("table", Py.Str (table_name w))]),
     with_table (upsert (C, N) (entity_of d w) (table w)) w).
Proof.
  intros HC HN HNne. apply String.eqb_neq in HNne.
  unfold store_report, as_dict. unfold bind at 1. unfold ret at 1. cbn beta iota.
  unfold entity_of. rewrite HC, HN. cbn [Py.truthy]. rewrite HNne. cbn [negb].
  generalize (Json.dumps (Py.Dict d)). intros text.
  unfold bind, gets, utc_stamp, upsert_entity, modify, ret. reflexivity.
Qed.

Lemma store_report_cases (payload : Py.value) (w : world) :
  (exists e, store_report payload w = (Raised e, w))
  \/ (exists d C N,
        payload = Py.Dict d
        /\ Py.get_or d "container" (Py.Str "pdfs") = Py.Str C
        /\ Py.get d "blob_name" = Py.Str N
        /\ N <> ""
        /\ store_report payload w
           = (Returned (Py.Dict [("partition_key", Py.Str C); ("row_key", Py.Str N);
                                 ("table", Py.Str (table_name w))]),
              with_table (upsert (C, N) (entity_of d w) (table w)) w)).
Proof.
  destruct payload as [| | | | | |d]; try (left; eexists; reflexivity).
  destruct (Py.truthy (Py.get d "blob_name")) eqn:Hn.
  - destruct (Py.get_or d "container" (Py.Str "pdfs")) as [| | | |C| |] eqn:HC;
      try (left; eexists; unfold store_report, as_dict; unfold bind at 1;
           unfold ret at 1; cbn beta iota; rewrite Hn, HC; reflexivity).
    destruct (Py.get d "blob_name") as [| | | |N| |] eqn:HN;
      try (left; eexists; unfold store_report, as_dict; unfold bind at 1;
           unfold ret at 1; cbn beta iota; rewrite HN, HC;
           cbn [Py.truthy] in Hn |- *; try rewrite Hn; reflexivity).
    right. exists d, C, N. repeat split; try assumption.
    + intros ->. discriminate Hn.
    + apply store_report_run; [exact HC|exact HN|]. intros ->. discriminate Hn.
  - left. eexists. unfold store_report, as_dict. unfold bind at 1. unfold ret at 1.
    cbn beta iota. rewrite Hn. reflexivity.
Qed.

(** X8: [store_report] writes all or nothing.  Either it raises and the
    world is as before (so for a payload without blob name, or with a
    container or blob name that is no string), or container and blob name
    are strings, the blob name is not empty, and the table has gained or
    merged exactly the entity of that key. *)
Theorem store_report_all_or_nothing (payload : Py.value) (w : world) :
  (exists e, store_report payload w = (Raised e, w))
  \/ (exists d C N ack,
        payload = Py.Dict d
        /\ Py.get_or d "container" (Py.Str "pdfs") = Py.Str C
        /\ Py.get d "blob_name" = Py.Str N
        /\ N <> ""
        /\ store_report payload w
           = (Returned ack, with_table (upsert (C, N) (entity_of d w) (table w)) w)).
Proof.
  destruct (store_report_cases payload w)
    as [Hraised|(d & C & N & Hd & HC & HN & Hne & Hrun)].
  - left. exact Hraised.
  - right. exists d, C, N. eexists. repeat split; eassumption.
Qed.

Section Table.

Lemma key_eqb_eq (c n : string) (k : string * string) :
  key_eqb c n k = true <-> k = (c, n).
Proof.
  destruct k as [a b]. unfold key_eqb. simpl.
  rewrite andb_true_iff, !String.eqb_eq. split.
  - now intros [-> ->].
  - now intros [= -> ->].
Qed.

Lemma upsert_twice_keys (k : string * string) (e e' : entity)
  (t : list (string * string * entity)) :
  map fst (upsert k e' (upsert k e t)) = map fst (upsert k e t).
Proof.
  assert (Hk : key_eqb (fst k) (snd k) k = true)
    by (apply key_eqb_eq; now destruct k).
  induction t as [|[k' old] t IH]; simpl.
  - now rewrite Hk.
  - destruct (key_eqb (fst k) (snd k) k') eqn:E; simpl.
    + now rewrite E.
    + destruct (key_ltb k k') eqn:L; simpl.
      * now rewrite Hk.
      * rewrite E, L. simpl. now rewrite IH.
Qed.

Lemma find_upsert_other (pk rk pk' rk' : string) (e : entity)
  (t : list (string * string * entity)) :
  (pk', rk') <> (pk, rk) ->
  find_entity pk' rk' (upsert (pk, rk) e t) = find_entity pk' rk' t.
Proof.
  intros Hne.
  assert (Hk : key_eqb pk' rk' (pk, rk) = false).
  { destruct (key_eqb pk' rk' (pk, rk)) eqn:E; [|reflexivity].
    apply key_eqb_eq in E. now destruct Hne. }
  induction t as [|[k' old] t IH]; simpl.
  - now rewrite Hk.
  - destruct (key_eqb pk rk k') eqn:E; simpl.
    + apply key_eqb_eq in E. subst k'. now rewrite Hk.
    + destruct (key_ltb (pk, rk) k'); simpl.
      * now rewrite Hk.
      * now rewrite IH.
Qed.

(** What the read path answers for one report, by what the table holds. *)
Lemma reports_get_one_run (w : world) (C N : string) :
  C <> "" -> N <> "" ->
  reports (get_one C N) w
  = (match find_entity C N (table w) with
     | Some e =>
         match Py.get_or e "report" (Py.Str "{}") with
         | Py.Str text => Returned (ok_response text)
         | Py.None_ => Returned (ok_response "")
         | v =>
             Returned
               (not_found
                  ("response is expected to be either of str, bytes, or "
                   ++ "bytearray, got " ++ Py.type_name v))
         end
     | None => Returned (not_found "The specified resource does not exist.")
     end, w).
Proof.
  intros HC HN. apply String.eqb_neq in HC, HN.
  unfold reports, get_one. cbn [route_params param String.eqb Ascii.eqb Bool.eqb andb].
  unfold present, nonempty. cbn [_safe_str]. rewrite HC, HN. cbn [negb].
  unfold try_except, get_entity. unfold bind, gets, ret.
  destruct (find_entity C N (table w)) as [e|]; [|reflexivity].
  destruct (Py.get_or e "report" (Py.Str "{}")); reflexivity.
Qed.

Lemma report_of_upsert (C N : string) (d : list (string * Py.value)) (w : world)
  (t : list (string * string * entity)) :
  exists e',
    find_entity C N (upsert (C, N) (entity_of d w) t) = Some e'
    /\ Py.get_or e' "report" (Py.Str "{}") = Py.Str (Json.dumps (Py.Dict d)).
Proof.
  destruct (find_upsert C N (entity_of d w) t) as (e' & Hfind & He').
  exists e'. split; [exact Hfind|].
  unfold entity_of in He'. generalize dependent (Json.dumps (Py.Dict d)).
  intros text He'. destruct He' as [->|[old ->]]; [reflexivity|].
  match goal with
  | |- context [merge_entity old (?a :: ?b :: ?c :: [?r])] =>
      assert (H := merge_last old [a; b; c] "report" (Py.Str text))
  end.
  cbn [app] in H. unfold Py.get, Py.get_or in H |- *.
  destruct (Py.lookup "report" _); [exact H|discriminate H].
Qed.

End Table.

(** X9: a second [store_report] for the same container and blob name
    makes no second entity: the table's keys are as after the first; and
    the report then served for that key is the second one. *)
Theorem store_report_overwrites
  (w : world) (d1 d2 : list (string * Py.value)) (C N : string) :
  Py.get_or d1 "container" (Py.Str "pdfs") = Py.Str C ->
  Py.get_or d2 "container" (Py.Str "pdfs") = Py.Str C ->
  Py.get d1 "blob_name" = Py.Str N ->
  Py.get d2 "blob_name" = Py.Str N ->
  C <> "" -> N <> "" ->
  exists w1 w2,
    snd (store_report (Py.Dict d1) w) = w1
    /\ snd (store_report (Py.Dict d2) w1) = w2
    /\ map fst (table w2) = map fst (table w1)
    /\ reports (get_one C N) w2
       = (Returned (ok_response (Json.dumps (Py.Dict d2))), w2).
Proof.
  intros HC1 HC2 HN1 HN2 HC HN. do 2 eexists.
  split; [reflexivity|]. split; [reflexivity|].
  rewrite (store_report_run w d1 C N HC1 HN1 HN). cbn [snd].
  rewrite (store_report_run _ d2 C N HC2 HN2 HN). cbn [snd].
  unfold with_table at 1 2 3. cbn [table]. split.
  - apply upsert_twice_keys.
  - rewrite (reports_get_one_run _ C N HC HN). unfold with_table at 1. cbn [table].
    match goal with
    | |- context [find_entity C N (upsert (C, N) (entity_of d2 ?w') ?t)] =>
        destruct (report_of_upsert C N d2 w' t) as (e' & -> & ->)
    end.
    reflexivity.
Qed.

Lemma store_report_overwrites_witness :
  exists w1 w2,
    snd (store_report (sample_report "pdfs" "a.pdf") w0) = w1
    /\ snd (store_report (job "pdfs" "a.pdf") w1) = w2
    /\ map fst (table w2) = map fst (table w1)
    /\ reports (get_one "pdfs" "a.pdf") w2
       = (Returned (ok_response (Json.dumps (job "pdfs" "a.pdf"))), w2).
Proof.
  apply (store_report_overwrites w0 _ _ "pdfs" "a.pdf");
    (reflexivity || discriminate).
Defined.

(** X10: [store_report] touches one key only: the entity under any other
    container and blob name is the one that was there, the blobs are
    untouched, and the read path answers for that other key as before. *)
Theorem store_report_touches_one_key
  (w : world) (d : list (string * Py.value)) (C N C' N' : string) :
  Py.get_or d "container" (Py.Str "pdfs") = Py.Str C ->
  Py.get d "blob_name" = Py.Str N ->
  N <> "" ->
  (C', N') <> (C, N) ->
  find_entity C' N' (table (snd (store_report (Py.Dict d) w)))
  = find_entity C' N' (table w)
  /\ blobs (snd (store_report (Py.Dict d) w)) = blobs w
  /\ (C' <> "" -> N' <> "" ->
      fst (reports (get_one C' N') (snd (store_report (Py.Dict d) w)))
      = fst (reports (get_one C' N') w)).
Proof.
  intros HC HN HNne Hother.
  rewrite (store_report_run w d C N HC HN HNne). cbn [snd].
  unfold with_table. cbn [table blobs].
  assert (Hfind := find_upsert_other C N C' N' (entity_of d w) (table w) Hother).
  split; [exact Hfind|]. split; [reflexivity|].
  intros HC' HN'. rewrite !(reports_get_one_run _ C' N' HC' HN').
  cbn [fst table]. now rewrite Hfind.
Qed.

Lemma store_report_touches_one_key_witness :
  find_entity "pdfs" "b.pdf"
    (table (snd (store_report (sample_report "pdfs" "a.pdf") three_reports)))
  = find_entity "pdfs" "b.pdf" (table three_reports)
  /\ blobs (snd (store_report (sample_report "pdfs" "a.pdf") three_reports))
     = blobs three_reports
  /\ ("pdfs" <> "" -> "b.pdf" <> "" ->
      fst (reports (get_one "pdfs" "b.pdf")
             (snd (store_report (sample_report "pdfs" "a.pdf") three_reports)))
      = fst (reports (get_one "pdfs" "b.pdf") three_reports)).
Proof.
  apply (store_report_touches_one_key three_reports _ "pdfs" "a.pdf" "pdfs" "b.pdf");
    (reflexivity || discriminate).
Defined.

Section KeyOrder.

Lemma key_ltb_asym (a b : string * string) :
  key_ltb a b = true -> key_ltb b a = false.
Proof.
  unfold key_ltb, String.ltb.
  pose proof (String.compare_antisym (fst b) (fst a)) as H1.
  pose proof (String.compare_antisym (snd b) (snd a)) as H2.
  destruct (String.compare (fst a) (fst b)); rewrite H1; simpl;
    try discriminate; [|reflexivity].
  destruct (String.compare (snd a) (snd b)); rewrite H2; simpl;
    try discriminate; reflexivity.
Qed.

Lemma key_ltb_trans (a b c : string * string) :
  key_ltb a b = true -> key_ltb b c = true -> key_ltb a c = true.
Proof.
  unfold key_ltb.
  destruct (String.compare (fst a) (fst b)) eqn:Hab; try discriminate.
  - apply String.compare_eq_iff in Hab. rewrite Hab.
    destruct (String.compare (fst b) (fst c)); try discriminate; [|reflexivity].
    apply ltb_trans.
  - intros _. destruct (String.compare (fst b) (fst c)) eqn:Hbc; try discriminate.
    + apply String.compare_eq_iff in Hbc. rewrite <- Hbc, Hab. reflexivity.
    + now rewrite (compare_lt_trans _ _ _ Hab Hbc).
Qed.

Lemma key_trichotomy (k k' : string * string) :
  key_eqb (fst k) (snd k) k' = false ->
  key_ltb k k' = false ->
  key_ltb k' k = true.
Proof.
  destruct k as [a b], k' as [a' b']. unfold key_eqb, key_ltb, String.ltb. simpl.
  pose proof (String.compare_antisym a' a) as H1.
  pose proof (String.compare_antisym b' b) as H2.
  destruct (String.compare a a') eqn:Ha; rewrite H1; simpl;
    try discriminate; [|reflexivity].
  apply String.compare_eq_iff in Ha. subst a'. rewrite String.eqb_refl. simpl.
  destruct (String.compare b b') eqn:Hb; rewrite H2; simpl;
    try discriminate; [|reflexivity].
  apply String.compare_eq_iff in Hb. subst b'. now rewrite String.eqb_refl.
Qed.

Lemma upsert_keys (k : string * string) (e : entity)
  (t : list (string * string * entity)) (x : string * string * entity) :
  In x (upsert k e t) -> fst x = k \/ In (fst x) (map fst t).
Proof.
  induction t as [|[k' old] t IH]; simpl.
  - intros [<-|[]]. now left.
  - destruct (key_eqb (fst k) (snd k) k') eqn:E.
    + intros [<-|H]; [right; left; reflexivity|].
      right. right. now apply in_map.
    + destruct (key_ltb k k').
      * intros [<-|[<-|H]]; [now left|right; now left|].
        right. right. now apply in_map.
      * intros [<-|H]; [right; now left|].
        destruct (IH H) as [Hk|Hin]; [now left|right; now right].
Qed.

(** An upsert keeps the keys in strictly ascending order. *)
Lemma upsert_sorted (k : string * string) (e : entity)
  (t : list (string * string * entity)) :
  sorted_table t -> sorted_table (upsert k e t).
Proof.
  unfold sorted_table. induction t as [|[k' old] t IH]; intros Ht; simpl.
  - constructor; constructor.
  - apply StronglySorted_inv in Ht as [Hrest Hhead].
    destruct (key_eqb (fst k) (snd k) k') eqn:E.
    + constructor; assumption.
    + destruct (key_ltb k k') eqn:L.
      * constructor; [now constructor|].
        constructor; [exact L|].
        eapply Forall_impl; [|exact Hhead]. intros x Hx. cbn [fst] in Hx |- *.
        eapply key_ltb_trans; eassumption.
      * constructor; [now apply IH|].
        apply Forall_forall. intros x Hx. cbn [fst].
        destruct (upsert_keys k e t x Hx) as [->|Hin].
        -- now apply key_trichotomy.
        -- apply in_map_iff in Hin as (y & Hy & Hin). rewrite <- Hy.
           rewrite Forall_forall in Hhead. now apply (Hhead y).
Qed.

Lemma sorted_table_nodup (t : list (string * string * entity)) :
  sorted_table t -> NoDup (map fst t).
Proof.
  unfold sorted_table. induction t as [|[k e] t IH]; intros Ht; simpl; constructor.
  - apply StronglySorted_inv in Ht as [_ Hhead]. intros Hin.
    apply in_map_iff in Hin as (y & Hy & Hin).
    rewrite Forall_forall in Hhead. specialize (Hhead y Hin). cbn [fst] in Hhead.
    rewrite Hy in Hhead. pose proof (key_ltb_asym _ _ Hhead). congruence.
  - apply IH. now apply StronglySorted_inv in Ht.
Qed.

Lemma find_entity_in (pk rk : string) (e : entity)
  (t : list (string * string * entity)) :
  find_entity pk rk t = Some e -> In ((pk, rk), e) t.
Proof.
  induction t as [|[k old] t IH]; simpl; [discriminate|].
  destruct (key_eqb pk rk k) eqn:E.
  - apply key_eqb_eq in E. subst k. intros [= ->]. now left.
  - intros H. right. now apply IH.
Qed.

(** In a sorted table an upsert meets the entity of its key and merges
    into it. *)
Lemma find_upsert_merge (pk rk : string) (e old : entity)
  (t : list (string * string * entity)) :
  sorted_table t ->
  find_entity pk rk t = Some old ->
  find_entity pk rk (upsert (pk, rk) e t) = Some (merge_entity old e).
Proof.
  unfold sorted_table. induction t as [|[k' o] t IH]; intros Ht; simpl; [discriminate|].
  apply StronglySorted_inv in Ht as [Hrest Hhead].
  destruct (key_eqb pk rk k') eqn:E.
  - intros [= ->]. simpl. now rewrite E.
  - intros Hfind. apply find_entity_in in Hfind as Hin.
    rewrite Forall_forall in Hhead. specialize (Hhead _ Hin). cbn [fst] in Hhead.
    rewrite (key_ltb_asym _ _ Hhead). simpl. rewrite E. now apply IH.
Qed.

Lemma merge_keeps (old e : entity) (k : string) :
  ~ In k (map fst e) -> Py.get (merge_entity old e) k = Py.get old k.
Proof.
  unfold merge_entity. revert old.
  induction e as [|[k' v] e IH]; intros old Hk; simpl; [reflexivity|].
  rewrite IH by (intros H; apply Hk; now right).
  apply get_set_other. intros ->. apply Hk. now left.
Qed.

End KeyOrder.

Lemma merge_sets (old e : entity) (k : string) (v : Py.value) :
  NoDup (map fst e) -> In (k, v) e -> Py.get (merge_entity old e) k = v.
Proof.
  revert old. induction e as [|[k' v'] e IH]; intros old Hnd Hin; [destruct Hin|].
  simpl in Hnd. inversion Hnd as [|? ? Hnot Hrest]; subst.
  change (merge_entity old ((k', v') :: e)) with (merge_entity (Py.set k' v' old) e).
  destruct Hin as [[= -> ->]|Hin].
  - rewrite (merge_keeps _ e k Hnot). apply get_set_same.
  - now apply IH.
Qed.

(** X11: when the table already holds an entity under the report's key,
    [store_report] merges into it: the four properties it writes are
    replaced, and every other property of the stored entity is kept. *)
Theorem store_report_merges_into_entity
  (w : world) (d : list (string * Py.value)) (C N : string) (old : entity) :
  Py.get_or d "container" (Py.Str "pdfs") = Py.Str C ->
  Py.get d "blob_name" = Py.Str N ->
  N <> "" ->
  sorted_table (table w) ->
  find_entity C N (table w) = Some old ->
  exists e',
    find_entity C N (table (snd (store_report (Py.Dict d) w))) = Some e'
    /\ (forall k v, In (k, v) (entity_of d w) -> Py.get e' k = v)
    /\ (forall k, ~ In k (map fst (entity_of d w)) -> Py.get e' k = Py.get old k).
Proof.
  intros HC HN HNne Hsorted Hold.
  rewrite (store_report_run w d C N HC HN HNne). cbn [snd].
  unfold with_table. cbn [table].
  exists (merge_entity old (entity_of d w)). split; [|split].
  - now apply find_upsert_merge.
  - intros k v Hin. apply merge_sets; [|exact Hin].
    unfold entity_of. simpl. repeat constructor; simpl; intuition discriminate.
  - intros k Hk. now apply merge_keeps.
Qed.

Lemma store_report_merges_witness :
  exists e',
    find_entity "pdfs" "b.pdf"
      (table (snd (store_report (sample_report "pdfs" "b.pdf")
                     (with_table
                        [(("pdfs", "b.pdf"),
                          [("PartitionKey", Py.Str "pdfs"); ("RowKey", Py.Str "b.pdf");
                           ("report", Py.Str "{}"); ("reviewed", Py.Bool true)])]
                        w0))))
    = Some e'
    /\ Py.get e' "report" = Py.Str (Json.dumps (sample_report "pdfs" "b.pdf"))
    /\ Py.get e' "reviewed" = Py.Bool true.
Proof.
  destruct (store_report_merges_into_entity
              (with_table
                 [(("pdfs", "b.pdf"),
                   [("PartitionKey", Py.Str "pdfs"); ("RowKey", Py.Str "b.pdf");
                    ("report", Py.Str "{}"); ("reviewed", Py.Bool true)])]
                 w0)
              [("container", Py.Str "pdfs"); ("blob_name", Py.Str "b.pdf");
               ("generated_at_utc", Py.Str "2024-05-01T12:00:00Z");
               ("extract_text", empty_text); ("extract_metadata", Py.Dict []);
               ("analyze_statistics", empty_statistics);
               ("detect_sensitive_data", empty_sensitive)]
              "pdfs" "b.pdf"
              [("PartitionKey", Py.Str "pdfs"); ("RowKey", Py.Str "b.pdf");
               ("report", Py.Str "{}"); ("reviewed", Py.Bool true)]
              eq_refl eq_refl)
    as (e' & Hfind & Hnew & Hkept).
  - discriminate.
  - repeat constructor.
  - reflexivity.
  - exists e'. split; [exact Hfind|]. split.
    + apply Hnew. simpl. auto.
    + rewrite Hkept; [reflexivity|]. simpl. intuition discriminate.
Defined.

Lemma store_report_table (payload : Py.value) (w : world) :
  table (snd (store_report payload w)) = table w
  \/ exists k e, table (snd (store_report payload w)) = upsert k e (table w).
Proof.
  destruct (store_report_cases payload w)
    as [[e ->]|(d & C & N & _ & _ & _ & _ & ->)].
  - now left.
  - right. now exists (C, N), (entity_of d w).
Qed.

(** X12: [store_report] keeps the table's keys in strictly ascending
    order, whatever the payload; so no container and blob name ever has
    two entities. *)
Theorem store_report_keeps_keys_unique (payload : Py.value) (w : world) :
  sorted_table (table w) ->
  sorted_table (table (snd (store_report payload w)))
  /\ NoDup (map fst (table (snd (store_report payload w)))).
Proof.
  intros Hsorted.
  assert (H : sorted_table (table (snd (store_report payload w)))).
  { destruct (store_report_table payload w) as [->|(k & e & ->)];
      [exact Hsorted|now apply upsert_sorted]. }
  split; [exact H|now apply sorted_table_nodup].
Qed.

Lemma store_report_keeps_keys_unique_witness :
  sorted_table (table (snd (store_report (sample_report "pdfs" "ab.pdf") three_reports)))
  /\ NoDup (map fst (table (snd (store_report (sample_report "pdfs" "ab.pdf")
                                   three_reports)))).
Proof.
  apply (store_report_keeps_keys_unique _ three_reports).
  repeat constructor.
Defined.

(** ** The read path *)

(** X13: the read path never writes, whatever the request and whatever it
    answers; and an answer is JSON with status 200, 400, 404 or 500. *)
Theorem reports_never_writes (req : HttpRequest) (w : world) :
  snd (reports req w) = w
  /\ forall resp,
       fst (reports req w) = Returned resp ->
       mimetype resp = "application/json"
       /\ (status_code resp = 200 \/ status_code resp = 400
           \/ status_code resp = 404 \/ status_code resp = 500)%Z.
Proof.
  unfold reports.
  destruct (present (param "container" (route_params req))); cbn [negb];
    [|split; [reflexivity|intros resp [= <-]; simpl; auto]].
  destruct (present (param "blob_name" (route_params req))).
  - unfold try_except, get_entity. unfold bind, gets, ret.
    destruct (find_entity _ _ (table w)) as [e|];
      [|split; [reflexivity|intros resp [= <-]; simpl; auto]].
    destruct (Py.get_or e "report" (Py.Str "{}"));
      (split; [reflexivity|intros resp [= <-]; simpl; auto]).
  - unfold try_except, bind.
    match goal with
    | |- context [_query_entities_compat ?text w] =>
        pose proof (query_leaves_world text w) as Hw;
        destruct (_query_entities_compat text w) as [[entities|e] w']
    end; cbn [snd] in Hw; subst w'; unfold ret.
    + destruct (sort_desc _) as [items|e].
      * split; [reflexivity|intros resp [= <-]; simpl; auto 6].
      * split; [reflexivity|intros resp [=]].
    + split; [reflexivity|intros resp [= <-]; simpl; auto 6].
Qed.

(** X14: what the read path answers for one report.  Without an entity
    under the container and blob name it is 404 "Report not found" with
    the failure's text as details.  With one it is 200 and the entity's
    [report] text as it is stored, or the text of an empty object when the
    entity has no [report]; but when the [report] of the entity is no
    text, building the response fails and the answer is 404 "Report not
    found" too, although the entity is there (a null [report] gives 200
    with an empty body). *)
Theorem get_one_answers (w : world) (C N : string) :
  C <> "" ->
  N <> "" ->
  (find_entity C N (table w) = None ->
   exists details, reports (get_one C N) w = (Returned (not_found details), w))
  /\ (forall e text,
        find_entity C N (table w) = Some e ->
        Py.lookup "report" e = Some (Py.Str text) ->
        reports (get_one C N) w = (Returned (ok_response text), w))
  /\ (forall e,
        find_entity C N (table w) = Some e ->
        Py.lookup "report" e = None ->
        reports (get_one C N) w = (Returned (ok_response "{}"), w))
  /\ (forall e,
        find_entity C N (table w) = Some e ->
        Py.lookup "report" e = Some Py.None_ ->
        reports (get_one C N) w = (Returned (ok_response ""), w))
  /\ (forall e v,
        find_entity C N (table w) = Some e ->
        Py.lookup "report" e = Some v ->
        v <> Py.None_ ->
        (forall text, v <> Py.Str text) ->
        exists details,
          reports (get_one C N) w = (Returned (not_found details), w)).
Proof.
  intros HC HN. rewrite (reports_get_one_run w C N HC HN).
  split; [|split; [|split; [|split]]].
  - intros ->. now eexists.
  - intros e text -> Hreport. unfold Py.get_or. now rewrite Hreport.
  - intros e -> Hnone. unfold Py.get_or. now rewrite Hnone.
  - intros e -> Hnull. unfold Py.get_or. now rewrite Hnull.
  - intros e v -> Hv Hnull Htext. unfold Py.get_or. rewrite Hv.
    destruct v; try (eexists; reflexivity).
    + now contradiction Hnull.
    + now contradiction (Htext s).
Qed.

Lemma get_one_answers_witness :
  (exists details,
     reports (get_one "pdfs" "z.pdf") three_reports
     = (Returned (not_found details), three_reports))
  /\ reports (get_one "pdfs" "a.pdf") three_reports
     = (Returned (ok_response "{}"), three_reports)
  /\ reports (get_one "pdfs" "b.pdf")
       (with_table [(("pdfs", "b.pdf"), [("RowKey", Py.Str "b.pdf")])] w0)
     = (Returned (ok_response "{}"),
        with_table [(("pdfs", "b.pdf"), [("RowKey", Py.Str "b.pdf")])] w0)
  /\ (exists details,
        reports (get_one "pdfs" "b.pdf")
          (with_table [(("pdfs", "b.pdf"), [("report", Py.Int 7)])] w0)
        = (Returned (not_found details),
           with_table [(("pdfs", "b.pdf"), [("report", Py.Int 7)])] w0)).
Proof.
  destruct (get_one_answers three_reports "pdfs" "z.pdf") as (Hnone & _);
    [discriminate|discriminate|].
  destruct (get_one_answers three_reports "pdfs" "a.pdf") as (_ & Htext & _);
    [discriminate|discriminate|].
  destruct (get_one_answers
              (with_table [(("pdfs", "b.pdf"), [("RowKey", Py.Str "b.pdf")])] w0)
              "pdfs" "b.pdf") as (_ & _ & Hdefault & _);
    [discriminate|discriminate|].
  destruct (get_one_answers
              (with_table [(("pdfs", "b.pdf"), [("report", Py.Int 7)])] w0)
              "pdfs" "b.pdf") as (_ & _ & _ & _ & Hother);
    [discriminate|discriminate|].
  split; [|split; [|split]].
  - apply Hnone. reflexivity.
  - apply (Htext (snd (stored "pdfs" "a.pdf" "2024-01-01Z"))); reflexivity.
  - apply (Hdefault [("RowKey", Py.Str "b.pdf")]); reflexivity.
  - apply (Hother [("report", Py.Int 7)] (Py.Int 7)); try reflexivity; discriminate.
Defined.

Section StableListing.

Lemma key_lt_differ (x y : Py.value) :
  has_text_key x -> has_text_key y ->
  key_lt (sort_key x) (sort_key y) = Returned true -> key_text x <> key_text y.
Proof.
  intros Hx Hy. rewrite (key_lt_text x y Hx Hy). intros [= H] Heq.
  rewrite Heq in H. apply ltb_lt in H. rewrite compare_refl in H. discriminate.
Qed.

Lemma with_key_swap (k : string) (x y : Py.value) (l : list Py.value) :
  key_text x <> key_text y ->
  with_key k (y :: x :: l) = with_key k (x :: y :: l).
Proof.
  intros Hne. unfold with_key. simpl.
  destruct (String.eqb (key_text x) k) eqn:Ex, (String.eqb (key_text y) k) eqn:Ey;
    try reflexivity.
  apply String.eqb_eq in Ex, Ey. congruence.
Qed.

Lemma insert_desc_with_key (k : string) (x : Py.value) (l l' : list Py.value) :
  has_text_key x -> Forall has_text_key l ->
  insert_desc x l = Returned l' -> with_key k l' = with_key k (x :: l).
Proof.
  intros Hx. revert l'. induction l as [|y l IH]; intros l' Hl; cbn [insert_desc].
  - now intros [= <-].
  - inversion Hl as [|? ? Hy Hl']; subst.
    destruct (key_lt (sort_key x) (sort_key y)) as [[|]|e] eqn:Hlt; try discriminate.
    + destruct (insert_desc x l) as [l''|e]; try discriminate.
      intros [= <-]. rewrite <- (with_key_swap k x y l (key_lt_differ x y Hx Hy Hlt)).
      unfold with_key in IH |- *. cbn [filter]. rewrite (IH l'' Hl' eq_refl).
      reflexivity.
    + now intros [= <-].
Qed.

(** The sort is stable: items sorted by the same text keep their order. *)
Lemma sort_desc_stable (k : string) (items sorted : list Py.value) :
  Forall has_text_key items ->
  sort_desc items = Returned sorted -> with_key k sorted = with_key k items.
Proof.
  revert sorted. induction items as [|x items IH]; intros sorted Hkeys;
    cbn [sort_desc].
  - now intros [= <-].
  - inversion Hkeys as [|? ? Hx Hrest]; subst.
    destruct (sort_desc_sorted items Hrest) as (s' & Hs' & Hperm & _).
    rewrite Hs'. intros H.
    assert (Hsk : Forall has_text_key s')
      by (apply (Permutation_Forall (Permutation_sym Hperm)), Hrest).
    rewrite (insert_desc_with_key k x s' sorted Hx Hsk H).
    unfold with_key in IH |- *. cbn [filter]. now rewrite (IH s' Hrest Hs').
Qed.

End StableListing.

(** X15: the list is stable and bounded: for a container whose name has
    no single quote, reports with the same [generated_at_utc] are listed
    in the order the table holds them, and the list has as many items as
    the container has reports, up to the limit [N], so never more than
    200.  [N] is the requested limit clamped to 1..200, and 50 is
    requested by a request without [top], with a [top] of more than 4300
    digits, or with a [top] that is empty or has a stray character. *)
Theorem reports_list_is_stable_and_bounded
  (w : world) (req : HttpRequest) (c : string) :
  param "container" (route_params req) = Some c ->
  c <> "" ->
  no_quote c = true ->
  present (param "blob_name" (route_params req)) = false ->
  Forall (fun e => str_or_null (Py.get e "generated_at_utc") = true) (stored_in c w) ->
  exists (N : Z) (items : list Py.value),
    reports req w = (Returned (json_response (Py.List items) 200), w)
    /\ (param "top" (params req) = None -> N = 50%Z)
    /\ (forall z,
          param "top" (params req) = Some (Num.str_of_int z) ->
          (String.length (Num.str_of_int (Z.abs z)) <= 4300)%nat ->
          N = Z.max 1 (Z.min z 200))
    /\ (forall z,
          param "top" (params req) = Some (Num.str_of_int z) ->
          (4300 < String.length (Num.str_of_int (Z.abs z)))%nat ->
          N = 50%Z)
    /\ (forall t,
          param "top" (params req) = Some t ->
          t = "" \/ has_stray_character t = true ->
          N = 50%Z)
    /\ (forall k,
          with_key k items
          = with_key k (map item_of (firstn (Z.to_nat N) (stored_in c w))))
    /\ List.length items = Nat.min (Z.to_nat N) (List.length (stored_in c w))
    /\ (List.length items <= 200)%nat.
Proof.
  intros Hc Hne Hq Hblob Hkeys.
  pose proof (top_of_range req) as Htop.
  destruct (top_of_spec req) as (Hnone & Hint & Hlong & Hbad).
  assert (Hitems : collect (top_of req) (stored_in c w) []
                   = map item_of (firstn (Z.to_nat (top_of req)) (stored_in c w))).
  { rewrite collect_firstn by (simpl; lia). simpl. now rewrite Nat.sub_0_r. }
  assert (Htext : Forall has_text_key (collect (top_of req) (stored_in c w) [])).
  { rewrite Hitems. apply Forall_map.
    apply Forall_forall. intros e He. apply item_has_text_key.
    apply in_firstn in He. revert e He. now apply Forall_forall. }
  destruct (sort_desc_sorted _ Htext) as (sorted & Hsort & Hperm & _).
  assert (Hlen : List.length sorted
                 = Nat.min (Z.to_nat (top_of req)) (List.length (stored_in c w))).
  { rewrite (Permutation_length Hperm), Hitems, length_map. apply length_firstn. }
  exists (top_of req), sorted.
  split; [|split; [|split; [|split; [|split; [|split; [|split]]]]]].
  - rewrite (reports_list_run w req c Hc Hne Hq Hblob). now rewrite Hsort.
  - exact Hnone.
  - exact Hint.
  - exact Hlong.
  - exact Hbad.
  - intros k. rewrite (sort_desc_stable k _ _ Htext Hsort). now rewrite Hitems.
  - exact Hlen.
  - rewrite Hlen. lia.
Qed.

Lemma reports_list_is_stable_witness :
  exists items,
    reports (list_top "pdfs" "2") three_reports
    = (Returned (json_response (Py.List items) 200), three_reports)
    /\ (forall k,
          with_key k items
          = with_key k (map item_of (firstn 2 (stored_in "pdfs" three_reports))))
    /\ List.length items = 2%nat.
Proof.
  destruct (reports_list_is_stable_and_bounded three_reports (list_top "pdfs" "2")
              "pdfs")
    as (N & items & Hrun & _ & Hint & _ & _ & Hstable & Hlen & _).
  - reflexivity.
  - discriminate.
  - reflexivity.
  - reflexivity.
  - repeat constructor.
  - assert (HN : N = 2%Z).
    { apply (Hint 2%Z); [reflexivity|]. simpl. lia. }
    subst N. exists items. split; [exact Hrun|]. split; [exact Hstable|exact Hlen].
Defined.

(** ** The workflow, end to end *)

Section Workflow.

Lemma container_nonempty (d : list (string * Py.value)) (c : string) :
  container_of d = Py.Str c -> c <> "".
Proof.
  unfold container_of, Py.or_.
  destruct (Py.truthy (Py.get d "container")) eqn:Ht.
  - intros H. rewrite H in Ht. simpl in Ht. intros ->. discriminate Ht.
  - intros [= <-]. discriminate.
Qed.

Lemma analysis_of_job empty fault of_reader (c n : string) (b : pdf_bytes) bs :
  c <> "" -> n <> "" ->
  find_blob c n bs = Some b ->
  analysis empty fault of_reader [("container", Py.Str c); ("blob_name", Py.Str n)] bs
  = reading fault of_reader b.
Proof.
  intros Hc Hn Hblob. apply String.eqb_neq in Hc, Hn.
  unfold analysis, container_of, Py.or_.
  cbn [Py.get Py.get_or Py.lookup String.eqb Ascii.eqb Bool.eqb andb Py.truthy].
  rewrite Hc, Hn. cbn [negb]. now rewrite Hblob.
Qed.

Lemma results_are_truthy (reader : PdfReader) :
  Py.truthy (text_of_reader reader) = true
  /\ Py.truthy (metadata_of_reader reader) = true
  /\ Py.truthy (statistics_of_reader reader) = true
  /\ Py.truthy (sensitive_of_reader reader) = true.
Proof. repeat split. Qed.

Lemma generate_report_of_results (c n : string) (reader : PdfReader) (w : world) :
  generate_report
    (Py.Dict
       [("container", Py.Str c); ("blob_name", Py.Str n);
        ("extract_text", text_of_reader reader);
        ("extract_metadata", metadata_of_reader reader);
        ("analyze_statistics", statistics_of_reader reader);
        ("detect_sensitive_data", sensitive_of_reader reader)]) w
  = (Returned (report_of (Py.Str c) (Py.Str n) reader w), w).
Proof.
  destruct (results_are_truthy reader) as (Ht & Hm & Hs & Hd).
  unfold generate_report, as_dict, utc_stamp, report_of. unfold bind, gets, ret.
  cbn [Py.get Py.get_or Py.lookup String.eqb Ascii.eqb Bool.eqb andb].
  now rewrite !or_truthy.
Qed.

Lemma store_report_of_report (c n : string) (reader : PdfReader) (wr : world) :
  n <> "" ->
  exists d,
    report_of (Py.Str c) (Py.Str n) reader wr = Py.Dict d
    /\ forall w,
         store_report (Py.Dict d) w
         = (Returned (Py.Dict [("partition_key", Py.Str c); ("row_key", Py.Str n);
                               ("table", Py.Str (table_name w))]),
            with_table (upsert (c, n) (entity_of d w) (table w)) w).
Proof.
  intros Hne. unfold report_of. eexists. split; [reflexivity|].
  intros w. now apply store_report_run.
Qed.

End Workflow.

(** X16: for a stored, readable document the workflow runs to its end:
    the four analyzers, [generate_report] and [store_report] are scheduled
    in that order; the result is the report made of the resolved
    container, the blob name, the time stamp and the four analyzers'
    results; the blobs are untouched; and the read path then serves
    exactly that report's JSON text for the container and blob name. *)
Theorem workflow_builds_and_serves_the_report
  (w : world) (d : list (string * Py.value)) (c n : string) (reader : PdfReader) :
  container_of d = Py.Str c ->
  Py.get d "blob_name" = Py.Str n ->
  n <> "" ->
  find_blob c n (blobs w) = Some (Pdf reader) ->
  exists w',
    PdfOrchestrator (Py.Dict d) w
    = (Returned (report_of (Py.Str c) (Py.Str n) reader w), w')
    /\ map fst (scheduled w')
       = map fst (scheduled w) ++ map fst analyzers
         ++ ["generate_report"; "store_report"]
    /\ blobs w' = blobs w
    /\ reports (get_one c n) w'
       = (Returned
            (ok_response (Json.dumps (report_of (Py.Str c) (Py.Str n) reader w))),
          w').
Proof.
  intros Hc Hn Hne Hblob.
  pose proof (container_nonempty d c Hc) as Hcne.
  unfold PdfOrchestrator.
  assert (Hd : as_dict (Py.or_ (Py.Dict d) (Py.Dict [])) = ret d)
    by (destruct d; reflexivity).
  rewrite Hd. unfold bind at 1. unfold ret at 1.
  change (Py.or_ (Py.get d "container") (Py.Str "pdfs")) with (container_of d).
  rewrite Hc, Hn. cbn [Py.truthy].
  apply String.eqb_neq in Hne as Hne'. rewrite Hne'. cbn [negb].
  unfold bind at 1. rewrite fan_out_run.
  rewrite !(analysis_of_job _ _ _ c n _ (blobs w) Hcne Hne Hblob).
  cbn [reading pages_fault info_fault join_all].
  destruct (store_report_of_report c n reader w Hne) as (rd & Hrd & Hstore).
  unfold bind at 1. unfold call_activity at 1. unfold bind at 1. unfold modify at 1.
  cbn [activity String.eqb Ascii.eqb Bool.eqb andb].
  rewrite generate_report_of_results.
  match goal with
  | |- context [report_of (Py.Str c) (Py.Str n) reader ?w2] =>
      change (report_of (Py.Str c) (Py.Str n) reader w2)
        with (report_of (Py.Str c) (Py.Str n) reader w)
  end.
  rewrite Hrd.
  unfold bind at 1. unfold call_activity at 1. unfold bind at 1. unfold modify at 1.
  cbn [activity String.eqb Ascii.eqb Bool.eqb andb].
  rewrite Hstore.
  unfold ret. eexists. split; [reflexivity|]. split; [|split].
  - unfold with_table, with_scheduled. cbn [scheduled].
    rewrite !map_app, map_map. cbn [map fst]. now rewrite <- !app_assoc.
  - reflexivity.
  - rewrite (reports_get_one_run _ c n Hcne Hne). unfold with_table at 1. cbn [table].
    match goal with
    | |- context [find_entity c n (upsert (c, n) (entity_of rd ?w') ?t)] =>
        destruct (report_of_upsert c n rd w' t) as (e' & -> & ->)
    end.
    reflexivity.
Qed.

Lemma workflow_builds_and_serves_witness :
  exists w',
    PdfOrchestrator (job "" "test.pdf") w0
    = (Returned (report_of (Py.Str "pdfs") (Py.Str "test.pdf") test_pdf w0), w')
    /\ map fst (scheduled w')
       = map fst (scheduled w0) ++ map fst analyzers
         ++ ["generate_report"; "store_report"]
    /\ blobs w' = blobs w0
    /\ reports (get_one "pdfs" "test.pdf") w'
       = (Returned
            (ok_response
               (Json.dumps (report_of (Py.Str "pdfs") (Py.Str "test.pdf") test_pdf w0))),
          w').
Proof.
  apply (workflow_builds_and_serves_the_report w0 _ "pdfs" "test.pdf" test_pdf);
    (reflexivity || discriminate).
Defined.
